(** * start_new_investigation.py: a shallow embedding and its properties

    The script scaffolds an investigation folder from a notebook template.
    This development embeds the leveled logger (class [MSG]), the template
    discovery ([get_list_of_notebooks]), the directory naming and creation
    ([create_directory]) and the interactive orchestrator ([main]) as
    executable Rocq functions over an explicit program state (file system
    tree, standard output, scripted standard input, the two process-wide
    configuration values), and proves properties of them.

    Conventions.
    - A Python [str] is a [string]: a sequence of Unicode code points.
      String literals are read as UTF-8.  Input lines and file names are
      well-formed text (no lone surrogates), so printing them and handing
      them to the file system encodes them as UTF-8.
    - The limits that the program can run into are modelled where it
      creates an entry or converts a number: a new file or directory name
      has at most [NAME_MAX] bytes, and [int] takes at most 4300 digits.
    - A [Path] is the list of its components, relative to the working
      directory.
    - Exceptions are values of [exn]; a computation returns [Ret v] or
      [Raise e] together with the state it leaves behind. *)

From Stdlib Require Import List Bool Arith ZArith NArith Lia Strings.Byte.
Import ListNotations.

Set Implicit Arguments.

(* ================================================================== *)
(** * Text                                                              *)
(* ================================================================== *)

(** A character of a [str]: its code point. *)
Definition char : Set := N.

(** A [str]. *)
Inductive string : Set :=
| EmptyString
| String (c : char) (s : string).

Module String.

Fixpoint append (a b : string) : string :=
  match a with
  | EmptyString => b
  | String c a' => String c (append a' b)
  end.

(** [len(s)]. *)
Fixpoint length (s : string) : nat :=
  match s with
  | EmptyString => 0
  | String _ s' => S (length s')
  end.

(** [a == b]. *)
Fixpoint eqb (a b : string) : bool :=
  match a, b with
  | EmptyString, EmptyString => true
  | String c a', String d b' => N.eqb c d && eqb a' b'
  | _, _ => false
  end.

(** [s.startswith(p)]. *)
Fixpoint prefix (p s : string) : bool :=
  match p with
  | EmptyString => true
  | String c p' =>
      match s with
      | EmptyString => false
      | String d s' => N.eqb c d && prefix p' s'
      end
  end.

(** Reading a literal: the code points of a UTF-8 byte sequence.
    [pending] continuation bytes are still expected for the code point
    whose leading bits are [acc]. *)
Fixpoint utf8_decode (pending : nat) (acc : N) (bs : list Byte.byte) : string :=
  match bs with
  | [] => EmptyString
  | b :: bs' =>
      let n := Byte.to_N b in
      match pending with
      | 0 =>
          if (n <? 128)%N then String n (utf8_decode 0 0%N bs')
          else if (n <? 224)%N then utf8_decode 1 (n - 192)%N bs'
          else if (n <? 240)%N then utf8_decode 2 (n - 224)%N bs'
          else utf8_decode 3 (n - 240)%N bs'
      | S p =>
          let acc' := (acc * 64 + (n - 128))%N in
          match p with
          | 0 => String acc' (utf8_decode 0 0%N bs')
          | _ => utf8_decode p acc' bs'
          end
      end
  end.

Definition byte_of (n : N) : Byte.byte :=
  match Byte.of_N n with
  | Some b => b
  | None => Byte.x00
  end.

(** The UTF-8 bytes of a code point. *)
Definition utf8_char (c : char) : list Byte.byte :=
  if (c <? 128)%N then [byte_of c]
  else if (c <? 2048)%N then [byte_of (192 + c / 64); byte_of (128 + c mod 64)]
  else if (c <? 65536)%N then
    [byte_of (224 + c / 4096); byte_of (128 + (c / 64) mod 64);
     byte_of (128 + c mod 64)]
  else
    [byte_of (240 + c / 262144); byte_of (128 + (c / 4096) mod 64);
     byte_of (128 + (c / 64) mod 64); byte_of (128 + c mod 64)].

Fixpoint utf8_encode (s : string) : list Byte.byte :=
  match s with
  | EmptyString => []
  | String c s' => (utf8_char c ++ utf8_encode s')%list
  end.

Definition parse (bs : list Byte.byte) : string := utf8_decode 0 0%N bs.
Definition print (s : string) : list Byte.byte := utf8_encode s.

(** The number of bytes of the UTF-8 encoding, which is what the file
    system counts in a file name. *)
Definition utf8_length (s : string) : nat := List.length (utf8_encode s).

End String.

Declare Scope text_scope.
Delimit Scope text_scope with text.
Bind Scope text_scope with string.
String Notation string String.parse String.print : text_scope.
Notation "x ++ y" := (String.append x y) (right associativity, at level 60)
  : text_scope.

Local Open Scope list_scope.
Local Open Scope text_scope.
Local Open Scope nat_scope.

(* ================================================================== *)
(** * Characters and string methods                                     *)
(* ================================================================== *)

Module Str.

Definition between (lo hi : N) (c : char) : bool :=
  ((lo <=? c) && (c <=? hi))%N.

(** The ASCII digits, [0-9] in a character class. *)
Definition is_ascii_digit (c : char) : bool := between 48 57 c.

Definition is_lower (c : char) : bool := between 97 122 c.
Definition is_upper (c : char) : bool := between 65 90 c.

(** The decimal digits of Unicode 14.0 (category Nd, as CPython 3.11 has
    it): runs of ten code points with the values 0 to 9, first and last
    code point of each (the mathematical digits are five such runs in
    one). *)
Definition digit_runs : list (N * N) :=
  [
   (48, 57); (1632, 1641); (1776, 1785); (1984, 1993); (2406, 2415);
   (2534, 2543); (2662, 2671); (2790, 2799); (2918, 2927); (3046, 3055);
   (3174, 3183); (3302, 3311); (3430, 3439); (3558, 3567); (3664, 3673);
   (3792, 3801); (3872, 3881); (4160, 4169); (4240, 4249); (6112, 6121);
   (6160, 6169); (6470, 6479); (6608, 6617); (6784, 6793); (6800, 6809);
   (6992, 7001); (7088, 7097); (7232, 7241); (7248, 7257); (42528, 42537);
   (43216, 43225); (43264, 43273); (43472, 43481); (43504, 43513); (43600, 43609);
   (44016, 44025); (65296, 65305); (66720, 66729); (68912, 68921); (69734, 69743);
   (69872, 69881); (69942, 69951); (70096, 70105); (70384, 70393); (70736, 70745);
   (70864, 70873); (71248, 71257); (71360, 71369); (71472, 71481); (71904, 71913);
   (72016, 72025); (72784, 72793); (73040, 73049); (73120, 73129); (92768, 92777);
   (92864, 92873); (93008, 93017); (120782, 120831); (123200, 123209); (123632, 123641);
   (125264, 125273); (130032, 130041)
  ]%N.

Fixpoint find_run (c : char) (runs : list (N * N)) : option N :=
  match runs with
  | [] => None
  | (lo, hi) :: runs' => if between lo hi c then Some lo else find_run c runs'
  end.

(** [\d] in a pattern on a [str]: any Unicode decimal digit. *)
Definition is_digit (c : char) : bool :=
  match find_run c digit_runs with
  | Some _ => true
  | None => false
  end.

(** The value of a decimal digit, as [int] reads it. *)
Definition digit_value (c : char) : nat :=
  match find_run c digit_runs with
  | Some lo => N.to_nat ((c - lo) mod 10)
  | None => 0
  end.

(** The white space of [str.isspace], [str.strip] and [\s]. *)
Definition spaces : list N :=
  [
   9; 10; 11; 12; 13; 28; 29; 30; 31; 32;
   133; 160; 5760; 8192; 8193; 8194; 8195; 8196; 8197; 8198;
   8199; 8200; 8201; 8202; 8232; 8233; 8239; 8287; 12288
  ]%N.

Definition is_space (c : char) : bool := existsb (N.eqb c) spaces.

Definition newline : char := 10%N.
Definition tab : char := 9%N.
Definition hash : char := 35%N.
Definition dot : char := 46%N.

Fixpoint forallb (p : char -> bool) (s : string) : bool :=
  match s with
  | EmptyString => true
  | String c s' => p c && forallb p s'
  end.

Fixpoint snoc (s : string) (c : char) : string :=
  match s with
  | EmptyString => String c EmptyString
  | String d s' => String d (snoc s' c)
  end.

(** [str.lstrip()], [str.rstrip()], [str.strip()] with no argument. *)
Fixpoint lstrip (s : string) : string :=
  match s with
  | EmptyString => EmptyString
  | String c s' => if is_space c then lstrip s' else s
  end.

Fixpoint rstrip (s : string) : string :=
  match s with
  | EmptyString => EmptyString
  | String c s' =>
      match rstrip s' with
      | EmptyString => if is_space c then EmptyString else String c EmptyString
      | r => String c r
      end
  end.

Definition strip (s : string) : string := rstrip (lstrip s).

(** [s.startswith(p)]. *)
Definition startswith (p s : string) : bool := String.prefix p s.

(** Truthiness of a [str]: non-empty. *)
Definition truthy (s : string) : bool :=
  match s with EmptyString => false | _ => true end.

(** [sep.join(parts)]. *)
Fixpoint join (sep : string) (parts : list string) : string :=
  match parts with
  | [] => ""
  | [p] => p
  | p :: rest => p ++ sep ++ join sep rest
  end.

(** Membership of a string in a list of strings ([x in list]). *)
Fixpoint mem (x : string) (l : list string) : bool :=
  match l with
  | [] => false
  | y :: l' => String.eqb x y || mem x l'
  end.

Definition digit_char (d : nat) : char := N.of_nat (48 + d mod 10).

(** Fixed-width, zero-padded decimal rendering of [n] (its last [w]
    digits), as the [%m %d %H %M] and (for years up to 9999) [%Y]
    directives of [strftime] produce. *)
Fixpoint zdec (w n : nat) : string :=
  match w with
  | 0 => ""
  | S w' => snoc (zdec w' (n / 10)) (digit_char n)
  end.

Fixpoint of_uint (d : Decimal.uint) : string :=
  match d with
  | Decimal.Nil => ""
  | Decimal.D0 d' => String 48%N (of_uint d')
  | Decimal.D1 d' => String 49%N (of_uint d')
  | Decimal.D2 d' => String 50%N (of_uint d')
  | Decimal.D3 d' => String 51%N (of_uint d')
  | Decimal.D4 d' => String 52%N (of_uint d')
  | Decimal.D5 d' => String 53%N (of_uint d')
  | Decimal.D6 d' => String 54%N (of_uint d')
  | Decimal.D7 d' => String 55%N (of_uint d')
  | Decimal.D8 d' => String 56%N (of_uint d')
  | Decimal.D9 d' => String 57%N (of_uint d')
  end.

(** [str(n)] for an [int]. *)
Definition of_Z (z : Z) : string :=
  match Z.to_int z with
  | Decimal.Pos d => of_uint d
  | Decimal.Neg d => "-" ++ of_uint d
  end.
Definition of_nat (n : nat) : string := of_Z (Z.of_nat n).

(** Value of a string of decimal digits, read left to right. *)
Fixpoint digits_value (acc : nat) (s : string) : nat :=
  match s with
  | EmptyString => acc
  | String c s' => digits_value (10 * acc + digit_value c) s'
  end.

(** [sys.int_info.default_max_str_digits]: [int] refuses a string of more
    decimal digits than this. *)
Definition int_max_str_digits : nat := 4300.

End Str.

(* ================================================================== *)
(** * The regular expressions of the script                             *)
(* ================================================================== *)

(** Every pattern of the script has the shape [^ x1 x2 ... xn $] where each
    [xi] is a character class with a quantifier.  [re.match] tries the
    quantifiers with backtracking; [$] (no MULTILINE flag) holds at the end
    of the string and also just before a newline that ends the string. *)
Module Re.

Record item : Type := Item {
  cls : char -> bool;        (* the character class *)
  rmin : nat;                (* least number of repetitions *)
  rmax : option nat          (* greatest number, [None] = unbounded *)
}.

Definition under (count : nat) (m : option nat) : bool :=
  match m with
  | None => true
  | Some k => count <? k
  end.

(** [$]: at the end, or before the newline that ends the string. *)
Definition dollar (s : string) : bool :=
  match s with
  | EmptyString => true
  | String c EmptyString => N.eqb c Str.newline
  | _ => false
  end.

(** One quantified class [it] followed by the rest of the pattern [k]:
    [count] repetitions have been taken; stop here if that is enough and
    the rest matches, else take one more character if allowed. *)
Definition rep_from (it : item) (k : string -> bool) : nat -> string -> bool :=
  fix rep (count : nat) (s : string) {struct s} : bool :=
    ((rmin it <=? count) && k s)
    || (under count (rmax it)
        && match s with
           | EmptyString => false
           | String c s' => cls it c && rep (S count) s'
           end).

(** [re.match(r"^...$", s) is not None] for the pattern [items]. *)
Fixpoint match_items (items : list item) (s : string) : bool :=
  match items with
  | [] => dollar s
  | it :: rest => rep_from it (match_items rest) 0 s
  end.

Definition star (p : char -> bool) : item := Item p 0 None.
Definition plus (p : char -> bool) : item := Item p 1 None.
Definition opt (p : char -> bool) : item := Item p 0 (Some 1).
Definition rep (p : char -> bool) (lo hi : nat) : item := Item p lo (Some hi).
Definition chr (c : char) : char -> bool := N.eqb c.

(** The class [[a-zA-Z0-9 \.\-_#\(\)]]. *)
Definition allowed (c : char) : bool :=
  Str.is_lower c || Str.is_upper c || Str.is_ascii_digit c
  || Str.mem (String c "") [" "; "."; "-"; "_"; "#"; "("; ")"].

(** [r"^\s*\d+\s*$"] *)
Definition re_index : list item :=
  [star Str.is_space; plus Str.is_digit; star Str.is_space].

(** [r"^#?\d+$"] *)
Definition re_case_number : list item :=
  [opt (chr Str.hash); plus Str.is_digit].

(** [r"^[a-zA-Z0-9 \.\-_#\(\)]{1,20}$"] *)
Definition re_case_token : list item := [rep allowed 1 20].

(** [r"^[a-zA-Z0-9 \.\-_#\(\)]{1,75}$"] *)
Definition re_dir_name : list item := [rep allowed 1 75].

End Re.

(* ================================================================== *)
(** * Program state, exceptions and the state/exception monad           *)
(* ================================================================== *)

(** A [Path]: its components. [Path('./Playbooks')] is [["Playbooks"]]. *)
Definition Path : Type := list string.

(** The file system below the working directory.  [Other] is an entry that
    is neither a directory nor a regular file (a fifo, a socket, ...). *)
#[warnings="-register-all"]
Inductive node : Type :=
| File (content : string)
| Dir (entries : list (string * node))
| Other.

(** The local time [datetime.now()] reads. *)
Record datetime : Type := DateTime {
  year : nat; month : nat; day : nat; hour : nat; minute : nat
}.

Inductive exn : Type :=
| TypeError
| AttributeError
| EOFError
| FileExistsError (p : Path)
| FileNotFoundError (p : Path)
| NotADirectoryError (p : Path)
| IsADirectoryError (p : Path)
| SpecialFileError (p : Path)
| ValueError (digits : nat)
| OSError_ENAMETOOLONG (p : Path).

Inductive outcome (A : Type) : Type :=
| Ret (a : A)
| Raise (e : exn).
Arguments Raise {A} e.

(** [stdout] is the list of chunks written so far, oldest first; [stdin]
    the lines still to be read.  [CONFIGURED_LEVEL] is the class attribute
    [MSG.CONFIGURED_LEVEL] ([None] until set); [DRYRUN] the module global. *)
Record state : Type := State {
  fs : node;
  now : datetime;
  stdout : list string;
  stdin : list string;
  CONFIGURED_LEVEL : option Z;
  DRYRUN : bool
}.

Definition M (A : Type) : Type := state -> outcome A * state.

Definition ret {A} (a : A) : M A := fun st => (Ret a, st).
Definition raise {A} (e : exn) : M A := fun st => (Raise e, st).
Definition bind {A B} (c : M A) (k : A -> M B) : M B :=
  fun st =>
    match c st with
    | (Ret a, st') => k a st'
    | (Raise e, st') => (Raise e, st')
    end.

Notation "x <- c ;; k" := (bind c (fun x => k))
  (at level 61, c at next level, right associativity).
Notation "c ;; k" := (bind c (fun _ => k))
  (at level 61, right associativity).

(** [try: c  except Exception as e: handler e]. *)
Definition try_except {A} (c : M A) (handler : exn -> M A) : M A :=
  fun st =>
    match c st with
    | (Ret a, st') => (Ret a, st')
    | (Raise e, st') => handler e st'
    end.

Definition set_fs (f : node) (st : state) : state :=
  State f (now st) (stdout st) (stdin st) (CONFIGURED_LEVEL st) (DRYRUN st).
Definition set_stdout (o : list string) (st : state) : state :=
  State (fs st) (now st) o (stdin st) (CONFIGURED_LEVEL st) (DRYRUN st).
Definition set_stdin (i : list string) (st : state) : state :=
  State (fs st) (now st) (stdout st) i (CONFIGURED_LEVEL st) (DRYRUN st).
Definition set_level (l : option Z) (st : state) : state :=
  State (fs st) (now st) (stdout st) (stdin st) l (DRYRUN st).
Definition set_dryrun (d : bool) (st : state) : state :=
  State (fs st) (now st) (stdout st) (stdin st) (CONFIGURED_LEVEL st) d.

Definition write (chunk : string) (st : state) : state :=
  set_stdout (stdout st ++ [chunk])%list st.

Definition nl : string := String Str.newline "".

(** [print(s)]: writes [s] and a newline. *)
Definition print (s : string) : M unit := fun st => (Ret tt, write (s ++ nl) st).

Definition get {A} (f : state -> A) : M A := fun st => (Ret (f st), st).

(** [while True: line = input(prompt); body line], where [body] answers
    [Some a] to [break] with [a] and [None] to go round again.  [input]
    writes the prompt, takes the next line of [stdin] and raises [EOFError]
    when there is none.  [lines] is the [stdin] of the state. *)
Fixpoint while_reading {A} (prompt : string) (body : string -> M (option A))
    (lines : list string) : M A :=
  fun st =>
    match lines with
    | [] => (Raise EOFError, write prompt (set_stdin [] st))
    | l :: rest =>
        match body l (write prompt (set_stdin rest st)) with
        | (Ret (Some a), st') => (Ret a, st')
        | (Ret None, st') => while_reading prompt body rest st'
        | (Raise e, st') => (Raise e, st')
        end
    end.

Definition while_True_input {A} (prompt : string)
    (body : string -> M (option A)) : M A :=
  fun st => while_reading prompt body (stdin st) st.

(* ================================================================== *)
(** * pathlib on the file system tree                                   *)
(* ================================================================== *)

Module FS.

Fixpoint find (name : string) (es : list (string * node)) : option node :=
  match es with
  | [] => None
  | (n, c) :: es' => if String.eqb name n then Some c else find name es'
  end.

Fixpoint replace (name : string) (c : node) (es : list (string * node))
    : list (string * node) :=
  match es with
  | [] => [(name, c)]
  | (n, d) :: es' =>
      if String.eqb name n then (n, c) :: es' else (n, d) :: replace name c es'
  end.

Fixpoint lookup (n : node) (p : Path) : option node :=
  match p with
  | [] => Some n
  | name :: rest =>
      match n with
      | Dir es =>
          match find name es with
          | Some c => lookup c rest
          | None => None
          end
      | _ => None
      end
  end.

(** [Path.exists()], [Path.is_dir()], [Path.is_file()]. *)
Definition exists_ (n : node) (p : Path) : bool :=
  match lookup n p with Some _ => true | None => false end.
Definition is_dir (n : node) (p : Path) : bool :=
  match lookup n p with Some (Dir _) => true | _ => false end.
Definition is_file (n : node) (p : Path) : bool :=
  match lookup n p with Some (File _) => true | _ => false end.

(** [Path.name]: the last component. *)
Definition name (p : Path) : string := last p "".

(** [Path.parent]. *)
Definition parent (p : Path) : Path := removelast p.

(** [str(path)]. *)
Definition str (p : Path) : string :=
  match p with
  | [] => "."
  | _ => Str.join "/" p
  end.

(** The part of [s] from its last dot on. *)
Fixpoint last_dot_tail (s : string) : option string :=
  match s with
  | EmptyString => None
  | String c s' =>
      match last_dot_tail s' with
      | Some t => Some t
      | None => if N.eqb c Str.dot then Some s else None
      end
  end.

(** [Path.suffix] of a file name: from the last dot on, unless that dot is
    the first or the last character. *)
Definition suffix (file_name : string) : string :=
  match last_dot_tail file_name with
  | Some t =>
      if String.eqb t file_name || (String.length t =? 1) then "" else t
  | None => ""
  end.

(** [NAME_MAX]: the file system refuses to look up or create an entry
    whose name has more bytes ([OSError], errno [ENAMETOOLONG]); the
    entries of a tree are there, so their names fit. *)
Definition NAME_MAX : nat := 255.
Definition too_long (name : string) : bool := NAME_MAX <? String.utf8_length name.

(** A chain of fresh nested directories [p]. *)
Fixpoint fresh (p : Path) : node :=
  match p with
  | [] => Dir []
  | name :: rest => Dir [(name, fresh rest)]
  end.

(** [Path.mkdir(parents=True, exist_ok=False)] of [p] (given in full as
    [full] for the error) inside [n]: missing parents are made, an existing
    target raises [FileExistsError], a non-directory on the way raises
    [NotADirectoryError], a component that is too long [OSError]. *)
Fixpoint mkdir_in (full : Path) (n : node) (p : Path) : exn + node :=
  match p with
  | [] => inl (FileExistsError full)
  | name :: rest =>
      match n with
      | Dir es =>
          match find name es with
          | Some c =>
              match mkdir_in full c rest with
              | inr c' => inr (Dir (replace name c' es))
              | inl e => inl e
              end
          | None =>
              if existsb too_long (name :: rest)
              then inl (OSError_ENAMETOOLONG full)
              else inr (Dir (es ++ [(name, fresh rest)])%list)
          end
      | _ => inl (NotADirectoryError full)
      end
  end.

(** Writing the regular file [p] with [content] (created or truncated);
    a component that is too long raises [OSError]. *)
Fixpoint write_file (full : Path) (n : node) (p : Path) (content : string)
    : exn + node :=
  match p with
  | [] =>
      match n with
      | Dir _ => inl (IsADirectoryError full)
      | _ => inr (File content)
      end
  | name :: rest =>
      match n with
      | Dir es =>
          match find name es with
          | Some c =>
              match write_file full c rest content with
              | inr c' => inr (Dir (replace name c' es))
              | inl e => inl e
              end
          | None =>
              if too_long name then inl (OSError_ENAMETOOLONG full)
              else
                match rest with
                | [] => inr (Dir (es ++ [(name, File content)])%list)
                | _ => inl (FileNotFoundError full)
                end
          end
      | _ => inl (NotADirectoryError full)
      end
  end.

End FS.

Definition lift_fs (r : exn + node) : M unit :=
  fun st =>
    match r with
    | inr f => (Ret tt, set_fs f st)
    | inl e => (Raise e, st)
    end.

(** [path.mkdir(parents=True, exist_ok=False)]. *)
Definition mkdir (p : Path) : M unit :=
  fun st => lift_fs (FS.mkdir_in p (fs st) p) st.

(** [shutil.copy(src, dst)]: the content of the regular file [src] is
    written to [dst], or to [dst/src.name] when [dst] is a directory. *)
Definition shutil_copy (src dst : Path) : M unit :=
  fun st =>
    let target := if FS.is_dir (fs st) dst then (dst ++ [FS.name src])%list else dst in
    match FS.lookup (fs st) src with
    | Some (File content) =>
        lift_fs (FS.write_file target (fs st) target content) st
    | Some (Dir _) => (Raise (IsADirectoryError src), st)
    | Some Other => (Raise (SpecialFileError src), st)
    | None => (Raise (FileNotFoundError src), st)
    end.

(** [str(e)] of the exceptions above, as CPython on Linux words them. *)
Definition exn_str (e : exn) : string :=
  match e with
  | TypeError => "'<=' not supported between instances of 'int' and 'NoneType'"
  | AttributeError => "type object 'MSG' has no attribute '_name_lookup'"
  | EOFError => "EOF when reading a line"
  | FileExistsError p => "[Errno 17] File exists: '" ++ FS.str p ++ "'"
  | FileNotFoundError p => "[Errno 2] No such file or directory: '" ++ FS.str p ++ "'"
  | NotADirectoryError p => "[Errno 20] Not a directory: '" ++ FS.str p ++ "'"
  | IsADirectoryError p => "[Errno 21] Is a directory: '" ++ FS.str p ++ "'"
  | SpecialFileError p => "`" ++ FS.str p ++ "` is a named pipe"
  | ValueError digits =>
      "Exceeds the limit (4300 digits) for integer string conversion: value has "
      ++ Str.of_nat digits
      ++ " digits; use sys.set_int_max_str_digits() to increase the limit"
  | OSError_ENAMETOOLONG p => "[Errno 36] File name too long: '" ++ FS.str p ++ "'"
  end.

(* ================================================================== *)
(** * Configuration                                                     *)
(* ================================================================== *)

Definition DEFAULT_VERBOSITY : string := "WARNING".

Definition PLAYBOOKS_DIR : Path := ["Playbooks"].
Definition INVESTIGATIONS_DIR : Path := ["Investigations"].
Definition PLAYBOOK_IGNORE_DIRS : list string :=
  [".ipynb_checkpoints"; "__pycache__"; ".git"; ".venv"; "venv"; "build";
   "dist"; ".cache"; "cache"; ".vscode"; ".idea"; ".pytest_cache";
   "node_modules"; ".env"; "env"; "logs"; "tmp"; "temp"].

Definition RETURN_SUCCESS : Z := 0.
Definition RETURN_ERROR : Z := 1.
Definition RETURN_INVALID : Z := 2.
Definition RETURN_NOT_IMPLEMENTED : Z := 3.

(* ================================================================== *)
(** * class MSG                                                         *)
(* ================================================================== *)

(** The Python values the logger's entry points are called with. *)
Inductive value : Type :=
| VNone
| VBool (b : bool)
| VInt (z : Z)
| VStr (s : string).

(** [str(v)], as an f-string renders it. *)
Definition value_str (v : value) : string :=
  match v with
  | VNone => "None"
  | VBool true => "True"
  | VBool false => "False"
  | VInt z => Str.of_Z z
  | VStr s => s
  end.

Definition opt_str (o : option string) : string :=
  match o with
  | None => "None"
  | Some s => s
  end.

Module MSG.

Definition SILENT : Z := 1.
Definition CRITICAL : Z := 2.
Definition ERROR : Z := 3.
Definition WARNING : Z := 4.
Definition INFO : Z := 5.
Definition VERBOSE : Z := 6.
Definition DEBUG : Z := 7.

Definition DEFAULT_LEVEL : Z := WARNING.

Definition _level_to_name_lookup : list (Z * string) :=
  [(SILENT, "SILENT"); (CRITICAL, "CRITICAL"); (ERROR, "ERROR");
   (WARNING, "WARNING"); (INFO, "INFO"); (DEBUG, "DEBUG");
   (VERBOSE, "VERBOSE")].

Definition _name_to_level_lookup : list (string * Z) :=
  [("SILENT", SILENT); ("CRITICAL", CRITICAL); ("ERROR", ERROR);
   ("WARNING", WARNING); ("INFO", INFO); ("DEBUG", DEBUG);
   ("VERBOSE", VERBOSE)].

Fixpoint lookup_level (l : Z) (d : list (Z * string)) : option string :=
  match d with
  | [] => None
  | (k, v) :: d' => if Z.eqb l k then Some v else lookup_level l d'
  end.

Fixpoint lookup_name (n : string) (d : list (string * Z)) : option Z :=
  match d with
  | [] => None
  | (k, v) :: d' => if String.eqb n k then Some v else lookup_name n d'
  end.

(** What the class body binds: the attributes a read [cls.<name>] finds.
    ([CONFIGURED_LEVEL] is rebound at run time; its current value is in the
    state.) *)
Inductive attr : Type :=
| AInt (z : Z)
| ANone
| ALevelNames (d : list (Z * string))
| ANameLevels (d : list (string * Z))
| AMethod.

Definition class_namespace : list (string * attr) :=
  [("SILENT", AInt SILENT); ("CRITICAL", AInt CRITICAL); ("ERROR", AInt ERROR);
   ("WARNING", AInt WARNING); ("INFO", AInt INFO); ("VERBOSE", AInt VERBOSE);
   ("DEBUG", AInt DEBUG); ("DEFAULT_LEVEL", AInt DEFAULT_LEVEL);
   ("CONFIGURED_LEVEL", ANone);
   ("_level_to_name_lookup", ALevelNames _level_to_name_lookup);
   ("_name_to_level_lookup", ANameLevels _name_to_level_lookup);
   ("getName", AMethod); ("getLevel", AMethod); ("setLevelByName", AMethod);
   ("setLevel", AMethod); ("log", AMethod)].

Fixpoint find_attr (n : string) (ns : list (string * attr)) : option attr :=
  match ns with
  | [] => None
  | (k, a) :: ns' => if String.eqb n k then Some a else find_attr n ns'
  end.

(** [cls.<name>]: [AttributeError] when the class binds no such name. *)
Definition getattr (n : string) : M attr :=
  match find_attr n class_namespace with
  | Some a => ret a
  | None => raise AttributeError
  end.

(** [v in a]: on a dict, membership among its keys; anything else in the
    class namespace is not a container. *)
Definition contains (v : value) (a : attr) : M bool :=
  match a with
  | ALevelNames d =>
      ret (match v with
           | VInt z => match lookup_level z d with Some _ => true | None => false end
           | _ => false
           end)
  | ANameLevels d =>
      ret (match v with
           | VStr n => match lookup_name n d with Some _ => true | None => false end
           | _ => false
           end)
  | _ => raise TypeError
  end.

Definition getName (level : value) : M (option string) :=
  match level with
  | VInt l => ret (lookup_level l _level_to_name_lookup)
  | _ =>
      print ("[ERROR::MSG.getName] Invalid verbosity level: '" ++ value_str level
             ++ "'. The 'level' parameter must be an integer.") ;;
      ret None
  end.

Definition getLevel (name : value) : M (option Z) :=
  match name with
  | VStr n => ret (lookup_name n _name_to_level_lookup)
  | _ =>
      print ("[ERROR::MSG.getLevel] Invalid verbosity level name: '" ++ value_str name
             ++ "'. The 'name' parameter must be a string.") ;;
      ret None
  end.

Definition setLevelByName (name : value) : M bool :=
  match name with
  | VStr n =>
      match lookup_name n _name_to_level_lookup with
      | Some l => fun st => (Ret true, set_level (Some l) st)
      | None =>
          print ("[ERROR::MSG.setLevelByName] Invalid verbosity level name: '" ++ n
                 ++ "'. New verbosity level not set.") ;;
          ret false
      end
  | _ =>
      print ("[ERROR::MSG.setLevelByName] Invalid verbosity level name: '"
             ++ value_str name ++ "'. The 'name' parameter must be a string.") ;;
      ret false
  end.

Definition setLevel (level : value) : M unit :=
  match level with
  | VInt l =>
      d <- getattr "_name_lookup" ;;
      known <- contains level d ;;
      if negb known then
        print ("[ERROR::MSG.setLevel] Invalid verbosity level: '" ++ value_str level
               ++ "'. New verbosity level not set.")
      else fun st => (Ret tt, set_level (Some l) st)
  | _ =>
      print ("[ERROR::MSG.setLevel] Invalid verbosity level: '" ++ value_str level
             ++ "'. The 'level' parameter must be an integer.")
  end.

(** The line a [log] call prints when it prints. *)
Definition line (verbosity_string : option string) (function_name message : string)
    : string :=
  "[" ++ opt_str verbosity_string ++ "::" ++ function_name ++ "] " ++ message.

Definition log (verbosity_level : value) (function_name message : string) : M unit :=
  match verbosity_level with
  | VInt l =>
      verbosity_string <- getName verbosity_level ;;
      configured <- get CONFIGURED_LEVEL ;;
      match configured with
      | None => raise TypeError
      | Some c =>
          if (l <=? c)%Z then print (line verbosity_string function_name message)
          else ret tt
      end
  | _ =>
      print ("[ERROR::MSG.log] Invalid verbosity level: '" ++ value_str verbosity_level
             ++ "'. The 'verbosity_level' parameter must be an integer.")
  end.

End MSG.

(* ================================================================== *)
(** * get_list_of_notebooks                                             *)
(* ================================================================== *)

(** The body of the [for item in current_dir.iterdir()] loop of
    [recursive_search], with the function to call on a subdirectory as
    [search]: the list [playbooks] after the items have been visited. *)
Definition for_each_item (search : Path -> node -> list Path -> list Path)
    (current_dir : Path) : list (string * node) -> list Path -> list Path :=
  fix for_item (items : list (string * node)) (playbooks : list Path)
      {struct items} : list Path :=
    match items with
    | [] => playbooks
    | (name, item) :: rest =>
        let item_path := (current_dir ++ [name])%list in
        for_item rest
          match item with
          | Dir _ =>
              if negb (Str.mem name PLAYBOOK_IGNORE_DIRS)
              then search item_path item playbooks
              else playbooks
          | File _ =>
              if String.eqb (FS.suffix name) ".ipynb"
              then (playbooks ++ [item_path])%list
              else playbooks
          | Other => playbooks
          end
    end.

(** The nested function [recursive_search]: [d] is the directory at
    [current_dir]; the result is the list [playbooks] after the visit. *)
Fixpoint recursive_search (current_dir : Path) (d : node) (playbooks : list Path)
    {struct d} : list Path :=
  match d with
  | Dir items => for_each_item recursive_search current_dir items playbooks
  | _ => playbooks
  end.

Definition get_list_of_notebooks (playbooks_dir : Path) : M (option (list Path)) :=
  MSG.log (VInt MSG.VERBOSE) "get_list_of_notebooks"
    ("Fetching all Jupyter Notebook (" ++ "*.ipynb) files in the '"
     ++ FS.str playbooks_dir ++ "' directory.") ;;
  root <- get (fun st => FS.lookup (fs st) playbooks_dir) ;;
  match root with
  | Some (Dir items) =>
      let playbooks := recursive_search playbooks_dir (Dir items) [] in
      match playbooks with
      | [] =>
          MSG.log (VInt MSG.WARNING) "get_list_of_notebooks"
            ("No Jupyter notebooks found in '" ++ FS.str playbooks_dir ++ "'.") ;;
          ret None
      | _ => ret (Some playbooks)
      end
  | _ =>
      MSG.log (VInt MSG.ERROR) "get_list_of_notebooks"
        ("Directory string '" ++ FS.str playbooks_dir
         ++ "' does not point to a valid directory.") ;;
      ret None
  end.

(* ================================================================== *)
(** * create_directory                                                  *)
(* ================================================================== *)

(** [datetime.strftime('%Y-%m-%dT%H.%M')]. *)
Definition strftime (t : datetime) : string :=
  Str.zdec 4 (year t) ++ "-" ++ Str.zdec 2 (month t) ++ "-" ++ Str.zdec 2 (day t)
  ++ "T" ++ Str.zdec 2 (hour t) ++ "." ++ Str.zdec 2 (minute t).

(** Truthiness of an [Optional[str]]. *)
Definition given (o : option string) : bool :=
  match o with
  | Some s => Str.truthy s
  | None => false
  end.

(** The name [create_directory] composes (its [new_dir_name]). *)
Definition compose_dir_name (current_time : string) (case_id folder_name : option string)
    : string :=
  let name0 := current_time in
  let name1 := if given case_id then name0 ++ " " ++ opt_str case_id else name0 in
  if given folder_name then name1 ++ " - " ++ opt_str folder_name
  else name1 ++ " - New Investigation".

Definition create_directory (investigations_dir : Path)
    (case_id folder_name : option string) : M (option Path) :=
  base_exists <- get (fun st => FS.exists_ (fs st) investigations_dir) ;;
  if negb base_exists then
    MSG.log (VInt MSG.ERROR) "create_directory"
      ("Investigations directory '" ++ FS.str investigations_dir ++ "' does not exist.") ;;
    ret None
  else
    current_time <- get (fun st => strftime (now st)) ;;
    let new_dir_name := compose_dir_name current_time case_id folder_name in
    MSG.log (VInt MSG.INFO) "create_directory"
      ("New directory name: '" ++ new_dir_name ++ "'") ;;
    if negb (Re.match_items Re.re_dir_name new_dir_name) then
      MSG.log (VInt MSG.ERROR) "create_directory"
        ("Invalid directory name: '" ++ new_dir_name ++ "'.") ;;
      ret None
    else
      let new_dir_path := (investigations_dir ++ [new_dir_name])%list in
      already <- get (fun st => FS.exists_ (fs st) new_dir_path) ;;
      if already then
        MSG.log (VInt MSG.ERROR) "create_directory"
          ("Directory '" ++ FS.str new_dir_path ++ "' already exists.") ;;
        ret None
      else
        dryrun <- get DRYRUN ;;
        if dryrun then
          MSG.log (VInt MSG.DEBUG) "create_directory"
            ("DRYRUN: Would have created directory '" ++ FS.str new_dir_path ++ "'.") ;;
          ret None
        else
          mkdir new_dir_path ;;
          created <- get (fun st => FS.exists_ (fs st) new_dir_path) ;;
          if negb created then
            MSG.log (VInt MSG.ERROR) "create_directory"
              ("Failed to create directory '" ++ FS.str new_dir_path ++ "'.") ;;
            ret None
          else
            MSG.log (VInt MSG.INFO) "create_directory"
              ("Created directory '" ++ FS.str new_dir_path ++ "'.") ;;
            ret (Some new_dir_path).

(* ================================================================== *)
(** * main                                                              *)
(* ================================================================== *)

(** [for i, notebook in enumerate(playbooks, i): print(f"{i}. {notebook}")]. *)
Fixpoint print_enumerated (i : nat) (playbooks : list Path) : M unit :=
  match playbooks with
  | [] => ret tt
  | notebook :: rest =>
      print (Str.of_nat i ++ ". " ++ FS.str notebook) ;;
      print_enumerated (S i) rest
  end.

Definition invalid_selection : string :=
  "SELECT> Invalid input. Please enter a number corresponding to the notebook.".

(** [int(s)] for a string [s] of decimal digits: [ValueError] beyond the
    limit on the number of digits. *)
Definition int_of (s : string) : M Z :=
  if Str.int_max_str_digits <? String.length s
  then raise (ValueError (String.length s))
  else ret (Z.of_nat (Str.digits_value 0 s)).

(** One round of the selection loop on the line [raw_input]: [Some index]
    breaks with [playbook_index = index]. *)
Definition select_body (playbooks : list Path) (raw_input : string) : M (option Z) :=
  if Str.truthy raw_input && Re.match_items Re.re_index raw_input then
    number <- int_of (Str.strip raw_input) ;;
    let playbook_index := (number - 1)%Z in
    if (0 <=? playbook_index)%Z && (playbook_index <? Z.of_nat (length playbooks))%Z
    then ret (Some playbook_index)
    else print invalid_selection ;; ret None
  else print invalid_selection ;; ret None.

(** One round of the case reference loop on the line read: [Some case_id]
    breaks with that [case_id] (itself [None] or a string). *)
Definition case_id_body (line : string) : M (option (option string)) :=
  let case_id := Str.strip line in
  if negb (Str.truthy case_id) then ret (Some None)
  else if Re.match_items Re.re_case_number case_id then
    if negb (Str.startswith "#" case_id) then ret (Some (Some ("#" ++ case_id)))
    else ret (Some (Some case_id))
  else if Re.match_items Re.re_case_token case_id then
    ret (Some (Some ("#(" ++ case_id ++ ")")))
  else
    MSG.log (VInt MSG.WARNING) "main"
      "Invalid input. Please enter a valid case ID reference or leave it empty." ;;
    MSG.log (VInt MSG.INFO) "main"
      "ID ref explanation> The case ID can be 20 characters long and contain letters [a-z], numbers [0-9]." ;;
    MSG.log (VInt MSG.INFO) "main"
      "ID ref explanation> It can also contain space and some special characters: . - _ # ( )" ;;
    ret None.

Definition case_id_loop : M (option string) :=
  while_True_input "ID ref> Enter case ID: " case_id_body.

(** The end of [main], from the call of [create_directory] on. *)
Definition create_and_copy (selected_notebook : Path)
    (case_id : option string) (notebook_folder : option string) : M (option Z) :=
  r <- try_except
         (new_dir <- create_directory INVESTIGATIONS_DIR case_id notebook_folder ;;
          ret (inr new_dir))
         (fun e =>
            MSG.log (VInt MSG.ERROR) "main"
              ("Failed to create directory: " ++ exn_str e) ;;
            ret (inl RETURN_ERROR)) ;;
  match r with
  | inl code => ret (Some code)
  | inr new_dir =>
      usable <- get (fun st =>
                  match new_dir with
                  | Some d => FS.exists_ (fs st) d
                  | None => false
                  end) ;;
      match new_dir, usable with
      | Some new_dir, true =>
          let new_filename := "inv_" ++ FS.name selected_notebook in
          let new_notebook_path := (new_dir ++ [new_filename])%list in
          c <- try_except
                 (shutil_copy selected_notebook new_notebook_path ;; ret None)
                 (fun e =>
                    MSG.log (VInt MSG.ERROR) "main"
                      ("Failed to copy the notebook: " ++ exn_str e) ;;
                    ret (Some RETURN_ERROR)) ;;
          match c with
          | Some code => ret (Some code)
          | None =>
              copied <- get (fun st => FS.exists_ (fs st) new_notebook_path) ;;
              if negb copied then
                MSG.log (VInt MSG.ERROR) "main"
                  "Failed to copy the notebook to the new directory." ;;
                ret (Some RETURN_ERROR)
              else
                MSG.log (VInt MSG.INFO) "main"
                  ("Copied notebook to the new directory: "
                   ++ FS.str new_notebook_path) ;;
                ret None
          end
      | _, _ =>
          MSG.log (VInt MSG.ERROR) "main"
            "Failed to create directory for the new investigation." ;;
          ret (Some RETURN_ERROR)
      end
  end.

(** [main()]: [Some code] is [return code], [None] the end of the body. *)
Definition main : M (option Z) :=
  root <- get (fun st => FS.lookup (fs st) PLAYBOOKS_DIR) ;;
  match root with
  | Some (File _) | Some Other => raise (NotADirectoryError PLAYBOOKS_DIR)
  | None | Some (Dir []) =>
      MSG.log (VInt MSG.ERROR) "main"
        ("Playbooks directory '" ++ FS.str PLAYBOOKS_DIR
         ++ "' does not exist or is empty.") ;;
      ret (Some RETURN_ERROR)
  | Some (Dir (_ :: _)) =>
      MSG.log (VInt MSG.VERBOSE) "main"
        ("Playbooks directory '" ++ FS.str PLAYBOOKS_DIR ++ "' exists.") ;;
      found <- get_list_of_notebooks PLAYBOOKS_DIR ;;
      match found with
      | None | Some [] =>
          MSG.log (VInt MSG.ERROR) "main"
            "No Jupyter notebooks found in the Playbooks directory. Exiting." ;;
          ret (Some RETURN_ERROR)
      | Some playbooks =>
          MSG.log (VInt MSG.VERBOSE) "main"
            ("Found " ++ Str.of_nat (length playbooks)
             ++ " Jupyter notebooks in the Playbooks directory.") ;;
          print "SELECT> Available Jupyter notebooks:" ;;
          print_enumerated 1 playbooks ;;
          playbook_index <-
            while_True_input "SELECT> Select a notebook by number: "
              (select_body playbooks) ;;
          let selected_notebook :=
            if (0 <=? playbook_index)%Z
               && (playbook_index <? Z.of_nat (length playbooks))%Z
            then nth_error playbooks (Z.to_nat playbook_index) else None in
          let notebook_name :=
            match selected_notebook with
            | Some p => if Str.truthy (FS.name p) then Some p else None
            | None => None
            end in
          let notebook_folder :=
            match selected_notebook with
            | Some p =>
                if Str.truthy (FS.name (FS.parent p))
                then Some (FS.name (FS.parent p)) else None
            | None => None
            end in
          match selected_notebook, notebook_name, notebook_folder with
          | Some selected, Some _, Some _ =>
              MSG.log (VInt MSG.INFO) "main"
                ("Selected notebook: [" ++ Str.of_Z (playbook_index + 1) ++ "] "
                 ++ FS.name selected) ;;
              print "ID ref> Enter an Argus or Remedy case ID reference." ;;
              print "ID ref> Press Enter to leave the reference empty for now." ;;
              case_id <- case_id_loop ;;
              MSG.log (VInt MSG.INFO) "main"
                ("Case ID reference: " ++ opt_str case_id) ;;
              create_and_copy selected case_id notebook_folder
          | _, _, _ =>
              MSG.log (VInt MSG.ERROR) "main"
                "Error determining notebook name and folder. Exiting." ;;
              MSG.log (VInt MSG.DEBUG) "main"
                ("Selected notebook: " ++ opt_str (option_map FS.str selected_notebook)) ;;
              MSG.log (VInt MSG.DEBUG) "main"
                ("Notebook name: " ++ opt_str (option_map FS.str notebook_name)) ;;
              MSG.log (VInt MSG.DEBUG) "main"
                ("Notebook folder: " ++ opt_str notebook_folder) ;;
              ret (Some RETURN_ERROR)
          end
      end
  end.

(* ================================================================== *)
(** * The script entry point                                            *)
(* ================================================================== *)

(** The parsed command line, in the order the flags are declared. *)
Record Args : Type := MkArgs {
  silent : bool; critical : bool; error : bool; warning : bool;
  info : bool; verbose : bool; debug : bool; dryrun : bool
}.

(** The first verbosity flag that is set, in upper case, else the default. *)
Definition verbosity_of (args : Args) : string :=
  if silent args then "SILENT"
  else if critical args then "CRITICAL"
  else if error args then "ERROR"
  else if warning args then "WARNING"
  else if info args then "INFO"
  else if verbose args then "VERBOSE"
  else if debug args then "DEBUG"
  else DEFAULT_VERBOSITY.

(** The [__main__] block; the result is the exit status of the process. *)
Definition script (args : Args) : M Z :=
  let verbosity := verbosity_of args in
  early <- try_except
      (if Str.truthy verbosity then
         ok <- MSG.setLevelByName (VStr verbosity) ;;
         if negb ok then
           print ("[ERROR::__main__] Invalid logging verbosity level in configuration: "
                  ++ verbosity ++ ". Exiting.") ;;
           ret (Some 1%Z)
         else
           MSG.log (VInt MSG.VERBOSE) "__main__"
             ("Set verbosity level to " ++ verbosity ++ ".") ;;
           ret None
       else
         MSG.setLevelByName (VStr "WARNING") ;;
         MSG.log (VInt MSG.VERBOSE) "__main__"
           "No verbosity level specified; using default level WARNING." ;;
         ret None)
      (fun e =>
         print ("[ERROR::__main__] Error setting logging verbosity level: "
                ++ exn_str e ++ ". Exiting.") ;;
         ret (Some 1%Z)) ;;
  match early with
  | Some code => ret code
  | None =>
      (if dryrun args then
         MSG.log (VInt MSG.VERBOSE) "__main__" "Enabling DRYRUN mode." ;;
         (fun st => (Ret tt, set_dryrun true st)) ;;
         MSG.log (VInt MSG.VERBOSE) "__main__"
           ("Running in dryrun mode with verbosity level " ++ verbosity
            ++ ". No changes will be made.")
       else
         MSG.log (VInt MSG.VERBOSE) "__main__"
           ("Running with verbosity level " ++ verbosity ++ ".")) ;;
      r <- main ;;
      match r with
      | Some code =>
          if (code =? 0)%Z then
            MSG.log (VInt MSG.INFO) "__main__"
              "Script execution completed successfully. Exiting normally." ;;
            ret 0%Z
          else if (code =? RETURN_ERROR)%Z then
            MSG.log (VInt MSG.ERROR) "__main__"
              "Script execution failed. Exiting with error." ;;
            ret 1%Z
          else if (code =? RETURN_NOT_IMPLEMENTED)%Z then
            MSG.log (VInt MSG.ERROR) "__main__"
              "Script execution ended with 'NOT IMPLEMENTED'. Exiting with error." ;;
            ret 1%Z
          else
            MSG.log (VInt MSG.ERROR) "__main__"
              "Script execution ended with an unknown error. Exiting with error." ;;
            ret 1%Z
      | None =>
          MSG.log (VInt MSG.INFO) "__main__"
            "Script execution completed successfully. Exiting normally." ;;
          ret 0%Z
      end
  end.

(* ================================================================== *)
(** * Vocabulary of the statements                                      *)
(* ================================================================== *)

(** The state with [chunks] appended to what was written so far. *)
Definition add_out (chunks : list string) (st : state) : state :=
  set_stdout (stdout st ++ chunks)%list st.

(** The name a level is printed under: [getName], as an f-string shows it. *)
Definition level_name (level : Z) : string :=
  opt_str (MSG.lookup_level level MSG._level_to_name_lookup).

(** The names of the levels spelled out: SILENT for 1 up to DEBUG for 7,
    and the text of [None] for every other integer. *)
Definition LEVEL_NAME (level : Z) : string :=
  match level with
  | 1 => "SILENT"
  | 2 => "CRITICAL"
  | 3 => "ERROR"
  | 4 => "WARNING"
  | 5 => "INFO"
  | 6 => "VERBOSE"
  | 7 => "DEBUG"
  | _ => "None"
  end%Z.

(** What a [log] call at [level] writes when the configured level is [c]. *)
Definition emit (c level : Z) (source_label message : string) : list string :=
  if (level <=? c)%Z
  then [("[" ++ level_name level ++ "::" ++ source_label ++ "] " ++ message) ++ nl]
  else [].


(** [s] ends with a newline. *)
Fixpoint ends_with_newline (s : string) : bool :=
  match s with
  | EmptyString => false
  | String c EmptyString => N.eqb c Str.newline
  | String _ s' => ends_with_newline s'
  end.

(** A computation run in dry-run mode keeps the file system and the mode,
    and a value it returns satisfies [Q]. *)
Definition dry {A} (c : M A) (Q : A -> Prop) : Prop :=
  forall st, DRYRUN st = true ->
    fs (snd (c st)) = fs st /\ DRYRUN (snd (c st)) = true
    /\ match fst (c st) with Ret a => Q a | Raise _ => True end.

(* ================================================================== *)
(** * Sample inputs                                                     *)
(* ================================================================== *)

Module Sample.

Definition t0 : datetime := DateTime 2024 1 2 3 4.

(** [Playbooks/a/x.ipynb], [Playbooks/.git/y.ipynb], an empty
    [Investigations]. *)
Definition fs0 : node :=
  Dir [("Playbooks", Dir [("a", Dir [("x.ipynb", File "nb")]);
                          (".git", Dir [("y.ipynb", File "no")])]);
       ("Investigations", Dir [])].

(** The same with the directory of the run below already there. *)
Definition fs1 : node :=
  Dir [("Playbooks", Dir [("a", Dir [("x.ipynb", File "nb")])]);
       ("Investigations", Dir [("2024-01-02T03.04 #42 - a", Dir [])])].

Definition st0 (level : option Z) (dryrun : bool) (lines : list string) : state :=
  State fs0 t0 [] lines level dryrun.


(** [n] times the character [c]. *)
Fixpoint many (c : char) (n : nat) : string :=
  match n with
  | 0 => ""
  | S n' => String c (many c n')
  end.

(** A selection of 4301 digits with the value 1. *)
Definition padded_one : string := many 48%N 4300 ++ "1".

(** A notebook whose file name has 252 characters, in a folder [a]. *)
Definition long_notebook : string := many 97%N 246 ++ ".ipynb".
Definition fs3 : node :=
  Dir [("Playbooks", Dir [("a", Dir [(long_notebook, File "nb")])]);
       ("Investigations", Dir [])].

(** A folder name of 56 letters and a final newline. *)
Definition long_folder : string :=
  "aaaaaaaaaaaaaaaaaaaaaaaaaaaaaaaaaaaaaaaaaaaaaaaaaaaaaaaa" ++ nl.

Definition dryrun_args : Args :=
  MkArgs false false false false false false false true.

End Sample.

(** The prompt of the case reference loop and what a rejected line makes
    the loop write under the configured level [c]. *)
Definition case_id_prompt : string := "ID ref> Enter case ID: ".


(** The templates the traversal of [playbooks_dir] collects in the file
    system [f] (none when there is nothing to traverse). *)
Definition collected (f : node) (playbooks_dir : Path) : list Path :=
  match FS.lookup f playbooks_dir with
  | Some d => recursive_search playbooks_dir d []
  | None => []
  end.

(** [p] is a notebook found below [root]: some subdirectories [rel], none
    with an ignored name, lead from [root] to a file with the suffix
    [.ipynb]. *)
Definition found_below (root p : Path) : Prop :=
  exists (rel : list string) (name : string),
    p = (root ++ rel ++ [name])%list
    /\ Forall (fun d => Str.mem d PLAYBOOK_IGNORE_DIRS = false) rel
    /\ FS.suffix name = ".ipynb".

(** The prompt of the selection loop. *)
Definition select_prompt : string := "SELECT> Select a notebook by number: ".

(** A clock value [datetime.now()] can return with a four-digit year. *)
Definition valid_datetime (t : datetime) : Prop :=
  (1000 <= Z.of_nat (year t) <= 9999)%Z /\ 1 <= month t <= 12 /\ 1 <= day t <= 31
  /\ hour t <= 23 /\ minute t <= 59.

(** An optional string made of allowed characters only. *)
Definition allowed_opt (o : option string) : bool :=
  match o with
  | Some s => Str.forallb Re.allowed s
  | None => true
  end.

(** In the directory [d], the subdirectories [rel], one inside the other,
    lead to a directory that holds a regular file [name]. *)
Fixpoint reaches (d : node) (rel : list string) (name : string) : Prop :=
  match d with
  | Dir es =>
      match rel with
      | [] => exists content, In (name, File content) es
      | r :: rel' => exists es', In (r, Dir es') es /\ reaches (Dir es') rel' name
      end
  | _ => False
  end.

(** A computation started under a configured logger leaves the configured
    level, the dry-run flag and the clock as they are; a value it returns
    satisfies [Q] and an exception it raises satisfies [E]. *)
Definition steady {A} (c : M A) (Q : A -> Prop) (E : exn -> Prop) : Prop :=
  forall st, CONFIGURED_LEVEL st <> None ->
    CONFIGURED_LEVEL (snd (c st)) = CONFIGURED_LEVEL st
    /\ DRYRUN (snd (c st)) = DRYRUN st
    /\ now (snd (c st)) = now st
    /\ match fst (c st) with Ret a => Q a | Raise e => E e end.

(** What [main] returns and what it lets escape. *)
Definition main_returns (r : option Z) : Prop := r = None \/ r = Some RETURN_ERROR.
Definition main_raises (e : exn) : Prop :=
  e = EOFError \/ e = NotADirectoryError PLAYBOOKS_DIR
  \/ exists digits, e = ValueError digits /\ Str.int_max_str_digits < digits.

(** The level a command line asks for. *)
Definition level_of (args : Args) : Z :=
  match MSG.lookup_name (verbosity_of args) MSG._name_to_level_lookup with
  | Some l => l
  | None => 0
  end.

(** The state [main] is started in by the script: the level set, the
    dry-run flag raised if asked for, the lines about it logged. *)
Definition started (args : Args) (st : state) : state :=
  let l := level_of args in
  let v := verbosity_of args in
  State (fs st) (now st)
    (stdout st
     ++ emit l MSG.VERBOSE "__main__" ("Set verbosity level to " ++ v ++ ".")
     ++ (if dryrun args then
           emit l MSG.VERBOSE "__main__" "Enabling DRYRUN mode."
           ++ emit l MSG.VERBOSE "__main__"
                ("Running in dryrun mode with verbosity level " ++ v
                 ++ ". No changes will be made.")
         else
           emit l MSG.VERBOSE "__main__" ("Running with verbosity level " ++ v ++ ".")))%list
    (stdin st) (Some l) (if dryrun args then true else DRYRUN st).

(* ================================================================== *)
(** * The monad and the logger                                          *)
(* ================================================================== *)

Unset Implicit Arguments.

Lemma add_out_nil (st : state) : add_out [] st = st.
Proof.
  destruct st; unfold add_out, set_stdout; simpl.
  now rewrite app_nil_r.
Qed.

Lemma add_out_add_out (a b : list string) (st : state) :
  add_out b (add_out a st) = add_out (a ++ b)%list st.
Proof.
  destruct st; unfold add_out, set_stdout; simpl.
  now rewrite app_assoc.
Qed.

Lemma bind_get {A B} (f : state -> A) (k : A -> M B) (st : state) :
  (x <- get f ;; k x) st = k (f st) st.
Proof. reflexivity. Qed.

Lemma bind_ret {A B} (a : A) (k : A -> M B) (st : state) :
  (x <- ret a ;; k x) st = k a st.
Proof. reflexivity. Qed.

Lemma bind_print {B} (s : string) (k : unit -> M B) (st : state) :
  (x <- print s ;; k x) st = k tt (add_out [s ++ nl] st).
Proof. reflexivity. Qed.

(** A [log] call under a configured level [c]: it returns, and writes the
    chunk of [emit]. *)
Lemma log_configured (l c : Z) (src msg : string) (st : state) :
  CONFIGURED_LEVEL st = Some c ->
  MSG.log (VInt l) src msg st = (Ret tt, add_out (emit c l src msg) st).
Proof.
  intro H. unfold MSG.log, MSG.getName, bind, ret, get. rewrite H.
  unfold emit. destruct (l <=? c)%Z.
  - reflexivity.
  - now rewrite add_out_nil.
Qed.

Lemma bind_log {B} (l c : Z) (src msg : string) (k : unit -> M B) (st : state) :
  CONFIGURED_LEVEL st = Some c ->
  (x <- MSG.log (VInt l) src msg ;; k x) st = k tt (add_out (emit c l src msg) st).
Proof.
  intro H. unfold bind at 1. now rewrite (log_configured l c src msg st H).
Qed.

(** The name [log] prints is the one spelled out in [LEVEL_NAME]. *)
Lemma level_name_spelled (level : Z) : level_name level = LEVEL_NAME level.
Proof.
  unfold level_name, LEVEL_NAME.
  destruct level as [|p|p]; try reflexivity.
  do 3 (destruct p as [p|p|]; try reflexivity).
Qed.

(** C6: for every integer level and every configured integer level, [log]
    returns normally, writes the one chunk
    "[<LEVEL_NAME>::<source_label>] <message>" and a newline to standard
    output exactly when [level <= configured level], writes nothing
    otherwise, and leaves the rest of the state as it was.  The name is
    the one [LEVEL_NAME] spells out: SILENT, CRITICAL, ERROR, WARNING,
    INFO, VERBOSE, DEBUG for the levels 1 to 7, and "None" for a level
    outside 1..7. *)
Theorem log_prints_iff_level_le_configured :
  forall (f : node) (t : datetime) (out inp : list string) (d : bool)
         (level c : Z) (source_label message : string),
    let st := State f t out inp (Some c) d in
    let chunk := ("[" ++ LEVEL_NAME level ++ "::" ++ source_label ++ "] "
                  ++ message) ++ nl in
    MSG.log (VInt level) source_label message st
      = (Ret tt, State f t (if (level <=? c)%Z then out ++ [chunk] else out)%list
                       inp (Some c) d)
    /\ (stdout (snd (MSG.log (VInt level) source_label message st))
          = (out ++ [chunk])%list <-> (level <= c)%Z)
    /\ (stdout (snd (MSG.log (VInt level) source_label message st)) = out
          <-> (c < level)%Z).
Proof.
  intros f t out inp d level c src msg st chunk.
  assert (E : MSG.log (VInt level) src msg st
              = (Ret tt, State f t (if (level <=? c)%Z then out ++ [chunk] else out)%list
                               inp (Some c) d)).
  { rewrite (log_configured level c src msg st eq_refl).
    unfold chunk. rewrite <- level_name_spelled.
    unfold emit, add_out, set_stdout, st; simpl.
    destruct (level <=? c)%Z; [reflexivity | now rewrite app_nil_r]. }
  rewrite E; simpl. split; [reflexivity|].
  assert (N : (out ++ [chunk])%list <> out).
  { intro H. apply (f_equal (@length string)) in H.
    rewrite length_app in H; simpl in H; lia. }
  destruct (Z.leb_spec level c); split; split; intro; try lia; try reflexivity;
    congruence.
Qed.

(** C7: with no level ever set ([CONFIGURED_LEVEL] is [None]) a [log] call
    with any integer level raises [TypeError] and prints nothing; the
    [DEFAULT_LEVEL] of the class is not consulted. *)
Theorem log_unconfigured_raises_TypeError :
  forall (f : node) (t : datetime) (out inp : list string) (d : bool)
         (level : Z) (source_label message : string),
    MSG.log (VInt level) source_label message (State f t out inp None d)
      = (Raise TypeError, State f t out inp None d).
Proof.
  intros. reflexivity.
Qed.

(** No method of the class other than [setLevelByName] changes the
    configured level. *)
Lemma configured_level_frame (v : value) (src msg : string) (st : state) :
  CONFIGURED_LEVEL (snd (MSG.setLevel v st)) = CONFIGURED_LEVEL st
  /\ CONFIGURED_LEVEL (snd (MSG.getName v st)) = CONFIGURED_LEVEL st
  /\ CONFIGURED_LEVEL (snd (MSG.getLevel v st)) = CONFIGURED_LEVEL st
  /\ CONFIGURED_LEVEL (snd (MSG.log v src msg st)) = CONFIGURED_LEVEL st.
Proof.
  repeat split.
  - destruct v; reflexivity.
  - destruct v; reflexivity.
  - destruct v; reflexivity.
  - destruct v; try reflexivity.
    unfold MSG.log, MSG.getName, bind, ret, get; simpl.
    destruct (CONFIGURED_LEVEL st) as [c|] eqn:E; [|now rewrite ?E].
    destruct (z <=? c)%Z; simpl; now rewrite ?E.
Qed.

(** C10: for every integer argument, the levels 1 to 7 included, [setLevel]
    raises [AttributeError] (the class binds no [_name_lookup]) and leaves
    the whole state, the configured level in it, as it was; [getName],
    [getLevel] and [log] leave the configured level alone as well, and
    [setLevelByName] with a level name sets it. *)
Theorem setLevel_raises_AttributeError :
  (MSG.find_attr "_name_lookup" MSG.class_namespace = None)
  /\ (forall (z : Z) (st : state),
        MSG.setLevel (VInt z) st = (Raise AttributeError, st))
  /\ (forall (v : value) (src msg : string) (st : state),
        CONFIGURED_LEVEL (snd (MSG.setLevel v st)) = CONFIGURED_LEVEL st
        /\ CONFIGURED_LEVEL (snd (MSG.getName v st)) = CONFIGURED_LEVEL st
        /\ CONFIGURED_LEVEL (snd (MSG.getLevel v st)) = CONFIGURED_LEVEL st
        /\ CONFIGURED_LEVEL (snd (MSG.log v src msg st)) = CONFIGURED_LEVEL st)
  /\ (forall (n : string) (l : Z) (st : state),
        MSG.lookup_name n MSG._name_to_level_lookup = Some l ->
        MSG.setLevelByName (VStr n) st = (Ret true, set_level (Some l) st)).
Proof.
  split; [reflexivity|]. split; [reflexivity|]. split.
  - intros; apply configured_level_frame.
  - intros n l st H. unfold MSG.setLevelByName. now rewrite H.
Qed.

(* ================================================================== *)
(** * Strings and patterns                                              *)
(* ================================================================== *)

Section StringFacts.

Lemma string_eqb_refl (a : string) : String.eqb a a = true.
Proof.
  induction a as [|c a IH]; [reflexivity|].
  simpl. now rewrite N.eqb_refl, IH.
Qed.

Lemma string_eqb_eq (a b : string) : String.eqb a b = true <-> a = b.
Proof.
  split; [|intros ->; apply string_eqb_refl].
  revert b. induction a as [|c a IH]; intros [|d b] H; try discriminate;
    [reflexivity|].
  simpl in H. apply andb_true_iff in H as [H1 H2].
  apply N.eqb_eq in H1. apply IH in H2. now subst.
Qed.

Lemma string_eqb_spec (a b : string) : reflect (a = b) (String.eqb a b).
Proof.
  destruct (String.eqb a b) eqn:E; constructor.
  - now apply string_eqb_eq.
  - intro H. apply string_eqb_eq in H. congruence.
Qed.

Lemma length_append (a b : string) :
  String.length (a ++ b) = String.length a + String.length b.
Proof. induction a; simpl; congruence. Qed.

Lemma append_empty_r (a : string) : a ++ "" = a.
Proof. induction a; simpl; congruence. Qed.

Lemma append_assoc (a b c : string) : (a ++ b) ++ c = a ++ b ++ c.
Proof. induction a; simpl; congruence. Qed.

Lemma forallb_append (p : char -> bool) (a b : string) :
  Str.forallb p (a ++ b) = Str.forallb p a && Str.forallb p b.
Proof.
  induction a; simpl; [reflexivity|].
  now rewrite IHa, andb_assoc.
Qed.

Lemma ends_with_newline_append_nl (a : string) : ends_with_newline (a ++ nl) = true.
Proof.
  induction a as [|c a IH]; [reflexivity|].
  simpl. destruct (a ++ nl) eqn:E; [|exact IH].
  destruct a; discriminate.
Qed.

Lemma newline_is_space : Str.is_space Str.newline = true.
Proof. reflexivity. Qed.

(** What [rstrip] returns does not end with white space, a newline
    included. *)
Lemma rstrip_no_newline (s : string) : ends_with_newline (Str.rstrip s) = false.
Proof.
  induction s as [|c s IH]; [reflexivity|].
  simpl. destruct (Str.rstrip s) as [|d r] eqn:E.
  - destruct (Str.is_space c) eqn:Sp; [reflexivity|].
    simpl. destruct (N.eqb_spec c Str.newline) as [->|]; [|reflexivity].
    rewrite newline_is_space in Sp; discriminate.
  - exact IH.
Qed.

Lemma strip_no_newline (s : string) : ends_with_newline (Str.strip s) = false.
Proof. apply rstrip_no_newline. Qed.

Lemma without_final_newline (s body : string) :
  ends_with_newline s = false -> s = body \/ s = body ++ nl -> s = body.
Proof.
  intros H [E|E]; [exact E|].
  rewrite E, ends_with_newline_append_nl in H; discriminate.
Qed.

End StringFacts.

Section PatternFacts.

Lemma dollar_inv (s : string) : Re.dollar s = true -> s = "" \/ s = nl.
Proof.
  destruct s as [|c [|d s]]; simpl; intro H; try discriminate; [now left|].
  right. apply N.eqb_eq in H. now subst.
Qed.

Lemma rep_from_unfold (it : Re.item) (k : string -> bool) (count : nat) (s : string) :
  Re.rep_from it k count s
  = ((Re.rmin it <=? count) && k s)
    || (Re.under count (Re.rmax it)
        && match s with
           | EmptyString => false
           | String c s' => Re.cls it c && Re.rep_from it k (S count) s'
           end).
Proof. destruct s; reflexivity. Qed.

(** A successful match of one quantified class splits the string into the
    characters the class took and what the rest of the pattern matched. *)
Lemma rep_from_sound (it : Re.item) (k : string -> bool) (q : char -> bool) :
  (forall c, Re.cls it c = true -> q c = true) ->
  forall (s : string) (count : nat),
    Re.rep_from it k count s = true ->
    exists body rest,
      s = body ++ rest /\ Str.forallb q body = true /\ k rest = true
      /\ Re.rmin it <= count + String.length body
      /\ (body = "" \/ Re.under (count + String.length body - 1) (Re.rmax it) = true).
Proof.
  intros Hq s. induction s as [|c s IH]; intros count H;
    rewrite rep_from_unfold in H; apply orb_true_iff in H.
  - destruct H as [H|H].
    + apply andb_true_iff in H as [H1 H2]. apply Nat.leb_le in H1.
      exists "", "". simpl. repeat split; auto; lia.
    + rewrite andb_false_r in H; discriminate.
  - destruct H as [H|H].
    + apply andb_true_iff in H as [H1 H2]. apply Nat.leb_le in H1.
      exists "", (String c s). simpl. repeat split; auto; lia.
    + apply andb_true_iff in H as [Hu H]. apply andb_true_iff in H as [Hc H].
      destruct (IH (S count) H) as (body & rest & E & Hb & Hk & Hmin & Hmax).
      exists (String c body), rest. simpl. rewrite E, (Hq c Hc), Hb.
      repeat split; auto; try lia.
      right. destruct Hmax as [->|Hmax].
      * simpl. now replace (count + 1 - 1) with count by lia.
      * now replace (count + S (String.length body) - 1)
          with (S count + String.length body - 1) by lia.
Qed.

(** Every character a pattern matches is of one of its classes; [$] lets
    one final newline through besides. *)
Lemma match_items_chars (q : char -> bool) (items : list Re.item) :
  Forall (fun it => forall c, Re.cls it c = true -> q c = true) items ->
  forall s, Re.match_items items s = true ->
    exists body, Str.forallb q body = true /\ (s = body \/ s = body ++ nl).
Proof.
  induction 1 as [|it items Hit _ IH]; intros s H.
  - exists "". split; [reflexivity|]. simpl. now apply dollar_inv.
  - simpl in H.
    destruct (rep_from_sound it (Re.match_items items) q Hit s 0 H)
      as (b1 & rest & E & Hb & Hk & _ & _).
    destruct (IH rest Hk) as (b2 & Hb2 & [E2|E2]); subst.
    + exists (b1 ++ b2). rewrite forallb_append, Hb, Hb2. auto.
    + exists (b1 ++ b2). rewrite forallb_append, Hb, Hb2, append_assoc. auto.
Qed.

(** [^[class]{lo,hi}$]: between [lo] and [hi] characters of the class, and
    possibly one final newline. *)
Lemma match_class_rep (p : char -> bool) (lo hi : nat) (s : string) :
  Re.match_items [Re.rep p lo hi] s = true ->
  exists body,
    Str.forallb p body = true /\ lo <= String.length body <= hi
    /\ (s = body \/ s = body ++ nl).
Proof.
  intro H. simpl in H.
  destruct (rep_from_sound (Re.rep p lo hi) Re.dollar p (fun c Hc => Hc) s 0 H)
    as (body & rest & E & Hb & Hk & Hmin & Hmax).
  exists body. simpl in *. repeat split; auto.
  - destruct Hmax as [->|Hmax]; [simpl; lia|].
    apply Nat.ltb_lt in Hmax. lia.
  - subst. destruct (dollar_inv _ Hk) as [->| ->]; [left|right]; auto.
    now rewrite append_empty_r.
Qed.

Lemma allowed_hash : forall c, Re.chr Str.hash c = true -> Re.allowed c = true.
Proof.
  intros c H. apply N.eqb_eq in H. now subst.
Qed.

Lemma allowed_digit : forall c, Str.is_ascii_digit c = true -> Re.allowed c = true.
Proof.
  intros c H. unfold Re.allowed. rewrite H. now rewrite !orb_true_r.
Qed.

(** The allowed characters are ASCII: one byte each in a file name. *)
Lemma allowed_ascii (c : char) : Re.allowed c = true -> (c <? 128)%N = true.
Proof.
  unfold Re.allowed, Str.is_lower, Str.is_upper, Str.is_ascii_digit, Str.between.
  intro H. apply N.ltb_lt.
  repeat (apply orb_true_iff in H as [H|H]);
    try (apply andb_true_iff in H as [_ H]; apply N.leb_le in H; lia).
  all: simpl in H; rewrite ?andb_true_r in H; try discriminate H.
  all: apply N.eqb_eq in H; subst; reflexivity.
Qed.

(** A decimal digit of Unicode is neither "#" nor white space. *)
Lemma digit_not_hash (c : char) : Str.is_digit c = true -> c <> Str.hash.
Proof. intros H ->. discriminate H. Qed.

Lemma digit_not_space (c : char) : Str.is_digit c = true -> Str.is_space c = false.
Proof.
  intro H. destruct (Str.is_space c) eqn:S; [|reflexivity].
  unfold Str.is_space in S. apply existsb_exists in S as (x & Hin & E).
  apply N.eqb_eq in E. subst x.
  unfold Str.spaces in Hin. simpl in Hin.
  repeat (destruct Hin as [<-|Hin]; [discriminate H|]).
  contradiction.
Qed.

(** A string the token pattern matches, with no final newline, is made of
    1 to 20 allowed characters. *)
Lemma case_token_bounds (s : string) :
  ends_with_newline s = false ->
  Re.match_items Re.re_case_token s = true ->
  Str.forallb Re.allowed s = true /\ 1 <= String.length s <= 20.
Proof.
  intros Hn H.
  destruct (match_class_rep _ _ _ _ H) as (body & Hb & Hl & E).
  now rewrite (without_final_newline s body Hn E).
Qed.

End PatternFacts.

Section PatternCompleteness.

(** Taking the characters of [body], all of the class and within the
    bounds, and then matching the rest of the pattern is a match. *)
Lemma rep_from_complete (it : Re.item) (k : string -> bool) (rest : string) :
  k rest = true ->
  forall (body : string) (count : nat),
    Str.forallb (Re.cls it) body = true ->
    Re.rmin it <= count + String.length body ->
    (forall j, count <= j < count + String.length body ->
               Re.under j (Re.rmax it) = true) ->
    Re.rep_from it k count (body ++ rest) = true.
Proof.
  intros Hk body. induction body as [|c body IH]; intros count Hb Hmin Hmax;
    rewrite rep_from_unfold; apply orb_true_iff.
  - left. simpl in *. rewrite Hk, andb_true_r. apply Nat.leb_le. lia.
  - right. simpl in Hb, Hmin. apply andb_true_iff in Hb as [Hc Hb].
    rewrite (Hmax count) by (simpl; lia). simpl. rewrite Hc. simpl.
    apply IH; auto; [lia|].
    intros j Hj. apply Hmax. simpl. lia.
Qed.

Lemma match_class_rep_iff (p : char -> bool) (lo hi : nat) (s : string) :
  Re.match_items [Re.rep p lo hi] s = true
  <-> exists body,
        Str.forallb p body = true /\ lo <= String.length body <= hi
        /\ (s = body \/ s = body ++ nl).
Proof.
  split; [apply match_class_rep|].
  intros (body & Hb & Hl & E).
  assert (exists rest, s = body ++ rest /\ Re.dollar rest = true) as (rest & -> & Hd).
  { destruct E as [->| ->]; [exists "" | exists nl]; split; auto.
    now rewrite append_empty_r. }
  simpl. apply rep_from_complete; simpl; auto; try lia.
  intros j Hj. apply Nat.ltb_lt. lia.
Qed.

Lemma lstrip_blank (s : string) : Str.forallb Str.is_space s = true -> Str.lstrip s = "".
Proof.
  induction s as [|c s IH]; [reflexivity|]. simpl. intro H.
  apply andb_true_iff in H as [Hc Hs]. rewrite Hc. auto.
Qed.

(** [strip] leaves a string without white space as it is. *)
Lemma strip_without_space (s : string) :
  Str.forallb (fun c => negb (Str.is_space c)) s = true -> Str.strip s = s.
Proof.
  intro H. unfold Str.strip.
  assert (L : Str.lstrip s = s).
  { destruct s as [|c s]; [reflexivity|]. simpl in *.
    apply andb_true_iff in H as [Hc _]. now destruct (Str.is_space c). }
  rewrite L. clear L. induction s as [|c s IH]; [reflexivity|].
  simpl in *. apply andb_true_iff in H as [Hc Hs]. rewrite (IH Hs).
  destruct s; [|reflexivity]. now destruct (Str.is_space c).
Qed.

Lemma digits_without_space (d : string) :
  Str.forallb Str.is_digit d = true ->
  Str.forallb (fun c => negb (Str.is_space c)) d = true.
Proof.
  induction d as [|c d IH]; [reflexivity|]. simpl. intro H.
  apply andb_true_iff in H as [Hc Hd]. now rewrite (digit_not_space c Hc), IH.
Qed.

Lemma plus_digits (d : string) :
  d <> "" -> Str.forallb Str.is_digit d = true ->
  Re.match_items [Re.plus Str.is_digit] d = true.
Proof.
  intros Hne Hd. simpl. rewrite <- (append_empty_r d).
  apply rep_from_complete; simpl; auto.
  destruct d; [contradiction | simpl; lia].
Qed.

Lemma case_number_digits (d : string) :
  d <> "" -> Str.forallb Str.is_digit d = true ->
  Re.match_items Re.re_case_number d = true
  /\ Re.match_items Re.re_case_number ("#" ++ d) = true.
Proof.
  intros Hne Hd. split.
  - change (Re.rep_from (Re.opt (Re.chr Str.hash)) (Re.match_items [Re.plus Str.is_digit])
              0 ("" ++ d) = true).
    apply rep_from_complete; simpl; auto; [now apply plus_digits | lia].
  - change (Re.rep_from (Re.opt (Re.chr Str.hash)) (Re.match_items [Re.plus Str.is_digit])
              0 ("#" ++ d) = true).
    apply rep_from_complete; simpl; auto; [now apply plus_digits|].
    intros j Hj. replace j with 0 by lia. reflexivity.
Qed.

Lemma startswith_hash (s : string) : Str.startswith "#" ("#" ++ s) = true.
Proof.
  reflexivity.
Qed.

Lemma startswith_hash_digit (c : char) (d : string) :
  Str.is_digit c = true -> Str.startswith "#" (String c d) = false.
Proof.
  intro H. unfold Str.startswith.
  change (String.prefix "#" (String c d))
    with (N.eqb Str.hash c && String.prefix "" d).
  destruct (N.eqb_spec Str.hash c) as [E|_]; [|reflexivity].
  symmetry in E. now apply digit_not_hash in E.
Qed.

(** What the number pattern matches, a final newline apart: decimal digits,
    at least one, after at most one "#". *)
Lemma case_number_inv (s : string) :
  ends_with_newline s = false ->
  Re.match_items Re.re_case_number s = true ->
  exists d, d <> "" /\ Str.forallb Str.is_digit d = true
            /\ (s = d \/ s = "#" ++ d).
Proof.
  intros Hn H.
  change (Re.rep_from (Re.opt (Re.chr Str.hash))
            (Re.match_items [Re.plus Str.is_digit]) 0 s = true) in H.
  destruct (rep_from_sound (Re.opt (Re.chr Str.hash)) _ (Re.chr Str.hash)
              (fun c Hc => Hc) s 0 H) as (b & r & E & Hb & Hk & _ & Hmax).
  change (Re.rep_from (Re.plus Str.is_digit) Re.dollar 0 r = true) in Hk.
  destruct (rep_from_sound (Re.plus Str.is_digit) _ Str.is_digit
              (fun c Hc => Hc) r 0 Hk) as (d & r2 & E2 & Hd & Hk2 & Hmin & _).
  simpl in Hmin.
  assert (Er : r = d \/ r = d ++ nl).
  { destruct (dollar_inv _ Hk2) as [->| ->]; [left|right]; auto.
    now rewrite E2, append_empty_r. }
  exists d. split; [destruct d; [simpl in Hmin; lia | discriminate]|].
  split; [exact Hd|].
  assert (Eb : b = "" \/ b = "#").
  { destruct Hmax as [->|Hmax]; [now left|].
    destruct b as [|c [|c' b]]; [now left | right | simpl in Hmax; discriminate].
    cbn [Str.forallb] in Hb. rewrite andb_true_r in Hb.
    apply N.eqb_eq in Hb. now subst c. }
  destruct Eb as [->| ->]; [left|right].
  - simpl in E. subst s. now apply without_final_newline.
  - subst s.
    assert (Hr : ends_with_newline r = false).
    { destruct r as [|c r']; [reflexivity|]. exact Hn. }
    f_equal. now apply without_final_newline.
Qed.


End PatternCompleteness.

(* ================================================================== *)
(** * The case reference loop                                           *)
(* ================================================================== *)

Section CaseReference.

Lemma while_reading_cons {A} (prompt : string) (body : string -> M (option A))
    (l : string) (rest : list string) (st : state) :
  while_reading prompt body (l :: rest) st
  = match body l (write prompt (set_stdin rest st)) with
    | (Ret (Some a), st') => (Ret a, st')
    | (Ret None, st') => while_reading prompt body rest st'
    | (Raise e, st') => (Raise e, st')
    end.
Proof. reflexivity. Qed.

(** A value the loop returns is the answer of its body to one of the
    lines. *)
Lemma while_reading_ret {A} (prompt : string) (body : string -> M (option A))
    (lines : list string) :
  forall (st st' : state) (a : A),
    while_reading prompt body lines st = (Ret a, st') ->
    exists l s1, In l lines /\ fst (body l s1) = Ret (Some a).
Proof.
  induction lines as [|l rest IH]; intros st st' a H.
  - discriminate.
  - rewrite while_reading_cons in H.
    destruct (body l (write prompt (set_stdin rest st))) as [[[v|]|e] s1] eqn:E.
    + injection H as -> ->. exists l, (write prompt (set_stdin rest st)).
      split; [now left|]. now rewrite E.
    + destruct (IH _ _ _ H) as (l' & s2 & Hin & Hb).
      exists l', s2. split; [now right | exact Hb].
    + discriminate.
Qed.



(** What an accepted, non-empty case reference looks like. *)
Lemma case_id_body_accept (line r : string) (st : state) :
  fst (case_id_body line st) = Ret (Some (Some r)) ->
  let s := Str.strip line in
  (Re.match_items Re.re_case_number s = true
   /\ r = (if Str.startswith "#" s then s else "#" ++ s))
  \/ (Re.match_items Re.re_case_number s = false
      /\ r = "#(" ++ s ++ ")"
      /\ 1 <= String.length s <= 20
      /\ Str.forallb Re.allowed s = true).
Proof.
  intro H. cbv zeta. unfold case_id_body in H.
  set (s := Str.strip line) in *.
  assert (Hn : ends_with_newline s = false) by apply strip_no_newline.
  destruct (Str.truthy s); [|discriminate]. cbn [negb] in H.
  destruct (Re.match_items Re.re_case_number s) eqn:E1.
  - left. split; [reflexivity|].
    destruct (Str.startswith "#" s); simpl in H; injection H as <-; reflexivity.
  - right. split; [reflexivity|].
    destruct (Re.match_items Re.re_case_token s) eqn:E2.
    + destruct (case_token_bounds _ Hn E2) as [Ha Hl].
      simpl in H. injection H as <-. auto.
    + exfalso. revert H. unfold bind, ret.
      repeat match goal with
             | |- context [MSG.log ?l ?a ?b ?x] =>
                 destruct (MSG.log l a b x) as [[[]|?] ?]
             end; simpl; discriminate.
Qed.

End CaseReference.




(** So does a line with a TAB, which is outside the allow-list and is
    stripped before the line is matched. *)
Lemma case_reference_accepts_tab :
  Str.forallb Re.allowed ("12345" ++ String Str.tab "") = false
  /\ case_id_loop (Sample.st0 (Some 4%Z) false ["12345" ++ String Str.tab ""])
     = (Ret (Some "#12345"),
        State Sample.fs0 Sample.t0 [case_id_prompt] [] (Some 4%Z) false).
Proof. split; reflexivity. Qed.

(** C8, as the code has it: a non-empty case reference the loop returns
    comes from one of the lines read; either the stripped line is a number
    (optionally after "#"), taken at any length and returned with one "#"
    in front, or it is wrapped as "#(...)" and then it has 1 to 20
    characters, all of the allow-list. *)
Theorem accepted_case_reference_bounds :
  forall (st st' : state) (r : string),
    case_id_loop st = (Ret (Some r), st') ->
    exists line,
      In line (stdin st)
      /\ ((Re.match_items Re.re_case_number (Str.strip line) = true
           /\ r = (if Str.startswith "#" (Str.strip line)
                   then Str.strip line else "#" ++ Str.strip line))
          \/ (Re.match_items Re.re_case_number (Str.strip line) = false
              /\ r = "#(" ++ Str.strip line ++ ")"
              /\ 1 <= String.length (Str.strip line) <= 20
              /\ Str.forallb Re.allowed (Str.strip line) = true)).
Proof.
  intros st st' r H. unfold case_id_loop, while_True_input in H.
  destruct (while_reading_ret _ _ _ _ _ _ H) as (l & s1 & Hin & Hb).
  exists l. split; [exact Hin|]. now apply case_id_body_accept with (st := s1).
Qed.

Lemma accepted_case_reference_bounds_witness :
  exists line,
    In line ["case!"; " case A-1 "]
    /\ ((Re.match_items Re.re_case_number (Str.strip line) = true
         /\ "#(case A-1)" = (if Str.startswith "#" (Str.strip line)
                             then Str.strip line else "#" ++ Str.strip line))
        \/ (Re.match_items Re.re_case_number (Str.strip line) = false
            /\ "#(case A-1)" = "#(" ++ Str.strip line ++ ")"
            /\ 1 <= String.length (Str.strip line) <= 20
            /\ Str.forallb Re.allowed (Str.strip line) = true)).
Proof.
  apply (accepted_case_reference_bounds
           (Sample.st0 (Some 4%Z) false ["case!"; " case A-1 "])
           (State Sample.fs0 Sample.t0
              [case_id_prompt;
               "[WARNING::main] Invalid input. Please enter a valid case ID reference or leave it empty." ++ nl;
               case_id_prompt]
              [] (Some 4%Z) false)
           "#(case A-1)").
  reflexivity.
Defined.

(** C8 as stated fails: a line of 21 digits is longer than 20 characters
    and the loop accepts it. *)
Lemma case_reference_accepts_21_digits :
  String.length "123456789012345678901" = 21
  /\ case_id_loop (Sample.st0 (Some 4%Z) false ["123456789012345678901"])
     = (Ret (Some "#123456789012345678901"),
        State Sample.fs0 Sample.t0 [case_id_prompt] [] (Some 4%Z) false).
Proof. split; reflexivity. Qed.

(* ================================================================== *)
(** * Template discovery                                                *)
(* ================================================================== *)

Section Discovery.

(** Induction on a file system tree, with the property available for
    every entry of a directory. *)
Lemma node_nested_ind (P : node -> Prop) :
  (forall content, P (File content)) ->
  P Other ->
  (forall entries, Forall (fun e => P (snd e)) entries -> P (Dir entries)) ->
  forall n, P n.
Proof.
  intros HF HO HD. fix IH 1. intros [content|entries|].
  - apply HF.
  - apply HD.
    refine ((fix go (es : list (string * node)) : Forall (fun e => P (snd e)) es :=
               match es with
               | [] => Forall_nil _
               | e :: tl => Forall_cons e (IH (snd e)) (go tl)
               end) entries).
  - exact HO.
Qed.

Lemma found_below_file (cur : Path) (name : string) :
  FS.suffix name = ".ipynb" -> found_below cur (cur ++ [name])%list.
Proof.
  intro H. exists [], name. simpl. auto.
Qed.

Lemma found_below_step (cur : Path) (name : string) (p : Path) :
  Str.mem name PLAYBOOK_IGNORE_DIRS = false ->
  found_below (cur ++ [name])%list p -> found_below cur p.
Proof.
  intros Hn (rel & f & E & Hrel & Hs).
  exists (name :: rel), f. repeat split; auto.
  rewrite E, <- app_assoc. reflexivity.
Qed.

Lemma for_each_item_cons (search : Path -> node -> list Path -> list Path)
    (cur : Path) (name : string) (item : node) (rest : list (string * node))
    (acc : list Path) :
  for_each_item search cur ((name, item) :: rest) acc
  = for_each_item search cur rest
      match item with
      | Dir _ =>
          if negb (Str.mem name PLAYBOOK_IGNORE_DIRS)
          then search (cur ++ [name])%list item acc
          else acc
      | File _ =>
          if String.eqb (FS.suffix name) ".ipynb"
          then (acc ++ [(cur ++ [name])%list])%list
          else acc
      | Other => acc
      end.
Proof. reflexivity. Qed.

(** Whatever the loop over the items of a directory adds to [playbooks]
    is a notebook found below that directory, provided that holds for the
    visits of the subdirectories. *)
Lemma for_each_item_sound (cur : Path) (items : list (string * node)) :
  Forall (fun e => forall c acc p,
            In p (recursive_search c (snd e) acc) -> In p acc \/ found_below c p)
         items ->
  forall acc p,
    In p (for_each_item recursive_search cur items acc) ->
    In p acc \/ found_below cur p.
Proof.
  induction 1 as [|[name item] rest Hitem _ IH]; intros acc p Hin.
  - now left.
  - rewrite for_each_item_cons in Hin. apply IH in Hin.
    destruct Hin as [Hin|Hin]; [|now right].
    destruct item as [content|entries|].
    + destruct (string_eqb_spec (FS.suffix name) ".ipynb") as [Hs|Hs]; [|now left].
      apply in_app_or in Hin. destruct Hin as [Hin|[<-|[]]]; [now left|].
      right. now apply found_below_file.
    + destruct (Str.mem name PLAYBOOK_IGNORE_DIRS) eqn:Hm; cbn [negb] in Hin;
        [now left|].
      apply (Hitem (cur ++ [name])%list) in Hin. destruct Hin as [Hin|Hin]; [now left|].
      right. now apply found_below_step with (name := name).
    + now left.
Qed.

Lemma recursive_search_sound (d : node) :
  forall cur acc p,
    In p (recursive_search cur d acc) -> In p acc \/ found_below cur p.
Proof.
  induction d as [content| |entries IH] using node_nested_ind; intros cur acc p Hin.
  - now left.
  - now left.
  - simpl in Hin. now apply for_each_item_sound in Hin.
Qed.

Lemma last_dot_tail_suffix (s t : string) :
  FS.last_dot_tail s = Some t -> exists pre, s = pre ++ t.
Proof.
  revert t. induction s as [|c s IH]; intros t H; [discriminate|].
  simpl in H. destruct (FS.last_dot_tail s) as [t'|].
  - injection H as <-. destruct (IH t' eq_refl) as (pre & ->).
    now exists (String c pre).
  - destruct (N.eqb c Str.dot); [|discriminate].
    injection H as <-. now exists "".
Qed.

(** A file name whose [suffix] is [.ipynb] ends with [.ipynb] after a
    non-empty stem. *)
Lemma suffix_ipynb (name : string) :
  FS.suffix name = ".ipynb" -> exists stem, stem <> "" /\ name = stem ++ ".ipynb".
Proof.
  unfold FS.suffix. intro H.
  destruct (FS.last_dot_tail name) as [t|] eqn:E; [|discriminate].
  destruct (string_eqb_spec t name) as [Ht|Ht]; [discriminate|].
  simpl in H. destruct (String.length t =? 1); [discriminate|]. subst t.
  destruct (last_dot_tail_suffix _ _ E) as (pre & Hp).
  exists pre. split; [|exact Hp].
  intros ->. now apply Ht.
Qed.

(** [get_list_of_notebooks] under a configured level. *)
Lemma get_list_of_notebooks_configured (playbooks_dir : Path) (c : Z) (st : state) :
  CONFIGURED_LEVEL st = Some c ->
  let st1 :=
    add_out (emit c MSG.VERBOSE "get_list_of_notebooks"
               ("Fetching all Jupyter Notebook (" ++ "*.ipynb) files in the '"
                ++ FS.str playbooks_dir ++ "' directory.")) st in
  get_list_of_notebooks playbooks_dir st
  = match FS.lookup (fs st) playbooks_dir with
    | Some (Dir items) =>
        match recursive_search playbooks_dir (Dir items) [] with
        | [] =>
            (Ret None,
             add_out (emit c MSG.WARNING "get_list_of_notebooks"
                        ("No Jupyter notebooks found in '" ++ FS.str playbooks_dir
                         ++ "'.")) st1)
        | l => (Ret (Some l), st1)
        end
    | _ =>
        (Ret None,
         add_out (emit c MSG.ERROR "get_list_of_notebooks"
                    ("Directory string '" ++ FS.str playbooks_dir
                     ++ "' does not point to a valid directory.")) st1)
    end.
Proof.
  intros Hc st1. unfold get_list_of_notebooks.
  rewrite (bind_log _ c) by exact Hc. fold st1.
  rewrite bind_get. change (fs st1) with (fs st).
  destruct (FS.lookup (fs st) playbooks_dir) as [[content|items|]|];
    try (rewrite (bind_log _ c) by exact Hc; reflexivity).
  destruct (recursive_search playbooks_dir (Dir items) []); [|reflexivity].
  rewrite (bind_log _ c) by exact Hc; reflexivity.
Qed.

Lemma get_list_of_notebooks_unconfigured (playbooks_dir : Path) (st : state) :
  CONFIGURED_LEVEL st = None ->
  get_list_of_notebooks playbooks_dir st = (Raise TypeError, st).
Proof.
  intro Hc. unfold get_list_of_notebooks. unfold bind at 1.
  assert (E : forall src msg, MSG.log (VInt MSG.VERBOSE) src msg st = (Raise TypeError, st)).
  { intros. unfold MSG.log, MSG.getName, bind, ret, get. now rewrite Hc. }
  now rewrite E.
Qed.

(** What [get_list_of_notebooks] returns as a list is what the traversal
    collected. *)
Lemma get_list_of_notebooks_some (playbooks_dir : Path) (st : state) (l : list Path) :
  fst (get_list_of_notebooks playbooks_dir st) = Ret (Some l) ->
  l = collected (fs st) playbooks_dir /\ l <> [].
Proof.
  destruct (CONFIGURED_LEVEL st) as [c|] eqn:Hc.
  - rewrite (get_list_of_notebooks_configured playbooks_dir c st Hc).
    unfold collected.
    destruct (FS.lookup (fs st) playbooks_dir) as [[content|items|]|];
      try discriminate.
    destruct (recursive_search playbooks_dir (Dir items) []) eqn:E;
      [discriminate|].
    simpl. intro H; injection H as <-. split; [reflexivity | discriminate].
  - rewrite (get_list_of_notebooks_unconfigured playbooks_dir st Hc). discriminate.
Qed.

End Discovery.

(** C2: every path template discovery returns is the root of the search
    followed by subdirectories none of which bears an ignored name, however
    deep, and by a file name whose suffix is [.ipynb], that is, a non-empty
    stem followed by ".ipynb". *)
Theorem discovery_skips_ignored_subdirectories :
  forall (playbooks_dir : Path) (st : state) (l : list Path) (p : Path),
    fst (get_list_of_notebooks playbooks_dir st) = Ret (Some l) ->
    In p l ->
    exists (rel : list string) (name stem : string),
      p = (playbooks_dir ++ rel ++ [name])%list
      /\ Forall (fun d => Str.mem d PLAYBOOK_IGNORE_DIRS = false) rel
      /\ FS.suffix name = ".ipynb"
      /\ stem <> "" /\ name = stem ++ ".ipynb".
Proof.
  intros playbooks_dir st l p H Hin.
  destruct (get_list_of_notebooks_some _ _ _ H) as [-> _].
  unfold collected in Hin.
  destruct (FS.lookup (fs st) playbooks_dir) as [d|]; [|destruct Hin].
  apply recursive_search_sound in Hin. destruct Hin as [[]|(rel & name & E & Hrel & Hs)].
  destruct (suffix_ipynb _ Hs) as (stem & Hne & Hname).
  exists rel, name, stem. auto.
Qed.

Lemma discovery_skips_ignored_subdirectories_witness :
  exists (rel : list string) (name stem : string),
    ["Playbooks"; "a"; "x.ipynb"] = (["Playbooks"] ++ rel ++ [name])%list
    /\ Forall (fun d => Str.mem d PLAYBOOK_IGNORE_DIRS = false) rel
    /\ FS.suffix name = ".ipynb"
    /\ stem <> "" /\ name = stem ++ ".ipynb".
Proof.
  apply (discovery_skips_ignored_subdirectories
           ["Playbooks"] (Sample.st0 (Some 4%Z) false [])
           [["Playbooks"; "a"; "x.ipynb"]] ["Playbooks"; "a"; "x.ipynb"]).
  - reflexivity.
  - simpl. left. reflexivity.
Defined.

(** C9: under a configured logger, template discovery returns [None]
    exactly when the root is not an existing directory or the traversal
    collected no template; in every other case it returns the non-empty
    list the traversal collected. *)
Theorem discovery_not_found_iff :
  forall (playbooks_dir : Path) (f : node) (t : datetime)
         (out inp : list string) (c : Z) (d : bool),
    let r := fst (get_list_of_notebooks playbooks_dir (State f t out inp (Some c) d)) in
    (r = Ret None
       <-> (FS.is_dir f playbooks_dir = false \/ collected f playbooks_dir = []))
    /\ (r = Ret None
        \/ (r = Ret (Some (collected f playbooks_dir))
            /\ collected f playbooks_dir <> []
            /\ FS.is_dir f playbooks_dir = true)).
Proof.
  intros playbooks_dir f t out inp c d r. subst r.
  rewrite (get_list_of_notebooks_configured playbooks_dir c
             (State f t out inp (Some c) d) eq_refl).
  unfold collected, FS.is_dir. cbn [fs].
  destruct (FS.lookup f playbooks_dir) as [[content|items|]|];
    try (split; [split; auto | left; reflexivity]).
  destruct (recursive_search playbooks_dir (Dir items) []) as [|p l] eqn:E.
  - split; [split; auto | left; reflexivity].
  - cbn [fst]. split.
    + split; [discriminate|]. intros [H|H]; discriminate.
    + right. repeat split; discriminate.
Qed.

(* ================================================================== *)
(** * Directory naming and creation                                     *)
(* ================================================================== *)

Section CreateDirectory.

Lemma lookup_app (p q : Path) :
  forall n, FS.lookup n (p ++ q)%list
            = match FS.lookup n p with
              | Some m => FS.lookup m q
              | None => None
              end.
Proof.
  induction p as [|name p IH]; intro n; [reflexivity|].
  simpl. destruct n as [content|entries|]; try reflexivity.
  destruct (FS.find name entries); [apply IH | reflexivity].
Qed.

(** What exists below [p] makes [p] exist. *)
Lemma exists_prefix (f : node) (p q : Path) :
  FS.exists_ f (p ++ q)%list = true -> FS.exists_ f p = true.
Proof.
  unfold FS.exists_. rewrite lookup_app.
  destruct (FS.lookup f p); [reflexivity | discriminate].
Qed.

Lemma is_dir_exists (f : node) (p : Path) :
  FS.is_dir f p = true -> FS.exists_ f p = true.
Proof.
  unfold FS.is_dir, FS.exists_. destruct (FS.lookup f p); [reflexivity | discriminate].
Qed.

(** The composed name, as the specification words it. *)
Lemma compose_dir_name_shape (ts : string) (case_id folder_name : option string) :
  compose_dir_name ts case_id folder_name
  = (ts ++ (if given case_id then " " ++ opt_str case_id else ""))
    ++ " - " ++ (if given folder_name then opt_str folder_name else "New Investigation").
Proof.
  unfold compose_dir_name.
  destruct (given case_id), (given folder_name); now rewrite ?append_empty_r.
Qed.

(** [create_directory] under a configured level, branch by branch. *)
Lemma create_directory_configured (base : Path) (case_id folder_name : option string)
    (c : Z) (st : state) :
  CONFIGURED_LEVEL st = Some c ->
  let name := compose_dir_name (strftime (now st)) case_id folder_name in
  let path := (base ++ [name])%list in
  let log := fun (level : Z) (msg : string) => add_out (emit c level "create_directory" msg) in
  let st1 := log MSG.INFO ("New directory name: '" ++ name ++ "'") st in
  create_directory base case_id folder_name st
  = if negb (FS.exists_ (fs st) base) then
      (Ret None,
       log MSG.ERROR ("Investigations directory '" ++ FS.str base ++ "' does not exist.") st)
    else if negb (Re.match_items Re.re_dir_name name) then
      (Ret None, log MSG.ERROR ("Invalid directory name: '" ++ name ++ "'.") st1)
    else if FS.exists_ (fs st) path then
      (Ret None, log MSG.ERROR ("Directory '" ++ FS.str path ++ "' already exists.") st1)
    else if DRYRUN st then
      (Ret None,
       log MSG.DEBUG ("DRYRUN: Would have created directory '" ++ FS.str path ++ "'.") st1)
    else
      match FS.mkdir_in path (fs st) path with
      | inl e => (Raise e, st1)
      | inr f' =>
          if negb (FS.exists_ f' path) then
            (Ret None,
             log MSG.ERROR ("Failed to create directory '" ++ FS.str path ++ "'.")
               (set_fs f' st1))
          else
            (Ret (Some path),
             log MSG.INFO ("Created directory '" ++ FS.str path ++ "'.") (set_fs f' st1))
      end.
Proof.
  intros Hc name path log st1. unfold create_directory.
  rewrite bind_get. destruct (negb (FS.exists_ (fs st) base)).
  { rewrite (bind_log _ c) by exact Hc. reflexivity. }
  rewrite bind_get. fold name. cbv zeta.
  rewrite (bind_log _ c) by exact Hc. fold (log MSG.INFO ("New directory name: '" ++ name ++ "'") st).
  fold st1.
  destruct (negb (Re.match_items Re.re_dir_name name)).
  { rewrite (bind_log _ c) by exact Hc. reflexivity. }
  rewrite bind_get. change (fs st1) with (fs st). fold path.
  destruct (FS.exists_ (fs st) path).
  { rewrite (bind_log _ c) by exact Hc. reflexivity. }
  rewrite bind_get. change (DRYRUN st1) with (DRYRUN st).
  destruct (DRYRUN st).
  { rewrite (bind_log _ c) by exact Hc. reflexivity. }
  unfold bind at 1. unfold mkdir, lift_fs. change (fs st1) with (fs st).
  destruct (FS.mkdir_in path (fs st) path) as [e|f']; [reflexivity|].
  rewrite bind_get. change (fs (set_fs f' st1)) with f'.
  destruct (negb (FS.exists_ f' path));
    rewrite (bind_log _ c) by exact Hc; reflexivity.
Qed.

(** With no level configured every path of [create_directory] ends in the
    [TypeError] of its first [log] call. *)
Lemma create_directory_unconfigured (base : Path) (case_id folder_name : option string)
    (st : state) :
  CONFIGURED_LEVEL st = None ->
  create_directory base case_id folder_name st = (Raise TypeError, st).
Proof.
  intro Hc.
  assert (E : forall l src msg, MSG.log (VInt l) src msg st = (Raise TypeError, st)).
  { intros. unfold MSG.log, MSG.getName, bind, ret, get. now rewrite Hc. }
  unfold create_directory. rewrite bind_get.
  destruct (negb (FS.exists_ (fs st) base)).
  - unfold bind at 1. now rewrite E.
  - rewrite bind_get. cbv zeta. unfold bind at 1. now rewrite E.
Qed.

(** How far the naming contract goes: a path [create_directory] returns is
    the base directory followed by the composed name, and that name is 1
    to 75 allowed characters, possibly followed by one newline. *)
Lemma create_directory_returned_name (base : Path) (case_id folder_name : option string)
    (st : state) (p : Path) :
  fst (create_directory base case_id folder_name st) = Ret (Some p) ->
  let name := compose_dir_name (strftime (now st)) case_id folder_name in
  p = (base ++ [name])%list
  /\ exists body,
       Str.forallb Re.allowed body = true /\ 1 <= String.length body <= 75
       /\ (name = body \/ name = body ++ nl).
Proof.
  intros H name.
  destruct (CONFIGURED_LEVEL st) as [c|] eqn:Hc.
  - rewrite (create_directory_configured base case_id folder_name c st Hc) in H.
    cbv zeta in H. fold name in H.
    destruct (negb (FS.exists_ (fs st) base)); [discriminate|].
    destruct (Re.match_items Re.re_dir_name name) eqn:Hm; [|discriminate].
    cbn [negb] in H.
    destruct (FS.exists_ (fs st) (base ++ [name])%list); [discriminate|].
    destruct (DRYRUN st); [discriminate|].
    destruct (FS.mkdir_in _ (fs st) _) as [e|f']; [discriminate|].
    destruct (negb (FS.exists_ f' _)); [discriminate|].
    injection H as <-. split; [reflexivity|].
    now apply match_class_rep.
  - rewrite (create_directory_unconfigured base case_id folder_name st Hc) in H.
    discriminate.
Qed.

End CreateDirectory.

(** C1: the code lets a composed name through that ends with a newline.
    With the folder name of 56 letters and a final newline, the clock at
    2024-01-02 03:04 and an empty [Investigations], [create_directory]
    makes the directory and returns its path, though the name has 76
    characters and its last one is not of the allow-list. *)
Theorem create_directory_accepts_final_newline :
  let name := "2024-01-02T03.04 - " ++ Sample.long_folder in
  fst (create_directory INVESTIGATIONS_DIR None (Some Sample.long_folder)
         (Sample.st0 (Some 4%Z) false []))
    = Ret (Some ["Investigations"; name])
  /\ FS.is_dir
       (fs (snd (create_directory INVESTIGATIONS_DIR None (Some Sample.long_folder)
                   (Sample.st0 (Some 4%Z) false []))))
       ["Investigations"; name] = true
  /\ compose_dir_name (strftime Sample.t0) None (Some Sample.long_folder) = name
  /\ String.length name = 76
  /\ Str.forallb Re.allowed name = false
  /\ Re.match_items Re.re_dir_name name = true.
Proof. vm_compute. repeat split. Qed.

(** C4: when a directory with the composed name is already there under
    the base directory, [create_directory] returns [None], changes nothing
    in the file system and passes one message to [log] at level ERROR
    after the INFO line with the name: "Directory ... already exists." for
    a name the pattern accepts, "Invalid directory name ..." otherwise; it
    is printed when the configured level is ERROR or higher. *)
Theorem create_directory_existing_target :
  forall (base : Path) (case_id folder_name : option string)
         (f : node) (t : datetime) (out inp : list string) (c : Z) (d : bool),
    let name := compose_dir_name (strftime t) case_id folder_name in
    let complaint :=
      if Re.match_items Re.re_dir_name name
      then "Directory '" ++ FS.str (base ++ [name])%list ++ "' already exists."
      else "Invalid directory name: '" ++ name ++ "'." in
    FS.is_dir f (base ++ [name])%list = true ->
    create_directory base case_id folder_name (State f t out inp (Some c) d)
    = (Ret None,
       State f t
         (out ++ emit c MSG.INFO "create_directory" ("New directory name: '" ++ name ++ "'")
              ++ emit c MSG.ERROR "create_directory" complaint)%list
         inp (Some c) d)
    /\ ((MSG.ERROR <= c)%Z ->
        In (("[ERROR::create_directory] " ++ complaint) ++ nl)
           (stdout (snd (create_directory base case_id folder_name
                           (State f t out inp (Some c) d))))).
Proof.
  intros base case_id folder_name f t out inp c d name complaint H.
  assert (E : create_directory base case_id folder_name (State f t out inp (Some c) d)
              = (Ret None,
                 State f t
                   (out ++ emit c MSG.INFO "create_directory"
                             ("New directory name: '" ++ name ++ "'")
                        ++ emit c MSG.ERROR "create_directory" complaint)%list
                   inp (Some c) d)).
  { rewrite (create_directory_configured base case_id folder_name c
               (State f t out inp (Some c) d) eq_refl).
    cbn [fs now DRYRUN]. fold name.
    rewrite (exists_prefix f base [name] (is_dir_exists _ _ H)).
    rewrite (is_dir_exists _ _ H). cbn [negb]. unfold complaint.
    destruct (Re.match_items Re.re_dir_name name); cbn [negb];
      unfold add_out, set_stdout; cbn [stdout fs now stdin CONFIGURED_LEVEL DRYRUN];
      now rewrite <- app_assoc. }
  split; [exact E|].
  intro Hc. rewrite E. cbn [snd stdout].
  apply in_or_app. right. apply in_or_app. right.
  unfold emit. apply Z.leb_le in Hc. rewrite Hc. now left.
Qed.

Lemma create_directory_existing_target_witness :
  create_directory INVESTIGATIONS_DIR (Some "#42") (Some "a")
    (State Sample.fs1 Sample.t0 [] [] (Some 4%Z) false)
  = (Ret None,
     State Sample.fs1 Sample.t0
       ["[ERROR::create_directory] Directory 'Investigations/2024-01-02T03.04 #42 - a' already exists."
        ++ nl]
       [] (Some 4%Z) false).
Proof.
  apply (create_directory_existing_target INVESTIGATIONS_DIR (Some "#42") (Some "a")
           Sample.fs1 Sample.t0 [] [] 4%Z false).
  reflexivity.
Defined.

(* ================================================================== *)
(** * Dry-run mode                                                      *)
(* ================================================================== *)

Section DryRun.

Lemma dry_ret {A} (a : A) (Q : A -> Prop) : Q a -> dry (ret a) Q.
Proof. intros H st Hd. simpl. auto. Qed.

Lemma dry_ret_any {A} (a : A) : dry (ret a) (fun _ => True).
Proof. now apply dry_ret. Qed.

Lemma dry_raise {A} (e : exn) (Q : A -> Prop) : dry (raise e) Q.
Proof. intros st Hd. simpl. auto. Qed.

Lemma dry_bind {A B} (c : M A) (k : A -> M B) (Q : A -> Prop) (R : B -> Prop) :
  dry c Q -> (forall a, Q a -> dry (k a) R) -> dry (bind c k) R.
Proof.
  intros Hc Hk st Hd. unfold bind.
  destruct (Hc st Hd) as (Hf & Hdr & Hq).
  destruct (c st) as [[a|e] st1]; simpl in *.
  - destruct (Hk a Hq st1 Hdr) as (Hf2 & Hd2 & Hq2).
    rewrite Hf2, Hf. auto.
  - auto.
Qed.

Lemma dry_bind_any {A B} (c : M A) (k : A -> M B) (R : B -> Prop) :
  dry c (fun _ => True) -> (forall a, dry (k a) R) -> dry (bind c k) R.
Proof. intros Hc Hk. apply dry_bind with (Q := fun _ => True); auto. Qed.

Lemma dry_weaken {A} (c : M A) (Q R : A -> Prop) :
  dry c Q -> (forall a, Q a -> R a) -> dry c R.
Proof.
  intros Hc HQ st Hd. destruct (Hc st Hd) as (Hf & Hdr & Hq).
  repeat split; auto. destruct (fst (c st)); auto.
Qed.

Lemma dry_get {A} (f : state -> A) : dry (get f) (fun _ => True).
Proof. intros st Hd. simpl. auto. Qed.

(** In dry-run mode the read of [DRYRUN] gives [True]. *)
Lemma dry_get_DRYRUN : dry (get DRYRUN) (fun b => b = true).
Proof. intros st Hd. simpl. auto. Qed.

Lemma dry_print (s : string) : dry (print s) (fun _ => True).
Proof. intros st Hd. simpl. auto. Qed.

Lemma dry_log (v : value) (src msg : string) : dry (MSG.log v src msg) (fun _ => True).
Proof.
  intros st Hd. destruct v; try (simpl; now auto).
  unfold MSG.log, MSG.getName, bind, ret, get; simpl.
  destruct (CONFIGURED_LEVEL st) as [c|]; [destruct (z <=? c)%Z|]; simpl; auto.
Qed.

Lemma dry_try_except {A} (c : M A) (h : exn -> M A) (Q : A -> Prop) :
  dry c Q -> (forall e, dry (h e) Q) -> dry (try_except c h) Q.
Proof.
  intros Hc Hh st Hd. unfold try_except.
  destruct (Hc st Hd) as (Hf & Hdr & Hq).
  destruct (c st) as [[a|e] st1]; simpl in *.
  - auto.
  - destruct (Hh e st1 Hdr) as (Hf2 & Hd2 & Hq2). rewrite Hf2, Hf. auto.
Qed.

Lemma dry_while_reading {A} (prompt : string) (body : string -> M (option A)) :
  (forall l, dry (body l) (fun _ => True)) ->
  forall lines, dry (while_reading prompt body lines) (fun _ => True).
Proof.
  intros Hb lines. induction lines as [|l rest IH]; intros st Hd.
  - simpl. auto.
  - rewrite while_reading_cons.
    assert (Hd1 : DRYRUN (write prompt (set_stdin rest st)) = true) by exact Hd.
    destruct (Hb l _ Hd1) as (Hf & Hdr & _).
    change (fs (write prompt (set_stdin rest st))) with (fs st) in Hf.
    destruct (body l (write prompt (set_stdin rest st))) as [[[a|]|e] st1];
      cbn [fst snd] in *; auto.
    destruct (IH st1 Hdr) as (Hf2 & Hd2 & _). rewrite Hf2, Hf.
    repeat split; auto.
    destruct (fst (while_reading prompt body rest st1)); exact I.
Qed.

Lemma dry_while_True_input {A} (prompt : string) (body : string -> M (option A)) :
  (forall l, dry (body l) (fun _ => True)) ->
  dry (while_True_input prompt body) (fun _ => True).
Proof.
  intros Hb st Hd. unfold while_True_input.
  now apply dry_while_reading.
Qed.

Lemma dry_print_enumerated (playbooks : list Path) :
  forall i, dry (print_enumerated i playbooks) (fun _ => True).
Proof.
  induction playbooks as [|p rest IH]; intro i; simpl.
  - apply dry_ret_any.
  - apply dry_bind_any; [apply dry_print | intro; apply IH].
Qed.

Lemma dry_int_of (s : string) : dry (int_of s) (fun _ => True).
Proof.
  unfold int_of. destruct (_ <? _); [apply dry_raise | apply dry_ret_any].
Qed.

End DryRun.

(** One step of a frame proof in dry-run mode. *)
Ltac dry_step :=
  match goal with
  | |- dry (ret _) (fun _ => True) => apply dry_ret_any
  | |- dry (ret _) _ => apply dry_ret; reflexivity
  | |- dry (raise _) _ => apply dry_raise
  | |- dry (MSG.log _ _ _) _ => apply dry_log
  | |- dry (print _) _ => apply dry_print
  | |- dry (int_of _) _ => apply dry_int_of
  | |- dry (print_enumerated _ _) _ => apply dry_print_enumerated
  | |- dry (get _) (fun _ => True) => apply dry_get
  | |- dry (bind (get DRYRUN) _) _ =>
      apply dry_bind with (Q := fun b => b = true);
      [apply dry_get_DRYRUN | intros ? ->]
  | |- dry (bind _ _) _ => apply dry_bind_any; [|intro]
  | |- dry (if ?b then _ else _) _ => destruct b
  | |- dry (match ?x with _ => _ end) _ => destruct x
  end.

Section DryRunOfTheProgram.

(** In dry-run mode [create_directory] leaves the file system alone and
    can only return [None]. *)
Lemma dry_create_directory (base : Path) (case_id folder_name : option string) :
  dry (create_directory base case_id folder_name) (fun r => r = None).
Proof.
  unfold create_directory. repeat (cbv zeta; dry_step).
Qed.

Lemma dry_get_list_of_notebooks (playbooks_dir : Path) :
  dry (get_list_of_notebooks playbooks_dir) (fun _ => True).
Proof.
  unfold get_list_of_notebooks. repeat (cbv zeta; dry_step).
Qed.

Lemma dry_select_body (playbooks : list Path) (raw_input : string) :
  dry (select_body playbooks raw_input) (fun _ => True).
Proof.
  unfold select_body. repeat (cbv zeta; dry_step).
Qed.

Lemma dry_case_id_body (line : string) : dry (case_id_body line) (fun _ => True).
Proof.
  unfold case_id_body. repeat (cbv zeta; dry_step).
Qed.

Lemma dry_case_id_loop : dry case_id_loop (fun _ => True).
Proof.
  apply dry_while_True_input. exact dry_case_id_body.
Qed.

(** ... so what follows it in [main] never reaches the copy. *)
Lemma dry_create_and_copy (selected : Path) (case_id notebook_folder : option string) :
  dry (create_and_copy selected case_id notebook_folder) (fun _ => True).
Proof.
  unfold create_and_copy.
  apply dry_bind with (Q := fun r : Z + option Path =>
                               match r with inl _ => True | inr d => d = None end).
  - apply dry_try_except.
    + apply dry_bind with (Q := fun r => r = None);
        [apply dry_create_directory|].
      intros a ->. now apply dry_ret.
    + intro e. apply dry_bind_any; [apply dry_log|].
      intro. now apply dry_ret.
  - intros [code|new_dir] Hq.
    + apply dry_ret_any.
    + subst new_dir. apply dry_bind_any; [apply dry_get|]. intro usable.
      repeat dry_step.
Qed.

(** In dry-run mode [main] leaves the file system as it found it, on
    every input and at every level of the logger. *)
Lemma dry_main : dry main (fun _ => True).
Proof.
  unfold main.
  repeat (cbv zeta;
          first [ apply dry_create_and_copy
                | apply dry_case_id_loop
                | apply dry_get_list_of_notebooks
                | apply dry_while_True_input; intro; apply dry_select_body
                | dry_step ]).
Qed.

End DryRunOfTheProgram.

(** C5, as the code has it: in dry-run mode, with an existing base
    directory, a composed name the pattern accepts and no collision,
    [create_directory] changes nothing in the file system, passes the line
    "DRYRUN: Would have created directory ..." to [log] at level DEBUG (so
    it is printed only when the configured level is DEBUG) and returns
    [None], the value it returns on failure; the rest of [main] then
    copies nothing, logs "Failed to create directory for the new
    investigation." at level ERROR and returns [RETURN_ERROR].  On every
    input [main] in dry-run mode leaves the file system as it was. *)
Theorem dry_run_creates_nothing :
  forall (base : Path) (case_id folder_name : option string)
         (f : node) (t : datetime) (out inp : list string) (c : Z),
    let name := compose_dir_name (strftime t) case_id folder_name in
    let path := (base ++ [name])%list in
    let noted :=
      (out ++ emit c MSG.INFO "create_directory" ("New directory name: '" ++ name ++ "'")
           ++ emit c MSG.DEBUG "create_directory"
                ("DRYRUN: Would have created directory '" ++ FS.str path ++ "'."))%list in
    FS.exists_ f base = true ->
    Re.match_items Re.re_dir_name name = true ->
    FS.exists_ f path = false ->
    create_directory base case_id folder_name (State f t out inp (Some c) true)
      = (Ret None, State f t noted inp (Some c) true)
    /\ (base = INVESTIGATIONS_DIR ->
        forall selected : Path,
          create_and_copy selected case_id folder_name (State f t out inp (Some c) true)
          = (Ret (Some RETURN_ERROR),
             State f t
               (noted ++ emit c MSG.ERROR "main"
                           "Failed to create directory for the new investigation.")%list
               inp (Some c) true))
    /\ (forall st : state, DRYRUN st = true -> fs (snd (main st)) = fs st).
Proof.
  intros base case_id folder_name f t out inp c name path noted Hbase Hname Hfree.
  assert (E : create_directory base case_id folder_name (State f t out inp (Some c) true)
              = (Ret None, State f t noted inp (Some c) true)).
  { rewrite (create_directory_configured base case_id folder_name c
               (State f t out inp (Some c) true) eq_refl).
    cbn [fs now DRYRUN]. fold name. fold path.
    rewrite Hbase, Hname, Hfree. cbn [negb].
    unfold add_out, set_stdout, noted;
      cbn [stdout fs now stdin CONFIGURED_LEVEL DRYRUN].
    now rewrite <- app_assoc. }
  split; [exact E|]. split.
  - intros -> selected. unfold create_and_copy.
    unfold bind at 1. unfold try_except. unfold bind at 1. rewrite E.
    cbn [ret]. rewrite bind_get.
    rewrite (bind_log _ c) by reflexivity. reflexivity.
  - intros st Hd. now destruct (dry_main st Hd).
Qed.

Lemma dry_run_creates_nothing_witness :
  create_directory INVESTIGATIONS_DIR (Some "#42") (Some "a")
    (State Sample.fs0 Sample.t0 [] [] (Some 7%Z) true)
  = (Ret None,
     State Sample.fs0 Sample.t0
       ["[INFO::create_directory] New directory name: '2024-01-02T03.04 #42 - a'" ++ nl;
        "[DEBUG::create_directory] DRYRUN: Would have created directory 'Investigations/2024-01-02T03.04 #42 - a'."
        ++ nl]
       [] (Some 7%Z) true).
Proof.
  apply (dry_run_creates_nothing INVESTIGATIONS_DIR (Some "#42") (Some "a")
           Sample.fs0 Sample.t0 [] [] 7%Z eq_refl eq_refl eq_refl).
Defined.

(** C5 as stated fails.  At the default level WARNING a dry run with valid
    inputs prints no line about the directory it would have made and
    [create_directory] returns [None], which is also what it returns when
    the directory is already there; and the script run with [--dryrun] on
    valid answers ("1", then "42") prints the failure message of [main] and
    exits with status 1, the file system untouched. *)
Lemma dry_run_reports_failure :
  create_directory INVESTIGATIONS_DIR (Some "#42") (Some "a")
    (Sample.st0 (Some 4%Z) true [])
    = (Ret None, Sample.st0 (Some 4%Z) true [])
  /\ fst (create_directory INVESTIGATIONS_DIR (Some "#42") (Some "a")
            (State Sample.fs1 Sample.t0 [] [] (Some 4%Z) false))
     = Ret None
  /\ fst (script Sample.dryrun_args (Sample.st0 None false ["1"; "42"])) = Ret 1%Z
  /\ fs (snd (script Sample.dryrun_args (Sample.st0 None false ["1"; "42"])))
     = Sample.fs0
  /\ stdout (snd (script Sample.dryrun_args (Sample.st0 None false ["1"; "42"])))
     = ["SELECT> Available Jupyter notebooks:" ++ nl;
        "1. Playbooks/a/x.ipynb" ++ nl;
        "SELECT> Select a notebook by number: ";
        "ID ref> Enter an Argus or Remedy case ID reference." ++ nl;
        "ID ref> Press Enter to leave the reference empty for now." ++ nl;
        "ID ref> Enter case ID: ";
        "[ERROR::main] Failed to create directory for the new investigation." ++ nl;
        "[ERROR::__main__] Script execution failed. Exiting with error." ++ nl].
Proof. vm_compute. repeat split. Qed.

(* ================================================================== *)
(** * The model on the scenario of the specification                    *)
(* ================================================================== *)

Example patterns_on_samples :
  Re.match_items Re.re_index "  12 " = true
  /\ Re.match_items Re.re_case_number "#12345" = true
  /\ Re.match_items Re.re_case_number "12a" = false
  /\ Re.match_items Re.re_case_number "#" = false
  /\ Re.match_items Re.re_case_token "case A-1" = true
  /\ Re.match_items Re.re_case_token "case!" = false
  /\ Re.match_items Re.re_case_token "" = false
  /\ Re.match_items Re.re_case_token "123456789012345678901" = false.
Proof. repeat split. Qed.

Example strings_on_samples :
  Str.strip "  a b  " = "a b"
  /\ strftime Sample.t0 = "2024-01-02T03.04"
  /\ FS.suffix "x.ipynb" = ".ipynb"
  /\ FS.suffix ".ipynb" = ""
  /\ FS.suffix "x.ipynb." = ""
  /\ FS.suffix "x.tar.gz" = ".gz"
  /\ Str.of_Z 12 = "12".
Proof. repeat split. Qed.

(** Discovery on [Playbooks/a/x.ipynb] and [Playbooks/.git/y.ipynb]
    returns the first only. *)
Example discovery_on_sample :
  fst (get_list_of_notebooks PLAYBOOKS_DIR (Sample.st0 (Some 4%Z) false []))
  = Ret (Some [["Playbooks"; "a"; "x.ipynb"]]).
Proof. reflexivity. Qed.

(** Selecting it with the case input "42" makes the directory
    "<timestamp> #42 - a" with a copy of the notebook named
    "inv_x.ipynb" in it. *)
Example main_on_sample :
  let run := main (Sample.st0 (Some 4%Z) false ["1"; "42"]) in
  fst run = Ret None
  /\ FS.lookup (fs (snd run))
       ["Investigations"; "2024-01-02T03.04 #42 - a"; "inv_x.ipynb"]
     = Some (File "nb")
  /\ FS.lookup (fs (snd run)) ["Playbooks"; "a"; "x.ipynb"] = Some (File "nb").
Proof. vm_compute. repeat split. Qed.

(** A selection of 4301 digits is a number for the pattern and too long
    for [int]: the [ValueError] ends [main]. *)
Example selection_beyond_the_digit_limit :
  Re.match_items Re.re_index Sample.padded_one = true
  /\ String.length Sample.padded_one = 4301
  /\ main (Sample.st0 (Some 4%Z) false [Sample.padded_one; "42"])
     = (Raise (ValueError 4301),
        State Sample.fs0 Sample.t0
          ["SELECT> Available Jupyter notebooks:" ++ nl;
           "1. Playbooks/a/x.ipynb" ++ nl;
           select_prompt]
          ["42"] (Some 4%Z) false).
Proof. repeat split; vm_compute; reflexivity. Qed.

(** A notebook whose name has 252 characters: the copy would be named
    with 256 and is refused; [main] returns [RETURN_ERROR] and leaves the
    new directory empty. *)
Example copy_name_too_long :
  String.utf8_length ("inv_" ++ Sample.long_notebook) = 256
  /\ fst (main (State Sample.fs3 Sample.t0 [] ["1"; "42"] (Some 4%Z) false))
     = Ret (Some RETURN_ERROR)
  /\ FS.lookup (fs (snd (main (State Sample.fs3 Sample.t0 [] ["1"; "42"] (Some 4%Z) false)))) 
       ["Investigations"; "2024-01-02T03.04 #42 - a"]
     = Some (Dir []).
Proof. repeat split; vm_compute; reflexivity. Qed.

(* ================================================================== *)
(** * More on the logger                                                *)
(* ================================================================== *)

Section LevelNames.

Lemma lookup_name_level (n : string) (l : Z) :
  MSG.lookup_name n MSG._name_to_level_lookup = Some l ->
  MSG.lookup_level l MSG._level_to_name_lookup = Some n /\ (1 <= l <= 7)%Z.
Proof.
  unfold MSG._name_to_level_lookup. cbn [MSG.lookup_name].
  repeat match goal with
         | |- context [String.eqb n ?k] =>
             destruct (string_eqb_spec n k) as [->|_];
             [intro H; injection H as <-; split; [reflexivity | vm_compute; split; discriminate]|]
         end.
  discriminate.
Qed.

Lemma lookup_level_name (l : Z) (n : string) :
  MSG.lookup_level l MSG._level_to_name_lookup = Some n ->
  MSG.lookup_name n MSG._name_to_level_lookup = Some l.
Proof.
  unfold MSG._level_to_name_lookup. cbn [MSG.lookup_level].
  repeat match goal with
         | |- context [Z.eqb l ?k] =>
             destruct (Z.eqb_spec l k) as [->|_];
             [intro H; injection H as <-; reflexivity|]
         end.
  discriminate.
Qed.

Lemma lookup_level_range (l : Z) :
  (1 <= l <= 7)%Z -> exists n, MSG.lookup_level l MSG._level_to_name_lookup = Some n.
Proof.
  intro H.
  assert (E : (l = 1 \/ l = 2 \/ l = 3 \/ l = 4 \/ l = 5 \/ l = 6 \/ l = 7)%Z) by lia.
  repeat destruct E as [->|E]; try subst l; eexists; reflexivity.
Qed.

End LevelNames.

(** X1: [getLevel] and [getName] are inverse to each other: [getLevel]
    answers the level [l] for the name [n] exactly when [getName] answers
    the name [n] for the level [l]; and [getName] knows a name for an
    integer exactly when it is one of 1..7.  Neither prints nor changes
    anything on such arguments. *)
Theorem getLevel_getName_inverse :
  forall (n : string) (l : Z) (st : state),
    (MSG.getLevel (VStr n) st = (Ret (Some l), st)
       <-> MSG.getName (VInt l) st = (Ret (Some n), st))
    /\ ((exists name, MSG.getName (VInt l) st = (Ret (Some name), st))
          <-> (1 <= l <= 7)%Z)
    /\ snd (MSG.getName (VInt l) st) = st
    /\ snd (MSG.getLevel (VStr n) st) = st.
Proof.
  intros n l st. unfold MSG.getLevel, MSG.getName, ret.
  split; [split; intro H; injection H as H'|].
  - now rewrite (proj1 (lookup_name_level n l H')).
  - now rewrite (lookup_level_name l n H').
  - split; [split; intro H|split; reflexivity].
    + destruct H as (name & H). injection H as H'.
      exact (proj2 (lookup_name_level name l (lookup_level_name l name H'))).
    + destruct (lookup_level_range l H) as (name & E). exists name. now rewrite E.
Qed.

(** X2: [setLevelByName] never raises.  With the name of a level it
    returns [True] and sets the configured level to that level, which is
    one of 1..7, after which no [log] call with an integer level raises;
    with any other string it returns [False], prints one line and leaves
    the configured level and the file system as they were. *)
Theorem setLevelByName_contract :
  forall (n : string) (st : state),
    (forall l, MSG.lookup_name n MSG._name_to_level_lookup = Some l ->
       MSG.setLevelByName (VStr n) st = (Ret true, set_level (Some l) st)
       /\ (1 <= l <= 7)%Z
       /\ forall (lv : Z) (src msg : string),
            fst (MSG.log (VInt lv) src msg (set_level (Some l) st)) = Ret tt)
    /\ (MSG.lookup_name n MSG._name_to_level_lookup = None ->
        MSG.setLevelByName (VStr n) st
        = (Ret false,
           add_out [("[ERROR::MSG.setLevelByName] Invalid verbosity level name: '" ++ n
                     ++ "'. New verbosity level not set.") ++ nl] st)).
Proof.
  intros n st. split.
  - intros l H. unfold MSG.setLevelByName. rewrite H.
    split; [reflexivity|]. split; [exact (proj2 (lookup_name_level n l H))|].
    intros lv src msg.
    now rewrite (log_configured lv l src msg (set_level (Some l) st) eq_refl).
  - intro H. unfold MSG.setLevelByName. rewrite H. reflexivity.
Qed.

(* ================================================================== *)
(** * The selection loop                                                *)
(* ================================================================== *)

Section Selection.

(** One round of the selection loop either breaks with an index of the
    list, leaving the state as it is, or prints the complaint and goes
    round again, or, on a number of more than 4300 digits, lets the
    [ValueError] of [int] escape. *)
Lemma select_body_cases (playbooks : list Path) (raw_input : string) (st : state) :
  (exists idx,
     select_body playbooks raw_input st = (Ret (Some idx), st)
     /\ (0 <= idx < Z.of_nat (length playbooks))%Z
     /\ Re.match_items Re.re_index raw_input = true
     /\ String.length (Str.strip raw_input) <= Str.int_max_str_digits
     /\ idx = (Z.of_nat (Str.digits_value 0 (Str.strip raw_input)) - 1)%Z)
  \/ select_body playbooks raw_input st
     = (Ret None, add_out [invalid_selection ++ nl] st)
  \/ (select_body playbooks raw_input st = (Raise (ValueError (String.length (Str.strip raw_input))), st)
      /\ Re.match_items Re.re_index raw_input = true
      /\ Str.int_max_str_digits < String.length (Str.strip raw_input)).
Proof.
  unfold select_body.
  destruct (Str.truthy raw_input && Re.match_items Re.re_index raw_input) eqn:E;
    [|right; left; reflexivity].
  apply andb_true_iff in E as [_ Hm].
  unfold int_of, bind.
  destruct (Nat.ltb_spec Str.int_max_str_digits (String.length (Str.strip raw_input)))
    as [L|L]; [right; right; auto|].
  cbv beta iota zeta. cbn [ret].
  set (idx := (Z.of_nat (Str.digits_value 0 (Str.strip raw_input)) - 1)%Z).
  destruct ((0 <=? idx)%Z && (idx <? Z.of_nat (length playbooks))%Z) eqn:R;
    [|right; left; reflexivity].
  apply andb_true_iff in R as [R1 R2].
  apply Z.leb_le in R1. apply Z.ltb_lt in R2.
  left. exists idx. repeat split; auto.
Qed.

End Selection.

(** X3: an index the selection loop returns comes from one of the lines
    read, a decimal number of at most 4300 digits between white space
    whose value is between 1 and the number of notebooks listed; the index
    is that value minus one, so it denotes an element of the list.  A line
    the loop answers with another round makes it print its complaint
    first.  A line that is a number of more than 4300 digits is answered
    with neither: [int] raises [ValueError], which nothing in the loop
    catches. *)
Theorem selection_index_in_range :
  forall (playbooks : list Path) (st st' : state) (idx : Z),
    while_True_input select_prompt (select_body playbooks) st = (Ret idx, st') ->
    (0 <= idx < Z.of_nat (length playbooks))%Z
    /\ (exists p, nth_error playbooks (Z.to_nat idx) = Some p)
    /\ (exists line,
          In line (stdin st)
          /\ Re.match_items Re.re_index line = true
          /\ String.length (Str.strip line) <= Str.int_max_str_digits
          /\ (1 <= Z.of_nat (Str.digits_value 0 (Str.strip line))
              <= Z.of_nat (length playbooks))%Z
          /\ idx = (Z.of_nat (Str.digits_value 0 (Str.strip line)) - 1)%Z)
    /\ (forall (line : string) (s1 : state),
          fst (select_body playbooks line s1) = Ret None ->
          select_body playbooks line s1
          = (Ret None, add_out [invalid_selection ++ nl] s1))
    /\ (forall (line : string) (s1 : state),
          line <> "" ->
          Re.match_items Re.re_index line = true ->
          Str.int_max_str_digits < String.length (Str.strip line) ->
          select_body playbooks line s1 = (Raise (ValueError (String.length (Str.strip line))), s1)
          /\ forall rest,
               while_True_input select_prompt (select_body playbooks)
                 (set_stdin (line :: rest) s1)
               = (Raise (ValueError (String.length (Str.strip line))),
                  write select_prompt (set_stdin rest s1))).
Proof.
  intros playbooks st st' idx H. unfold while_True_input in H.
  destruct (while_reading_ret _ _ _ _ _ _ H) as (l & s1 & Hin & Hb).
  assert (R : (0 <= idx < Z.of_nat (length playbooks))%Z
              /\ Re.match_items Re.re_index l = true
              /\ String.length (Str.strip l) <= Str.int_max_str_digits
              /\ idx = (Z.of_nat (Str.digits_value 0 (Str.strip l)) - 1)%Z).
  { destruct (select_body_cases playbooks l s1)
      as [(i & E & Hr & Hm & Hl & Hi)|[E|(E & _)]];
      rewrite E in Hb; [|discriminate|discriminate].
    injection Hb as <-. auto. }
  destruct R as (Hr & Hm & Hl & Hi).
  split; [exact Hr|]. split.
  - destruct (nth_error playbooks (Z.to_nat idx)) as [p|] eqn:E; [now exists p|].
    apply nth_error_None in E. lia.
  - split; [|split].
    + exists l. repeat split; auto; lia.
    + intros line s2 Hn.
      destruct (select_body_cases playbooks line s2) as [(i & E & _)|[E|(E & _)]];
        [|exact E|]; rewrite E in Hn; discriminate.
    + intros line s2 Hne Hm2 Hl2.
      assert (E : forall s, select_body playbooks line s = (Raise (ValueError (String.length (Str.strip line))), s)).
      { intro s. unfold select_body. rewrite Hm2.
        destruct line; [contradiction|]. cbn [Str.truthy andb].
        unfold int_of, bind.
        destruct (Nat.ltb_spec Str.int_max_str_digits
                    (String.length (Str.strip (String c line)))); [reflexivity | lia]. }
      split; [apply E|].
      intro rest. unfold while_True_input.
      replace (stdin (set_stdin (line :: rest) s2)) with (line :: rest)
        by (destruct s2; reflexivity).
      rewrite while_reading_cons.
      replace (set_stdin rest (set_stdin (line :: rest) s2)) with (set_stdin rest s2)
        by (destruct s2; reflexivity).
      now rewrite E.
Qed.

Lemma selection_index_in_range_witness :
  (0 <= 1 < Z.of_nat (length [["Playbooks"; "a.ipynb"]; ["Playbooks"; "b.ipynb"]]))%Z.
Proof.
  apply (selection_index_in_range
           [["Playbooks"; "a.ipynb"]; ["Playbooks"; "b.ipynb"]]
           (Sample.st0 (Some 4%Z) false ["0"; "3"; "two"; " 2 "])
           (State Sample.fs0 Sample.t0
              [select_prompt; invalid_selection ++ nl;
               select_prompt; invalid_selection ++ nl;
               select_prompt; invalid_selection ++ nl;
               select_prompt]
              [] (Some 4%Z) false)
           1%Z).
  reflexivity.
Defined.

(* ================================================================== *)
(** * More on patterns, case references and names                       *)
(* ================================================================== *)


(** X4: a line of white space only (the empty line included) is taken as
    "no case reference": the loop writes its prompt, reads that line and
    returns [None], at any level of the logger and without logging. *)
Theorem blank_line_is_no_case_reference :
  forall (line : string) (rest : list string) (f : node) (t : datetime)
         (out : list string) (lv : option Z) (d : bool),
    Str.forallb Str.is_space line = true ->
    case_id_loop (State f t out (line :: rest) lv d)
    = (Ret None, State f t (out ++ [case_id_prompt])%list rest lv d).
Proof.
  intros line rest f t out lv d H.
  unfold case_id_loop, while_True_input. cbn [stdin].
  rewrite while_reading_cons. unfold case_id_body, Str.strip.
  now rewrite (lstrip_blank line H).
Qed.

Lemma blank_line_is_no_case_reference_witness :
  case_id_loop (State Sample.fs0 Sample.t0 [] [String Str.tab "  "; "7"] None false)
  = (Ret None, State Sample.fs0 Sample.t0 [case_id_prompt] ["7"] None false).
Proof.
  apply (blank_line_is_no_case_reference (String Str.tab "  ") ["7"] Sample.fs0
           Sample.t0 [] None false).
  reflexivity.
Defined.

(** X5: on numbers the normalization does not depend on the length and is
    idempotent: for every non-empty string of digits [d], both the line
    [d] and the line "#" followed by [d] are accepted and give "#"
    followed by [d], with nothing logged. *)
Theorem numeric_case_reference :
  forall (d : string) (st : state),
    d <> "" ->
    Str.forallb Str.is_digit d = true ->
    case_id_body d st = (Ret (Some (Some ("#" ++ d))), st)
    /\ case_id_body ("#" ++ d) st = (Ret (Some (Some ("#" ++ d))), st).
Proof.
  intros d st Hne Hd.
  destruct (case_number_digits d Hne Hd) as [M1 M2].
  assert (S1 : Str.strip d = d)
    by (apply strip_without_space; now apply digits_without_space).
  assert (S2 : Str.strip ("#" ++ d) = "#" ++ d).
  { apply strip_without_space. simpl. now apply digits_without_space. }
  unfold case_id_body. rewrite S1, S2, M1, M2.
  destruct d as [|c d]; [contradiction|]. simpl in Hd.
  apply andb_true_iff in Hd as [Hc _].
  assert (P : Str.startswith "#" (String c d) = false)
    by now apply startswith_hash_digit.
  split; [|reflexivity].
  cbn [Str.truthy negb]. now rewrite P.
Qed.

Lemma numeric_case_reference_witness :
  case_id_body "123456789012345678901234567890" (Sample.st0 None false [])
  = (Ret (Some (Some "#123456789012345678901234567890")), Sample.st0 None false []).
Proof.
  apply (numeric_case_reference "123456789012345678901234567890"
           (Sample.st0 None false [])).
  - discriminate.
  - reflexivity.
Defined.

(** X6: a case reference the loop returns starts with "#", and what
    follows is either a number, that is decimal digits of any script, or a
    token of 1 to 20 characters of the allow-list between "(" and ")".  A
    decimal digit that is not one of 0 to 9 is therefore the only character
    outside the allow-list that a case reference can bring into the
    directory name. *)
Theorem case_reference_is_allowed :
  forall (st st' : state) (r : string),
    case_id_loop st = (Ret (Some r), st') ->
    Str.startswith "#" r = true
    /\ ((exists digits,
           r = "#" ++ digits /\ digits <> ""
           /\ Str.forallb Str.is_digit digits = true)
        \/ (exists token,
              r = "#(" ++ token ++ ")" /\ 1 <= String.length token <= 20
              /\ Str.forallb Re.allowed token = true
              /\ Str.forallb Re.allowed r = true))
    /\ Str.forallb (fun c => Re.allowed c || Str.is_digit c) r = true.
Proof.
  intros st st' r H. unfold case_id_loop, while_True_input in H.
  destruct (while_reading_ret _ _ _ _ _ _ H) as (l & s1 & _ & Hb).
  apply case_id_body_accept in Hb. cbv zeta in Hb.
  assert (Hn : ends_with_newline (Str.strip l) = false) by apply strip_no_newline.
  assert (W : forall p q s, (forall c, p c = true -> q c = true) ->
                            Str.forallb p s = true -> Str.forallb q s = true).
  { intros p q s Hpq. induction s as [|c s IH]; [reflexivity|]. simpl.
    intro Hs. apply andb_true_iff in Hs as [Hc Hs]. now rewrite (Hpq c Hc), IH. }
  set (pq := fun c => Re.allowed c || Str.is_digit c).
  assert (Hh : forall d, Str.forallb Str.is_digit d = true ->
                         Str.forallb pq ("#" ++ d) = true).
  { intros d Hd.
    change (Str.forallb pq ("#" ++ d)) with (pq Str.hash && Str.forallb pq d).
    rewrite (W Str.is_digit pq d); [reflexivity| |exact Hd].
    intros x Hx. unfold pq. now rewrite Hx, orb_true_r. }
  destruct Hb as [[Hm ->]|(_ & -> & Hl & Ha)].
  - destruct (case_number_inv _ Hn Hm) as (d & Hne & Hd & [E|E]); rewrite E.
    + destruct d as [|c d]; [contradiction|].
      pose proof Hd as Hd'. simpl in Hd'. apply andb_true_iff in Hd' as [Hc _].
      rewrite (startswith_hash_digit c d Hc).
      split; [reflexivity|]. split; [left; exists (String c d); auto|].
      now apply Hh.
    + rewrite startswith_hash.
      split; [reflexivity|]. split; [left; exists d; auto|].
      now apply Hh.
  - assert (A : Str.forallb Re.allowed ("#(" ++ Str.strip l ++ ")") = true).
    { change ("#(" ++ Str.strip l ++ ")") with ("#(" ++ (Str.strip l ++ ")")).
      rewrite !forallb_append, Ha. reflexivity. }
    split; [apply (startswith_hash ("(" ++ Str.strip l ++ ")"))|].
    split; [right; exists (Str.strip l); auto|].
    apply (W Re.allowed); [|exact A]. intros x Hx. unfold pq. now rewrite Hx.
Qed.

Lemma case_reference_is_allowed_witness :
  Str.startswith "#" "#(case A-1)" = true
  /\ ((exists digits,
         "#(case A-1)" = "#" ++ digits /\ digits <> ""
         /\ Str.forallb Str.is_digit digits = true)
      \/ (exists token,
            "#(case A-1)" = "#(" ++ token ++ ")" /\ 1 <= String.length token <= 20
            /\ Str.forallb Re.allowed token = true
            /\ Str.forallb Re.allowed "#(case A-1)" = true))
  /\ Str.forallb (fun c => Re.allowed c || Str.is_digit c) "#(case A-1)" = true.
Proof.
  apply (case_reference_is_allowed
           (Sample.st0 None false ["case A-1"])
           (State Sample.fs0 Sample.t0 [case_id_prompt] [] None false)
           "#(case A-1)").
  reflexivity.
Defined.

Section Timestamp.

Lemma length_snoc (s : string) (c : char) :
  String.length (Str.snoc s c) = S (String.length s).
Proof. induction s; simpl; congruence. Qed.

Lemma forallb_snoc (p : char -> bool) (s : string) (c : char) :
  Str.forallb p (Str.snoc s c) = Str.forallb p s && p c.
Proof.
  induction s as [|d s IH]; simpl; [now rewrite andb_true_r|].
  now rewrite IH, andb_assoc.
Qed.

Lemma digit_char_is_digit (n : nat) : Str.is_ascii_digit (Str.digit_char n) = true.
Proof.
  unfold Str.digit_char.
  assert (H : n mod 10 < 10) by (apply Nat.mod_upper_bound; discriminate).
  destruct (n mod 10) as [|[|[|[|[|[|[|[|[|[|m]]]]]]]]]]; try reflexivity; lia.
Qed.

Lemma zdec_length (w n : nat) : String.length (Str.zdec w n) = w.
Proof.
  revert n. induction w as [|w IH]; intro n; simpl; [reflexivity|].
  now rewrite length_snoc, IH.
Qed.

Lemma zdec_allowed (w n : nat) : Str.forallb Re.allowed (Str.zdec w n) = true.
Proof.
  revert n. induction w as [|w IH]; intro n; simpl; [reflexivity|].
  now rewrite forallb_snoc, IH, (allowed_digit _ (digit_char_is_digit n)).
Qed.

Lemma strftime_length (t : datetime) : String.length (strftime t) = 16.
Proof.
  unfold strftime. rewrite !length_append, !zdec_length. reflexivity.
Qed.

Lemma strftime_allowed (t : datetime) : Str.forallb Re.allowed (strftime t) = true.
Proof.
  unfold strftime. rewrite !forallb_append, !zdec_allowed. reflexivity.
Qed.

Lemma given_allowed (o : option string) :
  allowed_opt o = true -> Str.forallb Re.allowed (opt_str o) = true \/ given o = false.
Proof.
  destruct o as [s|]; simpl; auto.
Qed.

Lemma compose_dir_name_allowed (ts : string) (case_id folder_name : option string) :
  Str.forallb Re.allowed ts = true ->
  allowed_opt case_id = true -> allowed_opt folder_name = true ->
  Str.forallb Re.allowed (compose_dir_name ts case_id folder_name) = true.
Proof.
  intros Hts Hc Hf. rewrite compose_dir_name_shape.
  rewrite !forallb_append, Hts.
  destruct (given_allowed case_id Hc) as [H1|H1];
    destruct (given_allowed folder_name Hf) as [H2|H2];
    destruct (given case_id), (given folder_name);
    rewrite ?forallb_append, ?H1, ?H2; try discriminate; reflexivity.
Qed.

End Timestamp.

(** X7: the name check of [create_directory] accepts exactly the names
    made of 1 to 75 characters of the allow-list, possibly followed by one
    newline; and a name it refuses makes [create_directory], called with
    an existing base directory under a configured logger, return [None]
    after logging "Invalid directory name" at level ERROR, the file system
    unchanged. *)
Theorem directory_name_check :
  forall (base : Path) (case_id folder_name : option string)
         (f : node) (t : datetime) (out inp : list string) (c : Z) (d : bool),
    let name := compose_dir_name (strftime t) case_id folder_name in
    (Re.match_items Re.re_dir_name name = true
       <-> exists body,
             Str.forallb Re.allowed body = true
             /\ 1 <= String.length body <= 75
             /\ (name = body \/ name = body ++ nl))
    /\ (FS.exists_ f base = true ->
        Re.match_items Re.re_dir_name name = false ->
        create_directory base case_id folder_name (State f t out inp (Some c) d)
        = (Ret None,
           State f t
             (out ++ emit c MSG.INFO "create_directory"
                       ("New directory name: '" ++ name ++ "'")
                  ++ emit c MSG.ERROR "create_directory"
                       ("Invalid directory name: '" ++ name ++ "'."))%list
             inp (Some c) d)).
Proof.
  intros base case_id folder_name f t out inp c d name.
  split; [apply match_class_rep_iff|].
  intros Hb Hm.
  rewrite (create_directory_configured base case_id folder_name c
             (State f t out inp (Some c) d) eq_refl).
  cbn [fs now DRYRUN]. fold name. rewrite Hb, Hm. cbn [negb].
  unfold add_out, set_stdout; cbn [stdout fs now stdin CONFIGURED_LEVEL DRYRUN].
  now rewrite <- app_assoc.
Qed.

(** X8: the timestamp has 16 characters, all of the allow-list, whatever
    the clock shows; so a name composed from it, from a case reference
    and from a folder name that hold allowed characters only passes the
    name check as soon as it has at most 75 characters: only its length or
    a character of the case reference or the folder name can make the
    check fail. *)
Theorem composed_name_accepted :
  forall (t : datetime) (case_id folder_name : option string),
    valid_datetime t ->
    allowed_opt case_id = true ->
    allowed_opt folder_name = true ->
    String.length (compose_dir_name (strftime t) case_id folder_name) <= 75 ->
    String.length (strftime t) = 16
    /\ Str.forallb Re.allowed (strftime t) = true
    /\ Re.match_items Re.re_dir_name
         (compose_dir_name (strftime t) case_id folder_name) = true.
Proof.
  intros t case_id folder_name _ Hc Hf Hl.
  split; [apply strftime_length|]. split; [apply strftime_allowed|].
  apply match_class_rep_iff.
  exists (compose_dir_name (strftime t) case_id folder_name).
  split; [apply compose_dir_name_allowed; auto using strftime_allowed|].
  split; [|now left]. split; [|exact Hl].
  rewrite compose_dir_name_shape, !length_append, strftime_length. lia.
Qed.

Lemma composed_name_accepted_witness :
  String.length (strftime Sample.t0) = 16
  /\ Str.forallb Re.allowed (strftime Sample.t0) = true
  /\ Re.match_items Re.re_dir_name
       (compose_dir_name (strftime Sample.t0) (Some "#42") (Some "a")) = true.
Proof.
  apply (composed_name_accepted Sample.t0 (Some "#42") (Some "a")).
  - unfold valid_datetime. simpl. lia.
  - reflexivity.
  - reflexivity.
  - vm_compute. repeat constructor.
Defined.

(* ================================================================== *)
(** * The file system operations                                        *)
(* ================================================================== *)

Section FileSystem.

Lemma find_replace_same (name : string) (c : node) (es : list (string * node)) :
  FS.find name (FS.replace name c es) = Some c.
Proof.
  induction es as [|[n d] es IH]; simpl.
  - now rewrite string_eqb_refl.
  - destruct (String.eqb name n) eqn:E; simpl; rewrite E; auto.
Qed.

Lemma find_replace_other (n name : string) (c : node) (es : list (string * node)) :
  n <> name -> FS.find n (FS.replace name c es) = FS.find n es.
Proof.
  intro Hn. induction es as [|[m d] es IH]; simpl.
  - destruct (string_eqb_spec n name); [contradiction | reflexivity].
  - destruct (string_eqb_spec name m) as [->|Hm]; simpl.
    + destruct (string_eqb_spec n m); [contradiction | reflexivity].
    + destruct (String.eqb n m); auto.
Qed.

Lemma find_app_some (n : string) (x : node) (es l : list (string * node)) :
  FS.find n es = Some x -> FS.find n (es ++ l)%list = Some x.
Proof.
  induction es as [|[m d] es IH]; simpl; [discriminate|].
  destruct (String.eqb n m); auto.
Qed.

Lemma find_app_none (n : string) (es l : list (string * node)) :
  FS.find n es = None -> FS.find n (es ++ l)%list = FS.find n l.
Proof.
  induction es as [|[m d] es IH]; simpl; [reflexivity|].
  destruct (String.eqb n m); [discriminate | auto].
Qed.

Lemma lookup_fresh (p : Path) : FS.lookup (FS.fresh p) p = Some (Dir []).
Proof.
  induction p as [|name p IH]; [reflexivity|].
  simpl. now rewrite string_eqb_refl.
Qed.

(** A successful [mkdir] leaves an empty directory at its path. *)
Lemma mkdir_in_creates (full p : Path) :
  forall f f', FS.mkdir_in full f p = inr f' -> FS.lookup f' p = Some (Dir []).
Proof.
  induction p as [|name rest IH]; intros f f' H; [discriminate|].
  simpl in H. destruct f as [content|es|]; try discriminate.
  destruct (FS.find name es) as [child|] eqn:E.
  - destruct (FS.mkdir_in full child rest) as [e|c'] eqn:R; [discriminate|].
    injection H as <-. simpl. rewrite find_replace_same. now apply IH with (f := child).
  - destruct (FS.too_long name || existsb FS.too_long rest); [discriminate|].
    injection H as <-. simpl. rewrite (find_app_none _ _ _ E).
    simpl. rewrite string_eqb_refl. apply lookup_fresh.
Qed.

(** It removes nothing, and changes no regular file. *)
Lemma mkdir_in_keeps (full p : Path) :
  forall f f', FS.mkdir_in full f p = inr f' ->
    forall q,
      (FS.exists_ f q = true -> FS.exists_ f' q = true)
      /\ (forall content, FS.lookup f q = Some (File content) ->
                          FS.lookup f' q = Some (File content)).
Proof.
  unfold FS.exists_.
  induction p as [|name rest IH]; intros f f' H q; [discriminate|].
  simpl in H. destruct f as [content|es|]; try discriminate.
  destruct (FS.find name es) as [child|] eqn:E.
  - destruct (FS.mkdir_in full child rest) as [e|c'] eqn:R; [discriminate|].
    injection H as <-. destruct q as [|n q]; [split; [reflexivity | discriminate]|].
    simpl. destruct (string_eqb_spec n name) as [->|Hn].
    + rewrite E, find_replace_same. apply (IH child c' R q).
    + rewrite (find_replace_other _ _ _ _ Hn). split; auto.
  - destruct (FS.too_long name || existsb FS.too_long rest); [discriminate|].
    injection H as <-. destruct q as [|n q]; [split; [reflexivity | discriminate]|].
    simpl. destruct (FS.find n es) as [x|] eqn:F.
    + rewrite (find_app_some _ _ _ _ F). split; auto.
    + split; discriminate.
Qed.

(** [mkdir] of a missing entry of an existing directory succeeds ... *)
Lemma mkdir_in_base_dir (full base : Path) (name : string) :
  FS.too_long name = false ->
  forall f,
    FS.is_dir f base = true ->
    FS.exists_ f (base ++ [name])%list = false ->
    exists f', FS.mkdir_in full f (base ++ [name])%list = inr f'.
Proof.
  unfold FS.is_dir, FS.exists_. intro Hlen.
  induction base as [|b base IH]; intros f Hd Hn.
  - simpl in *. destruct f as [content|es|]; try discriminate.
    destruct (FS.find name es); [discriminate|]. rewrite Hlen.
    eexists; reflexivity.
  - simpl in *. destruct f as [content|es|]; try discriminate.
    destruct (FS.find b es) as [child|]; [|discriminate].
    destruct (IH child Hd Hn) as (c' & ->). eexists; reflexivity.
Qed.

(** ... and below something that is not a directory it raises
    [NotADirectoryError]. *)
Lemma mkdir_in_base_not_dir (full base : Path) (name : string) :
  forall f,
    FS.exists_ f base = true ->
    FS.is_dir f base = false ->
    FS.mkdir_in full f (base ++ [name])%list = inl (NotADirectoryError full).
Proof.
  unfold FS.is_dir, FS.exists_.
  induction base as [|b base IH]; intros f He Hd.
  - simpl in *. destruct f as [content|es|]; try discriminate; reflexivity.
  - simpl in *. destruct f as [content|es|]; try discriminate.
    destruct (FS.find b es) as [child|]; [|discriminate].
    now rewrite (IH child He Hd).
Qed.

(** Writing a missing entry of an existing directory succeeds. *)
Lemma write_file_base_dir (full base : Path) (name content : string) :
  FS.too_long name = false ->
  forall f,
    FS.is_dir f base = true ->
    FS.exists_ f (base ++ [name])%list = false ->
    exists f', FS.write_file full f (base ++ [name])%list content = inr f'.
Proof.
  unfold FS.is_dir, FS.exists_. intro Hlen.
  induction base as [|b base IH]; intros f Hd Hn.
  - simpl in *. destruct f as [c|es|]; try discriminate.
    destruct (FS.find name es); [discriminate|]. rewrite Hlen.
    eexists; reflexivity.
  - simpl in *. destruct f as [c|es|]; try discriminate.
    destruct (FS.find b es) as [child|]; [|discriminate].
    destruct (IH child Hd Hn) as (c' & ->). eexists; reflexivity.
Qed.

(** Writing a missing entry with a name of more than [NAME_MAX] bytes
    raises [OSError]. *)
Lemma write_file_too_long (full base : Path) (name content : string) :
  FS.too_long name = true ->
  forall f,
    FS.is_dir f base = true ->
    FS.exists_ f (base ++ [name])%list = false ->
    FS.write_file full f (base ++ [name])%list content
    = inl (OSError_ENAMETOOLONG full).
Proof.
  unfold FS.is_dir, FS.exists_. intro Hlen.
  induction base as [|b base IH]; intros f Hd Hn.
  - simpl in *. destruct f as [c|es|]; try discriminate.
    destruct (FS.find name es); [discriminate|]. now rewrite Hlen.
  - simpl in *. destruct f as [c|es|]; try discriminate.
    destruct (FS.find b es) as [child|]; [|discriminate].
    now rewrite (IH child Hd Hn).
Qed.

(** A successful write leaves the content at its path and changes no other
    regular file. *)
Lemma write_file_result (full p : Path) (content : string) :
  forall f f', FS.write_file full f p content = inr f' ->
    FS.lookup f' p = Some (File content)
    /\ forall q c, q <> p -> FS.lookup f q = Some (File c) ->
                   FS.lookup f' q = Some (File c).
Proof.
  induction p as [|name rest IH]; intros f f' H.
  - simpl in H. destruct f as [c0|es|]; try discriminate; injection H as <-.
    + split; [reflexivity|]. intros [|n q] c Hq Hl; [contradiction | discriminate].
    + split; [reflexivity|]. intros [|n q] c Hq Hl; [contradiction | discriminate].
  - simpl in H. destruct f as [c0|es|]; try discriminate.
    destruct (FS.find name es) as [child|] eqn:E.
    + destruct (FS.write_file full child rest content) as [e|c'] eqn:R;
        [discriminate|].
      injection H as <-. destruct (IH child c' R) as [I1 I2]. split.
      * simpl. now rewrite find_replace_same.
      * intros [|n q] c Hq Hl; [discriminate|]. simpl in *.
        destruct (string_eqb_spec n name) as [->|Hn].
        -- rewrite E in Hl. rewrite find_replace_same.
           apply I2; [congruence | exact Hl].
        -- now rewrite (find_replace_other _ _ _ _ Hn).
    + destruct (FS.too_long name); [discriminate|].
      destruct rest; [|discriminate]. injection H as <-. split.
      * simpl. rewrite (find_app_none _ _ _ E). simpl. now rewrite string_eqb_refl.
      * intros [|n q] c Hq Hl; [discriminate|]. simpl in *.
        destruct (FS.find n es) as [x|] eqn:F; [|discriminate].
        now rewrite (find_app_some _ _ _ _ F).
Qed.

End FileSystem.

(* ================================================================== *)
(** * Creating the directory and copying the notebook                   *)
(* ================================================================== *)

Section Creation.

Lemma is_dir_lookup (f : node) (p : Path) :
  FS.is_dir f p = true -> exists es, FS.lookup f p = Some (Dir es).
Proof.
  unfold FS.is_dir. destruct (FS.lookup f p) as [[c|es|]|]; try discriminate.
  now exists es.
Qed.

(** Nothing exists below what is not a directory. *)
Lemma below_non_directory (f : node) (base : Path) (name : string) :
  FS.is_dir f base = false -> FS.exists_ f (base ++ [name])%list = false.
Proof.
  unfold FS.is_dir, FS.exists_. rewrite lookup_app.
  destruct (FS.lookup f base) as [[c|es|]|]; try discriminate; reflexivity.
Qed.

Lemma utf8_length_append (a b : string) :
  String.utf8_length (a ++ b) = String.utf8_length a + String.utf8_length b.
Proof.
  unfold String.utf8_length. induction a as [|c a IH]; [reflexivity|].
  simpl. rewrite !length_app, IH. lia.
Qed.

(** A string of allowed characters has one byte for each. *)
Lemma utf8_length_allowed (s : string) :
  Str.forallb Re.allowed s = true -> String.utf8_length s = String.length s.
Proof.
  unfold String.utf8_length. induction s as [|c s IH]; [reflexivity|].
  simpl. intro H. apply andb_true_iff in H as [Hc Hs].
  rewrite length_app, (IH Hs). unfold String.utf8_char.
  now rewrite (allowed_ascii c Hc).
Qed.

(** A name the check accepts fits in a directory entry. *)
Lemma dir_name_fits (name : string) :
  Re.match_items Re.re_dir_name name = true -> FS.too_long name = false.
Proof.
  intro H. destruct (match_class_rep _ _ _ _ H) as (body & Hb & Hl & E).
  unfold FS.too_long, FS.NAME_MAX. apply Nat.ltb_ge.
  pose proof (utf8_length_allowed body Hb) as L.
  destruct E as [->| ->]; [lia|].
  rewrite utf8_length_append, L.
  change (String.utf8_length nl) with 1. lia.
Qed.

(** The successful run of [create_directory]. *)
Lemma create_directory_made (base : Path) (case_id folder_name : option string)
    (f : node) (t : datetime) (out inp : list string) (c : Z) :
  let name := compose_dir_name (strftime t) case_id folder_name in
  let path := (base ++ [name])%list in
  FS.is_dir f base = true ->
  Re.match_items Re.re_dir_name name = true ->
  FS.exists_ f path = false ->
  exists f',
    create_directory base case_id folder_name (State f t out inp (Some c) false)
    = (Ret (Some path),
       State f' t
         (out ++ emit c MSG.INFO "create_directory"
                   ("New directory name: '" ++ name ++ "'")
              ++ emit c MSG.INFO "create_directory"
                   ("Created directory '" ++ FS.str path ++ "'."))%list
         inp (Some c) false)
    /\ FS.mkdir_in path f path = inr f'.
Proof.
  intros name path Hbase Hname Hfree.
  destruct (mkdir_in_base_dir path base name (dir_name_fits name Hname) f Hbase Hfree)
    as (f' & Hmk).
  change (FS.mkdir_in path f path = inr f') in Hmk.
  exists f'. split; [|exact Hmk].
  rewrite (create_directory_configured base case_id folder_name c
             (State f t out inp (Some c) false) eq_refl).
  cbn [fs now DRYRUN]. fold name. fold path.
  rewrite (is_dir_exists _ _ Hbase), Hname, Hfree, Hmk. cbn [negb].
  unfold FS.exists_. rewrite (mkdir_in_creates path path f f' Hmk). cbn [negb].
  unfold add_out, set_stdout, set_fs;
    cbn [stdout fs now stdin CONFIGURED_LEVEL DRYRUN].
  now rewrite <- app_assoc.
Qed.

End Creation.

(** X9: with a base directory that is a directory, a name the check
    accepts, no entry of that name in the base directory and dry-run mode
    off, [create_directory] returns the base path extended by the composed
    name; afterwards that path is an empty directory, everything that
    existed before still exists, and every regular file has the content it
    had.  The message "Failed to create directory" is not logged. *)
Theorem create_directory_success :
  forall (base : Path) (case_id folder_name : option string)
         (f : node) (t : datetime) (out inp : list string) (c : Z),
    let name := compose_dir_name (strftime t) case_id folder_name in
    let path := (base ++ [name])%list in
    FS.is_dir f base = true ->
    Re.match_items Re.re_dir_name name = true ->
    FS.exists_ f path = false ->
    exists f',
      create_directory base case_id folder_name (State f t out inp (Some c) false)
      = (Ret (Some path),
         State f' t
           (out ++ emit c MSG.INFO "create_directory"
                     ("New directory name: '" ++ name ++ "'")
                ++ emit c MSG.INFO "create_directory"
                     ("Created directory '" ++ FS.str path ++ "'."))%list
           inp (Some c) false)
      /\ FS.lookup f' path = Some (Dir [])
      /\ (forall q, FS.exists_ f q = true -> FS.exists_ f' q = true)
      /\ (forall q content, FS.lookup f q = Some (File content) ->
                            FS.lookup f' q = Some (File content)).
Proof.
  intros base case_id folder_name f t out inp c name path Hbase Hname Hfree.
  destruct (create_directory_made base case_id folder_name f t out inp c
              Hbase Hname Hfree) as (f' & E & Hmk).
  exists f'. split; [exact E|].
  split; [exact (mkdir_in_creates path path f f' Hmk)|].
  split; intros q; [apply (mkdir_in_keeps path path f f' Hmk q)|].
  intros content. apply (mkdir_in_keeps path path f f' Hmk q).
Qed.

Lemma create_directory_success_witness :
  exists f',
    create_directory INVESTIGATIONS_DIR (Some "#42") (Some "a")
      (State Sample.fs0 Sample.t0 [] [] (Some 4%Z) false)
    = (Ret (Some ["Investigations"; "2024-01-02T03.04 #42 - a"]),
       State f' Sample.t0 [] [] (Some 4%Z) false)
    /\ FS.lookup f' ["Investigations"; "2024-01-02T03.04 #42 - a"] = Some (Dir [])
    /\ (forall q, FS.exists_ Sample.fs0 q = true -> FS.exists_ f' q = true)
    /\ (forall q content, FS.lookup Sample.fs0 q = Some (File content) ->
                          FS.lookup f' q = Some (File content)).
Proof.
  apply (create_directory_success INVESTIGATIONS_DIR (Some "#42") (Some "a")
           Sample.fs0 Sample.t0 [] [] 4%Z eq_refl eq_refl eq_refl).
Defined.

(** X10: a base directory that does not exist is not made:
    [create_directory] logs "Investigations directory ... does not exist."
    at level ERROR and returns [None], the file system unchanged and the
    clock not read. *)
Theorem create_directory_missing_base :
  forall (base : Path) (case_id folder_name : option string)
         (f : node) (t : datetime) (out inp : list string) (c : Z) (d : bool),
    FS.exists_ f base = false ->
    create_directory base case_id folder_name (State f t out inp (Some c) d)
    = (Ret None,
       State f t
         (out ++ emit c MSG.ERROR "create_directory"
                   ("Investigations directory '" ++ FS.str base
                    ++ "' does not exist."))%list
         inp (Some c) d).
Proof.
  intros base case_id folder_name f t out inp c d H.
  rewrite (create_directory_configured base case_id folder_name c
             (State f t out inp (Some c) d) eq_refl).
  cbn [fs]. rewrite H. reflexivity.
Qed.

Lemma create_directory_missing_base_witness :
  create_directory ["Cases"] None None (State Sample.fs0 Sample.t0 [] [] (Some 4%Z) false)
  = (Ret None,
     State Sample.fs0 Sample.t0
       ["[ERROR::create_directory] Investigations directory 'Cases' does not exist." ++ nl]
       [] (Some 4%Z) false).
Proof.
  apply (create_directory_missing_base ["Cases"] None None Sample.fs0 Sample.t0
           [] [] 4%Z false eq_refl).
Defined.

(** X11: the existence test of the base directory lets a regular file
    through.  With the base path naming something that is not a directory,
    a name the check accepts and dry-run mode off, [create_directory]
    raises [NotADirectoryError] out of [mkdir], the file system unchanged;
    the rest of [main] catches it, logs "Failed to create directory: ..."
    at level ERROR and returns [RETURN_ERROR]. *)
Theorem create_directory_base_not_a_directory :
  forall (case_id folder_name : option string) (selected : Path)
         (f : node) (t : datetime) (out inp : list string) (c : Z),
    let name := compose_dir_name (strftime t) case_id folder_name in
    let path := (INVESTIGATIONS_DIR ++ [name])%list in
    let named := (out ++ emit c MSG.INFO "create_directory"
                           ("New directory name: '" ++ name ++ "'"))%list in
    FS.exists_ f INVESTIGATIONS_DIR = true ->
    FS.is_dir f INVESTIGATIONS_DIR = false ->
    Re.match_items Re.re_dir_name name = true ->
    create_directory INVESTIGATIONS_DIR case_id folder_name
      (State f t out inp (Some c) false)
    = (Raise (NotADirectoryError path), State f t named inp (Some c) false)
    /\ create_and_copy selected case_id folder_name (State f t out inp (Some c) false)
       = (Ret (Some RETURN_ERROR),
          State f t
            (named ++ emit c MSG.ERROR "main"
                        ("Failed to create directory: "
                         ++ exn_str (NotADirectoryError path)))%list
            inp (Some c) false).
Proof.
  intros case_id folder_name selected f t out inp c name path named He Hd Hname.
  assert (E : create_directory INVESTIGATIONS_DIR case_id folder_name
                (State f t out inp (Some c) false)
              = (Raise (NotADirectoryError path), State f t named inp (Some c) false)).
  { rewrite (create_directory_configured INVESTIGATIONS_DIR case_id folder_name c
               (State f t out inp (Some c) false) eq_refl).
    cbn [fs now DRYRUN]. fold name. fold path.
    rewrite He, Hname. cbn [negb].
    unfold path. rewrite (below_non_directory f INVESTIGATIONS_DIR name Hd).
    now rewrite (mkdir_in_base_not_dir _ INVESTIGATIONS_DIR name f He Hd). }
  split; [exact E|].
  unfold create_and_copy. unfold bind at 1. unfold try_except. unfold bind at 1.
  rewrite E. rewrite (bind_log _ c) by reflexivity. reflexivity.
Qed.

Lemma create_directory_base_not_a_directory_witness :
  create_directory INVESTIGATIONS_DIR None (Some "a")
    (State (Dir [("Investigations", File "")]) Sample.t0 [] [] (Some 4%Z) false)
  = (Raise (NotADirectoryError ["Investigations"; "2024-01-02T03.04 - a"]),
     State (Dir [("Investigations", File "")]) Sample.t0 [] [] (Some 4%Z) false).
Proof.
  apply (create_directory_base_not_a_directory None (Some "a") ["x.ipynb"]
           (Dir [("Investigations", File "")]) Sample.t0 [] [] 4%Z
           eq_refl eq_refl eq_refl).
Defined.

Section Copy.

(** The successful run of the end of [main]. *)
Lemma create_and_copy_made :
  forall (selected : Path) (content : string) (case_id folder_name : option string)
         (f : node) (t : datetime) (out inp : list string) (c : Z),
    let name := compose_dir_name (strftime t) case_id folder_name in
    let new_dir := (INVESTIGATIONS_DIR ++ [name])%list in
    let new_filename := "inv_" ++ FS.name selected in
    let copy := (new_dir ++ [new_filename])%list in
    FS.is_dir f INVESTIGATIONS_DIR = true ->
    Re.match_items Re.re_dir_name name = true ->
    FS.exists_ f new_dir = false ->
    FS.lookup f selected = Some (File content) ->
    FS.too_long new_filename = false ->
    exists f',
      create_and_copy selected case_id folder_name (State f t out inp (Some c) false)
      = (Ret None,
         State f' t
           (out ++ emit c MSG.INFO "create_directory"
                     ("New directory name: '" ++ name ++ "'")
                ++ emit c MSG.INFO "create_directory"
                     ("Created directory '" ++ FS.str new_dir ++ "'.")
                ++ emit c MSG.INFO "main"
                     ("Copied notebook to the new directory: " ++ FS.str copy))%list
           inp (Some c) false)
      /\ FS.lookup f' copy = Some (File content)
      /\ FS.lookup f' selected = Some (File content)
      /\ (forall q x, FS.lookup f q = Some (File x) -> FS.lookup f' q = Some (File x)).
Proof.
  intros selected content case_id folder_name f t out inp c name new_dir
         new_filename copy Hbase Hname Hfree Hsel Hlen.
  destruct (create_directory_made INVESTIGATIONS_DIR case_id folder_name f t out inp c
              Hbase Hname Hfree) as (f1 & E & Hmk).
  fold name in E, Hmk. fold new_dir in E, Hmk.
  pose proof (mkdir_in_creates new_dir new_dir f f1 Hmk) as Hnew.
  assert (Hkeep1 : forall q x, FS.lookup f q = Some (File x) ->
                               FS.lookup f1 q = Some (File x))
    by (intros q x; apply (mkdir_in_keeps new_dir new_dir f f1 Hmk q)).
  assert (Hdir1 : FS.is_dir f1 new_dir = true) by (unfold FS.is_dir; now rewrite Hnew).
  assert (Hfree1 : FS.exists_ f1 copy = false).
  { unfold FS.exists_, copy. rewrite lookup_app, Hnew. reflexivity. }
  assert (Hnd : FS.is_dir f1 copy = false).
  { unfold FS.is_dir, copy. rewrite lookup_app, Hnew. reflexivity. }
  destruct (write_file_base_dir copy new_dir new_filename content Hlen f1
              Hdir1 Hfree1) as (f2 & Hw).
  change (FS.write_file copy f1 copy content = inr f2) in Hw.
  destruct (write_file_result copy copy content f1 f2 Hw) as [Hcopy Hkeep2].
  assert (Hne : forall q x, FS.lookup f q = Some (File x) -> q <> copy).
  { intros q x Hq ->. apply Hkeep1 in Hq.
    unfold FS.exists_ in Hfree1. rewrite Hq in Hfree1. discriminate. }
  exists f2. split.
  - unfold create_and_copy. unfold bind at 1. unfold try_except at 1.
    unfold bind at 1. rewrite E. cbn [ret]. rewrite bind_get. cbn [fs].
    unfold FS.exists_ at 1. rewrite Hnew. cbv zeta.
    fold new_filename. fold copy.
    unfold bind at 1. unfold try_except at 1. unfold bind at 1.
    unfold shutil_copy. cbn [fs]. rewrite Hnd, (Hkeep1 _ _ Hsel).
    unfold lift_fs. rewrite Hw. cbn [ret]. rewrite bind_get.
    unfold set_fs at 1. cbn [fs]. unfold FS.exists_. rewrite Hcopy. cbn [negb].
    rewrite (bind_log _ c) by reflexivity.
    unfold ret, add_out, set_stdout, set_fs;
      cbn [stdout fs now stdin CONFIGURED_LEVEL DRYRUN].
    now rewrite <- !app_assoc.
  - split; [exact Hcopy|]. split.
    + apply Hkeep2; [now apply (Hne selected content) | now apply Hkeep1].
    + intros q x Hq. apply Hkeep2; [now apply (Hne q x) | now apply Hkeep1].
Qed.

(** The end of [main] when the name of the copy does not fit in a
    directory entry: the directory is made, the copy fails. *)
Lemma create_and_copy_name_too_long :
  forall (selected : Path) (content : string) (case_id folder_name : option string)
         (f : node) (t : datetime) (out inp : list string) (c : Z),
    let name := compose_dir_name (strftime t) case_id folder_name in
    let new_dir := (INVESTIGATIONS_DIR ++ [name])%list in
    let new_filename := "inv_" ++ FS.name selected in
    let copy := (new_dir ++ [new_filename])%list in
    FS.is_dir f INVESTIGATIONS_DIR = true ->
    Re.match_items Re.re_dir_name name = true ->
    FS.exists_ f new_dir = false ->
    FS.lookup f selected = Some (File content) ->
    FS.too_long new_filename = true ->
    exists f',
      create_and_copy selected case_id folder_name (State f t out inp (Some c) false)
      = (Ret (Some RETURN_ERROR),
         State f' t
           (out ++ emit c MSG.INFO "create_directory"
                     ("New directory name: '" ++ name ++ "'")
                ++ emit c MSG.INFO "create_directory"
                     ("Created directory '" ++ FS.str new_dir ++ "'.")
                ++ emit c MSG.ERROR "main"
                     ("Failed to copy the notebook: "
                      ++ exn_str (OSError_ENAMETOOLONG copy)))%list
           inp (Some c) false)
      /\ FS.lookup f' new_dir = Some (Dir [])
      /\ FS.exists_ f' copy = false.
Proof.
  intros selected content case_id folder_name f t out inp c name new_dir
         new_filename copy Hbase Hname Hfree Hsel Hlen.
  destruct (create_directory_made INVESTIGATIONS_DIR case_id folder_name f t out inp c
              Hbase Hname Hfree) as (f1 & E & Hmk).
  fold name in E, Hmk. fold new_dir in E, Hmk.
  pose proof (mkdir_in_creates new_dir new_dir f f1 Hmk) as Hnew.
  assert (Hkeep1 : forall q x, FS.lookup f q = Some (File x) ->
                               FS.lookup f1 q = Some (File x))
    by (intros q x; apply (mkdir_in_keeps new_dir new_dir f f1 Hmk q)).
  assert (Hdir1 : FS.is_dir f1 new_dir = true) by (unfold FS.is_dir; now rewrite Hnew).
  assert (Hfree1 : FS.exists_ f1 copy = false).
  { unfold FS.exists_, copy. rewrite lookup_app, Hnew. reflexivity. }
  assert (Hnd : FS.is_dir f1 copy = false).
  { unfold FS.is_dir, copy. rewrite lookup_app, Hnew. reflexivity. }
  pose proof (write_file_too_long copy new_dir new_filename content Hlen f1
                Hdir1 Hfree1) as Hw.
  change (FS.write_file copy f1 copy content = inl (OSError_ENAMETOOLONG copy)) in Hw.
  exists f1. split; [|split; [exact Hnew | exact Hfree1]].
  unfold create_and_copy. unfold bind at 1. unfold try_except at 1.
  unfold bind at 1. rewrite E. cbn [ret]. rewrite bind_get. cbn [fs].
  unfold FS.exists_ at 1. rewrite Hnew. cbv zeta.
  fold new_filename. fold copy.
  unfold bind at 1. unfold try_except at 1. unfold bind at 1.
  unfold shutil_copy. cbn [fs]. rewrite Hnd, (Hkeep1 _ _ Hsel).
  unfold lift_fs. rewrite Hw.
  rewrite (bind_log _ c) by reflexivity.
  unfold ret, add_out, set_stdout, set_fs;
    cbn [stdout fs now stdin CONFIGURED_LEVEL DRYRUN].
  now rewrite <- !app_assoc.
Qed.

End Copy.

(** X12: the end of [main].  With [Investigations] a directory, a name
    the check accepts, no entry of that name yet, the selected notebook a
    regular file and dry-run mode off, the rest of [main] makes the
    directory.  If the file name of the notebook prefixed with "inv_" fits
    in a directory entry (at most 255 bytes), the notebook is copied into
    the directory under that name, with the content of the original, and
    [main] ends without a return code; the original and every other
    regular file keep their content.  If it does not fit, the copy raises
    [OSError] (file name too long), [main] logs "Failed to copy the
    notebook: ..." at level ERROR and returns [RETURN_ERROR], the new
    directory left empty. *)
Theorem create_and_copy_success :
  forall (selected : Path) (content : string) (case_id folder_name : option string)
         (f : node) (t : datetime) (out inp : list string) (c : Z),
    let name := compose_dir_name (strftime t) case_id folder_name in
    let new_dir := (INVESTIGATIONS_DIR ++ [name])%list in
    let new_filename := "inv_" ++ FS.name selected in
    let copy := (new_dir ++ [new_filename])%list in
    let made := (out ++ emit c MSG.INFO "create_directory"
                          ("New directory name: '" ++ name ++ "'")
                     ++ emit c MSG.INFO "create_directory"
                          ("Created directory '" ++ FS.str new_dir ++ "'."))%list in
    FS.is_dir f INVESTIGATIONS_DIR = true ->
    Re.match_items Re.re_dir_name name = true ->
    FS.exists_ f new_dir = false ->
    FS.lookup f selected = Some (File content) ->
    (String.utf8_length new_filename <= 255 ->
     exists f',
       create_and_copy selected case_id folder_name (State f t out inp (Some c) false)
       = (Ret None,
          State f' t
            (made ++ emit c MSG.INFO "main"
                       ("Copied notebook to the new directory: " ++ FS.str copy))%list
            inp (Some c) false)
       /\ FS.lookup f' copy = Some (File content)
       /\ FS.lookup f' selected = Some (File content)
       /\ (forall q x, FS.lookup f q = Some (File x) -> FS.lookup f' q = Some (File x)))
    /\ (255 < String.utf8_length new_filename ->
        exists f',
          create_and_copy selected case_id folder_name (State f t out inp (Some c) false)
          = (Ret (Some RETURN_ERROR),
             State f' t
               (made ++ emit c MSG.ERROR "main"
                          ("Failed to copy the notebook: [Errno 36] File name too long: '"
                           ++ FS.str copy ++ "'"))%list
               inp (Some c) false)
          /\ FS.lookup f' new_dir = Some (Dir [])
          /\ FS.exists_ f' copy = false).
Proof.
  intros selected content case_id folder_name f t out inp c name new_dir
         new_filename copy made Hbase Hname Hfree Hsel.
  split; intro Hlen.
  - assert (L : FS.too_long new_filename = false)
      by (unfold FS.too_long, FS.NAME_MAX; apply Nat.ltb_ge; exact Hlen).
    destruct (create_and_copy_made selected content case_id folder_name f t out inp c
                Hbase Hname Hfree Hsel L) as (f' & E & R).
    exists f'. split; [|exact R]. rewrite E. unfold made.
    now rewrite <- !app_assoc.
  - assert (L : FS.too_long new_filename = true)
      by (unfold FS.too_long, FS.NAME_MAX; apply Nat.ltb_lt; exact Hlen).
    destruct (create_and_copy_name_too_long selected content case_id folder_name
                f t out inp c Hbase Hname Hfree Hsel L) as (f' & E & R).
    exists f'. split; [|exact R]. rewrite E. unfold made.
    now rewrite <- !app_assoc.
Qed.

Lemma create_and_copy_success_witness :
  exists f',
    create_and_copy ["Playbooks"; "a"; "x.ipynb"] (Some "#42") (Some "a")
      (State Sample.fs0 Sample.t0 [] [] (Some 4%Z) false)
    = (Ret None, State f' Sample.t0 [] [] (Some 4%Z) false)
    /\ FS.lookup f' ["Investigations"; "2024-01-02T03.04 #42 - a"; "inv_x.ipynb"]
       = Some (File "nb")
    /\ FS.lookup f' ["Playbooks"; "a"; "x.ipynb"] = Some (File "nb")
    /\ (forall q x, FS.lookup Sample.fs0 q = Some (File x) ->
                    FS.lookup f' q = Some (File x)).
Proof.
  destruct (create_and_copy_success ["Playbooks"; "a"; "x.ipynb"] "nb" (Some "#42")
              (Some "a") Sample.fs0 Sample.t0 [] [] 4%Z eq_refl eq_refl eq_refl eq_refl)
    as [H _].
  apply H. apply Nat.leb_le. reflexivity.
Defined.

(* ================================================================== *)
(** * Discovery finds every notebook                                    *)
(* ================================================================== *)

Section DiscoveryComplete.

Lemma for_each_item_mono (cur : Path) (items : list (string * node)) :
  Forall (fun e => forall c acc p,
            In p acc -> In p (recursive_search c (snd e) acc)) items ->
  forall acc p, In p acc -> In p (for_each_item recursive_search cur items acc).
Proof.
  induction 1 as [|[name item] rest Hitem _ IH]; intros acc p Hin; [exact Hin|].
  rewrite for_each_item_cons. apply IH.
  destruct item as [content|entries|]; auto.
  - destruct (String.eqb (FS.suffix name) ".ipynb"); auto.
    apply in_or_app. now left.
  - destruct (negb (Str.mem name PLAYBOOK_IGNORE_DIRS)); [|exact Hin].
    now apply (Hitem (cur ++ [name])%list).
Qed.

(** What was collected stays collected. *)
Lemma recursive_search_mono (d : node) :
  forall cur acc p, In p acc -> In p (recursive_search cur d acc).
Proof.
  induction d as [content| |entries IH] using node_nested_ind;
    intros cur acc p Hin; auto.
  simpl. now apply for_each_item_mono.
Qed.

Lemma for_each_item_mono_all (cur : Path) (items : list (string * node)) :
  forall acc p, In p acc -> In p (for_each_item recursive_search cur items acc).
Proof.
  apply for_each_item_mono. apply Forall_forall.
  intros e _ c acc p. apply recursive_search_mono.
Qed.

Lemma for_each_item_file (cur : Path) (name content : string)
    (items : list (string * node)) :
  In (name, File content) items ->
  FS.suffix name = ".ipynb" ->
  forall acc, In (cur ++ [name])%list (for_each_item recursive_search cur items acc).
Proof.
  intros Hin Hs. induction items as [|[n item] rest IH]; intro acc; [destruct Hin|].
  rewrite for_each_item_cons. destruct Hin as [E|Hin]; [|now apply IH].
  injection E as -> ->. apply for_each_item_mono_all.
  rewrite Hs. simpl. apply in_or_app. right. now left.
Qed.

Lemma for_each_item_dir (cur : Path) (r : string) (es : list (string * node))
    (p : Path) (items : list (string * node)) :
  In (r, Dir es) items ->
  Str.mem r PLAYBOOK_IGNORE_DIRS = false ->
  (forall acc, In p (recursive_search (cur ++ [r])%list (Dir es) acc)) ->
  forall acc, In p (for_each_item recursive_search cur items acc).
Proof.
  intros Hin Hr Hp. induction items as [|[n item] rest IH]; intro acc; [destruct Hin|].
  rewrite for_each_item_cons. destruct Hin as [E|Hin]; [|now apply IH].
  injection E as -> ->. apply for_each_item_mono_all.
  rewrite Hr. cbn [negb]. apply Hp.
Qed.

Lemma recursive_search_complete (rel : list string) (name : string) :
  FS.suffix name = ".ipynb" ->
  Forall (fun d => Str.mem d PLAYBOOK_IGNORE_DIRS = false) rel ->
  forall d cur acc,
    reaches d rel name ->
    In (cur ++ rel ++ [name])%list (recursive_search cur d acc).
Proof.
  intros Hs Hrel. induction Hrel as [|r rel Hr _ IH]; intros d cur acc Hreach.
  - destruct d as [content|es|]; [destruct Hreach| |destruct Hreach].
    simpl in Hreach. destruct Hreach as (content & Hin).
    simpl. now apply for_each_item_file with (content := content).
  - destruct d as [content|es|]; [destruct Hreach| |destruct Hreach].
    simpl in Hreach. destruct Hreach as (es' & Hin & Hreach).
    simpl. apply for_each_item_dir with (r := r) (es := es'); auto.
    intro acc0. replace (cur ++ r :: rel ++ [name])%list
      with ((cur ++ [r]) ++ rel ++ [name])%list by now rewrite <- app_assoc.
    now apply IH.
Qed.

End DiscoveryComplete.

(** X13: discovery misses nothing.  When the root is a directory and
    subdirectories with names outside the ignore set lead from it to a
    regular file whose suffix is [.ipynb], [get_list_of_notebooks] (under a
    configured logger) returns a list, and the path of that file, the root
    path followed by these names, is in it. *)
Theorem discovery_finds_every_notebook :
  forall (playbooks_dir : Path) (root : node) (rel : list string) (name : string)
         (f : node) (t : datetime) (out inp : list string) (c : Z) (d : bool),
    FS.lookup f playbooks_dir = Some root ->
    reaches root rel name ->
    Forall (fun r => Str.mem r PLAYBOOK_IGNORE_DIRS = false) rel ->
    FS.suffix name = ".ipynb" ->
    exists l,
      fst (get_list_of_notebooks playbooks_dir (State f t out inp (Some c) d))
      = Ret (Some l)
      /\ In (playbooks_dir ++ rel ++ [name])%list l.
Proof.
  intros playbooks_dir root rel name f t out inp c d Hroot Hreach Hrel Hs.
  rewrite (get_list_of_notebooks_configured playbooks_dir c
             (State f t out inp (Some c) d) eq_refl).
  cbn [fs]. rewrite Hroot.
  pose proof (recursive_search_complete rel name Hs Hrel root playbooks_dir []
                Hreach) as Hin.
  destruct root as [content|es|];
    [destruct rel; destruct Hreach| |destruct rel; destruct Hreach].
  destruct (recursive_search playbooks_dir (Dir es) []) as [|p l] eqn:E;
    [destruct Hin|].
  exists (p :: l). split; [reflexivity | exact Hin].
Qed.

Lemma discovery_finds_every_notebook_witness :
  exists l,
    fst (get_list_of_notebooks PLAYBOOKS_DIR (Sample.st0 (Some 4%Z) false []))
    = Ret (Some l)
    /\ In ["Playbooks"; "a"; "x.ipynb"] l.
Proof.
  apply (discovery_finds_every_notebook PLAYBOOKS_DIR
           (Dir [("a", Dir [("x.ipynb", File "nb")]);
                 (".git", Dir [("y.ipynb", File "no")])])
           ["a"] "x.ipynb" Sample.fs0 Sample.t0 [] [] 4%Z false).
  - reflexivity.
  - simpl. exists [("x.ipynb", File "nb")]. split; [now left|].
    exists "nb". now left.
  - repeat constructor.
  - reflexivity.
Defined.

(* ================================================================== *)
(** * What [main] and the script return                                 *)
(* ================================================================== *)

Section Steady.

Lemma steady_ret {A} (a : A) (Q : A -> Prop) (E : exn -> Prop) :
  Q a -> steady (ret a) Q E.
Proof. intros H st Hc. simpl. auto. Qed.

Lemma steady_raise {A} (e : exn) (Q : A -> Prop) (E : exn -> Prop) :
  E e -> steady (@raise A e) Q E.
Proof. intros H st Hc. simpl. auto. Qed.

Lemma steady_bind {A B} (c : M A) (k : A -> M B) (Q : A -> Prop) (R : B -> Prop)
    (E : exn -> Prop) :
  steady c Q E -> (forall a, Q a -> steady (k a) R E) -> steady (bind c k) R E.
Proof.
  intros Hc Hk st Hl. unfold bind.
  destruct (Hc st Hl) as (H1 & H2 & H3 & H4).
  destruct (c st) as [[a|e] st1]; simpl in *; auto.
  assert (Hl1 : CONFIGURED_LEVEL st1 <> None) by now rewrite H1.
  destruct (Hk a H4 st1 Hl1) as (K1 & K2 & K3 & K4).
  rewrite K1, K2, K3. auto.
Qed.

Lemma steady_bind_any {A B} (c : M A) (k : A -> M B) (R : B -> Prop)
    (E : exn -> Prop) :
  steady c (fun _ => True) E -> (forall a, steady (k a) R E) -> steady (bind c k) R E.
Proof. intros Hc Hk. apply steady_bind with (Q := fun _ => True); auto. Qed.

Lemma steady_try_except {A} (c : M A) (h : exn -> M A) (Q : A -> Prop)
    (E : exn -> Prop) :
  steady c Q (fun _ => True) -> (forall e, steady (h e) Q E) ->
  steady (try_except c h) Q E.
Proof.
  intros Hc Hh st Hl. unfold try_except.
  destruct (Hc st Hl) as (H1 & H2 & H3 & H4).
  destruct (c st) as [[a|e] st1]; simpl in *; auto.
  assert (Hl1 : CONFIGURED_LEVEL st1 <> None) by now rewrite H1.
  destruct (Hh e st1 Hl1) as (K1 & K2 & K3 & K4).
  rewrite K1, K2, K3. auto.
Qed.

Lemma steady_get {A} (f : state -> A) (E : exn -> Prop) :
  steady (get f) (fun _ => True) E.
Proof. intros st Hl. simpl. auto. Qed.

Lemma steady_print (s : string) (E : exn -> Prop) :
  steady (print s) (fun _ => True) E.
Proof. intros st Hl. simpl. auto. Qed.

(** Under a configured logger [log] does not raise. *)
Lemma steady_log (v : value) (src msg : string) (E : exn -> Prop) :
  steady (MSG.log v src msg) (fun _ => True) E.
Proof.
  intros st Hl. destruct v; try (simpl; now auto).
  destruct (CONFIGURED_LEVEL st) as [c|] eqn:Hc; [|contradiction].
  rewrite (log_configured z c src msg st Hc). simpl. auto.
Qed.

Lemma steady_mkdir (p : Path) : steady (mkdir p) (fun _ => True) (fun _ => True).
Proof.
  intros st Hl. unfold mkdir, lift_fs.
  destruct (FS.mkdir_in p (fs st) p); simpl; auto.
Qed.

Lemma steady_shutil_copy (src dst : Path) :
  steady (shutil_copy src dst) (fun _ => True) (fun _ => True).
Proof.
  intros st Hl. unfold shutil_copy, lift_fs.
  destruct (FS.lookup (fs st) src) as [[content|es|]|]; simpl; auto.
  destruct (FS.write_file _ (fs st) _ content); simpl; auto.
Qed.

Lemma steady_while_True_input {A} (prompt : string) (body : string -> M (option A))
    (E : exn -> Prop) :
  E EOFError ->
  (forall l, steady (body l) (fun _ => True) E) ->
  steady (while_True_input prompt body) (fun _ => True) E.
Proof.
  intros He Hb st. unfold while_True_input. generalize (stdin st) as lines.
  intros lines. revert st. induction lines as [|l rest IH]; intros st Hl.
  - simpl. auto.
  - rewrite while_reading_cons.
    assert (Hl1 : CONFIGURED_LEVEL (write prompt (set_stdin rest st)) <> None)
      by exact Hl.
    destruct (Hb l _ Hl1) as (H1 & H2 & H3 & H4).
    change (CONFIGURED_LEVEL (write prompt (set_stdin rest st)))
      with (CONFIGURED_LEVEL st) in H1.
    change (DRYRUN (write prompt (set_stdin rest st))) with (DRYRUN st) in H2.
    change (now (write prompt (set_stdin rest st))) with (now st) in H3.
    destruct (body l (write prompt (set_stdin rest st))) as [[[a|]|e] st1];
      cbn [fst snd] in *; auto.
    assert (Hl2 : CONFIGURED_LEVEL st1 <> None) by now rewrite H1.
    destruct (IH st1 Hl2) as (K1 & K2 & K3 & K4).
    rewrite K1, K2, K3. auto.
Qed.

Lemma steady_print_enumerated (playbooks : list Path) (E : exn -> Prop) :
  forall i, steady (print_enumerated i playbooks) (fun _ => True) E.
Proof.
  induction playbooks as [|p rest IH]; intro i; simpl.
  - now apply steady_ret.
  - apply steady_bind_any; [apply steady_print | intro; apply IH].
Qed.

End Steady.

(** One step of a proof of [steady]. *)
Ltac steady_step :=
  match goal with
  | |- steady (ret _) _ _ => apply steady_ret; unfold main_returns; cbv beta; auto
  | |- steady (raise _) _ _ => apply steady_raise; unfold main_raises; cbv beta; auto
  | |- steady (MSG.log _ _ _) _ _ => apply steady_log
  | |- steady (print _) _ _ => apply steady_print
  | |- steady (print_enumerated _ _) _ _ => apply steady_print_enumerated
  | |- steady (get _) _ _ => apply steady_get
  | |- steady (mkdir _) _ _ => apply steady_mkdir
  | |- steady (shutil_copy _ _) _ _ => apply steady_shutil_copy
  | |- steady (try_except _ _) _ _ => apply steady_try_except; [|intro]
  | |- steady (bind _ _) _ _ => apply steady_bind_any; [|intro]
  | |- steady (if ?b then _ else _) _ _ => destruct b
  | |- steady (match ?x with _ => _ end) _ _ => destruct x
  end.

Section SteadyProgram.

Lemma steady_create_directory (base : Path) (case_id folder_name : option string) :
  steady (create_directory base case_id folder_name) (fun _ => True) (fun _ => True).
Proof.
  unfold create_directory. repeat (cbv zeta; steady_step).
Qed.

Lemma steady_get_list_of_notebooks (playbooks_dir : Path) (E : exn -> Prop) :
  steady (get_list_of_notebooks playbooks_dir) (fun _ => True) E.
Proof.
  unfold get_list_of_notebooks. repeat (cbv zeta; steady_step).
Qed.

Lemma steady_int_of (s : string) (E : exn -> Prop) :
  (forall digits, Str.int_max_str_digits < digits -> E (ValueError digits)) ->
  steady (int_of s) (fun _ => True) E.
Proof.
  intro HE. unfold int_of.
  destruct (Nat.ltb_spec Str.int_max_str_digits (String.length s));
    [apply steady_raise; now apply HE | now apply steady_ret].
Qed.

Lemma steady_select_body (playbooks : list Path) (raw_input : string)
    (E : exn -> Prop) :
  (forall digits, Str.int_max_str_digits < digits -> E (ValueError digits)) ->
  steady (select_body playbooks raw_input) (fun _ => True) E.
Proof.
  intro HE. unfold select_body.
  repeat (cbv zeta; first [apply steady_int_of; exact HE | steady_step]).
Qed.

Lemma steady_case_id_body (line : string) (E : exn -> Prop) :
  steady (case_id_body line) (fun _ => True) E.
Proof.
  unfold case_id_body. repeat (cbv zeta; steady_step).
Qed.

Lemma steady_create_and_copy (selected : Path) (case_id notebook_folder : option string)
    (E : exn -> Prop) :
  steady (create_and_copy selected case_id notebook_folder) main_returns E.
Proof.
  unfold create_and_copy.
  apply steady_bind with (Q := fun r : Z + option Path =>
                                 match r with
                                 | inl code => code = RETURN_ERROR
                                 | inr _ => True
                                 end).
  - apply steady_try_except.
    + apply steady_bind_any; [apply steady_create_directory|].
      intro. now apply steady_ret.
    + intro e. apply steady_bind_any; [apply steady_log|].
      intro. now apply steady_ret.
  - intros [code|new_dir] Hq.
    + subst code. apply steady_ret. now right.
    + apply steady_bind_any; [apply steady_get|]. intro usable.
      destruct new_dir as [new_dir|]; [destruct usable|].
      * cbv zeta.
        apply steady_bind with (Q := fun r : option Z =>
                                       r = None \/ r = Some RETURN_ERROR).
        -- apply steady_try_except.
           ++ apply steady_bind_any; [apply steady_shutil_copy|].
              intro. apply steady_ret. now left.
           ++ intro e. apply steady_bind_any; [apply steady_log|].
              intro. apply steady_ret. now right.
        -- intros [code|] [Hc|Hc]; try discriminate.
           ++ injection Hc as ->. apply steady_ret. now right.
           ++ repeat steady_step.
      * repeat steady_step.
      * repeat steady_step.
Qed.

(** [main] under a configured logger. *)
Lemma steady_main : steady main main_returns main_raises.
Proof.
  unfold main.
  repeat (cbv zeta;
          first [ apply steady_create_and_copy
                | apply steady_get_list_of_notebooks
                | apply steady_while_True_input;
                  [unfold main_raises; now left
                  | intro;
                    first [ apply steady_select_body; intros digits Hdigits;
                            unfold main_raises; right; right; exists digits;
                            split; [reflexivity | exact Hdigits]
                          | apply steady_case_id_body ]]
                | progress unfold case_id_loop
                | steady_step ]).
Qed.

End SteadyProgram.



Section Script.

Lemma bind_unfold {A B} (c : M A) (k : A -> M B) (st : state) :
  bind c k st
  = match c st with
    | (Ret a, st') => k a st'
    | (Raise e, st') => (Raise e, st')
    end.
Proof. reflexivity. Qed.

Lemma verbosity_of_known (args : Args) :
  MSG.lookup_name (verbosity_of args) MSG._name_to_level_lookup = Some (level_of args)
  /\ Str.truthy (verbosity_of args) = true.
Proof.
  unfold level_of, verbosity_of.
  destruct (silent args); [split; reflexivity|].
  destruct (critical args); [split; reflexivity|].
  destruct (error args); [split; reflexivity|].
  destruct (warning args); [split; reflexivity|].
  destruct (info args); [split; reflexivity|].
  destruct (verbose args); [split; reflexivity|].
  destruct (debug args); split; reflexivity.
Qed.

(** The script up to the call of [main]. *)
Lemma script_start (args : Args) (st : state) :
  script args st
  = (r <- main ;;
     match r with
     | Some code =>
         if (code =? 0)%Z then
           MSG.log (VInt MSG.INFO) "__main__"
             "Script execution completed successfully. Exiting normally." ;;
           ret 0%Z
         else if (code =? RETURN_ERROR)%Z then
           MSG.log (VInt MSG.ERROR) "__main__"
             "Script execution failed. Exiting with error." ;;
           ret 1%Z
         else if (code =? RETURN_NOT_IMPLEMENTED)%Z then
           MSG.log (VInt MSG.ERROR) "__main__"
             "Script execution ended with 'NOT IMPLEMENTED'. Exiting with error." ;;
           ret 1%Z
         else
           MSG.log (VInt MSG.ERROR) "__main__"
             "Script execution ended with an unknown error. Exiting with error." ;;
           ret 1%Z
     | None =>
         MSG.log (VInt MSG.INFO) "__main__"
           "Script execution completed successfully. Exiting normally." ;;
         ret 0%Z
     end) (started args st).
Proof.
  destruct (verbosity_of_known args) as [Hv Ht].
  unfold script. cbv zeta. rewrite Ht.
  unfold bind at 1. unfold try_except. unfold bind at 1.
  unfold MSG.setLevelByName. rewrite Hv. cbn [negb].
  rewrite (bind_log _ (level_of args)) by reflexivity. cbn [ret].
  unfold bind at 1. unfold started.
  destruct (dryrun args).
  - rewrite (bind_log _ (level_of args)) by reflexivity.
    unfold bind at 1.
    rewrite (log_configured _ (level_of args)) by reflexivity.
    unfold add_out, set_stdout, set_level, set_dryrun;
      cbn [stdout fs now stdin CONFIGURED_LEVEL DRYRUN].
    now rewrite <- !app_assoc.
  - rewrite (log_configured _ (level_of args)) by reflexivity.
    unfold add_out, set_stdout, set_level, set_dryrun;
      cbn [stdout fs now stdin CONFIGURED_LEVEL DRYRUN].
    now rewrite <- !app_assoc.
Qed.

End Script.

(** X15: the script always gets its logger configured: the name it
    derives from the flags is a level name, so [setLevelByName] succeeds
    and the exit on an invalid level is never taken; with no verbosity
    flag the level is WARNING.  It then runs [main] with that level and
    with the dry-run flag raised exactly when [--dryrun] is given, and
    its exit status is 0 when [main] ends without a return code and 1
    when [main] returns one; an exception of [main] is passed on. *)
Theorem script_outcome :
  forall (args : Args) (st : state),
    MSG.lookup_name (verbosity_of args) MSG._name_to_level_lookup
      = Some (level_of args)
    /\ (1 <= level_of args <= 7)%Z
    /\ (silent args || critical args || error args || warning args
        || info args || verbose args || debug args = false ->
        level_of args = MSG.WARNING)
    /\ CONFIGURED_LEVEL (started args st) = Some (level_of args)
    /\ DRYRUN (started args st) = (if dryrun args then true else DRYRUN st)
    /\ fs (started args st) = fs st
    /\ stdin (started args st) = stdin st
    /\ fst (script args st)
       = match fst (main (started args st)) with
         | Ret None => Ret 0%Z
         | Ret (Some _) => Ret 1%Z
         | Raise e => Raise e
         end
    /\ (forall code, fst (script args st) = Ret code ->
          CONFIGURED_LEVEL (snd (script args st)) = Some (level_of args)).
Proof.
  intros args st.
  destruct (verbosity_of_known args) as [Hv _].
  split; [exact Hv|]. split; [exact (proj2 (lookup_name_level _ _ Hv))|].
  split.
  { intro H. unfold level_of, verbosity_of.
    destruct (silent args), (critical args), (error args), (warning args),
      (info args), (verbose args), (debug args); try discriminate; reflexivity. }
  split; [reflexivity|]. split; [reflexivity|]. split; [reflexivity|].
  split; [reflexivity|].
  rewrite script_start.
  assert (Hc : CONFIGURED_LEVEL (started args st) <> None) by discriminate.
  destruct (steady_main (started args st) Hc) as (H1 & _ & _ & H3).
  rewrite (bind_unfold main _ (started args st)).
  destruct (main (started args st)) as [[r|e] st2]; cbn [fst snd] in *.
  - change (CONFIGURED_LEVEL (started args st)) with (Some (level_of args)) in H1.
    destruct H3 as [-> | ->].
    + rewrite (bind_log _ (level_of args)) by exact H1. split; [reflexivity|].
      intros code _. exact H1.
    + change ((RETURN_ERROR =? 0)%Z) with false.
      change ((RETURN_ERROR =? RETURN_ERROR)%Z) with true. cbv iota.
      rewrite (bind_log _ (level_of args)) by exact H1. split; [reflexivity|].
      intros code _. exact H1.
  - split; [reflexivity|]. intros code H. discriminate.
Qed.

(** X16: the check of [main] on [Playbooks].  When [Playbooks] does not
    exist or is an empty directory, [main] logs "... does not exist or is
    empty." at level ERROR and returns [RETURN_ERROR] without reading any
    input and without touching the file system; when [Playbooks] exists
    and is not a directory, the listing of it raises [NotADirectoryError],
    which [main] does not catch. *)
Theorem main_playbooks_check :
  forall (f : node) (t : datetime) (out inp : list string) (c : Z) (d : bool),
    FS.is_dir f PLAYBOOKS_DIR = false
    \/ FS.lookup f PLAYBOOKS_DIR = Some (Dir []) ->
    main (State f t out inp (Some c) d)
    = if FS.exists_ f PLAYBOOKS_DIR && negb (FS.is_dir f PLAYBOOKS_DIR)
      then (Raise (NotADirectoryError PLAYBOOKS_DIR), State f t out inp (Some c) d)
      else (Ret (Some RETURN_ERROR),
            State f t
              (out ++ emit c MSG.ERROR "main"
                        "Playbooks directory 'Playbooks' does not exist or is empty.")%list
              inp (Some c) d).
Proof.
  intros f t out inp c d H. unfold main. rewrite bind_get. cbn [fs].
  unfold FS.exists_, FS.is_dir in *.
  destruct (FS.lookup f PLAYBOOKS_DIR) as [[content|[|e es]|]|]; cbn [andb negb];
    try reflexivity;
    try (rewrite (bind_log _ c) by reflexivity; reflexivity).
  destruct H as [H|H]; discriminate.
Qed.

Lemma main_playbooks_check_witness :
  main (State (Dir [("Playbooks", File "")]) Sample.t0 [] ["1"] (Some 4%Z) false)
  = (Raise (NotADirectoryError PLAYBOOKS_DIR),
     State (Dir [("Playbooks", File "")]) Sample.t0 [] ["1"] (Some 4%Z) false).
Proof.
  apply (main_playbooks_check (Dir [("Playbooks", File "")]) Sample.t0 [] ["1"]
           4%Z false).
  left. reflexivity.
Defined.

(** X17: a [Playbooks] directory that has entries but no notebook outside
    the ignored directories ends [main] with [RETURN_ERROR] before any
    prompt: discovery logs its warning, [main] logs "No Jupyter notebooks
    found in the Playbooks directory. Exiting." at level ERROR, no input
    is read and the file system is unchanged. *)
Theorem main_without_notebooks :
  forall (e : string * node) (es : list (string * node))
         (f : node) (t : datetime) (out inp : list string) (c : Z) (d : bool),
    FS.lookup f PLAYBOOKS_DIR = Some (Dir (e :: es)) ->
    collected f PLAYBOOKS_DIR = [] ->
    main (State f t out inp (Some c) d)
    = (Ret (Some RETURN_ERROR),
       State f t
         (out ++ emit c MSG.VERBOSE "main" "Playbooks directory 'Playbooks' exists."
              ++ emit c MSG.VERBOSE "get_list_of_notebooks"
                   ("Fetching all Jupyter Notebook (" ++ "*.ipynb) files in the '"
                    ++ "Playbooks' directory.")
              ++ emit c MSG.WARNING "get_list_of_notebooks"
                   "No Jupyter notebooks found in 'Playbooks'."
              ++ emit c MSG.ERROR "main"
                   "No Jupyter notebooks found in the Playbooks directory. Exiting.")%list
         inp (Some c) d).
Proof.
  intros e es f t out inp c d Hroot Hnone. unfold main.
  rewrite bind_get. cbn [fs]. rewrite Hroot.
  rewrite (bind_log _ c) by reflexivity.
  unfold bind at 1.
  rewrite (get_list_of_notebooks_configured PLAYBOOKS_DIR c) by reflexivity.
  unfold collected in Hnone. cbn [fs add_out set_stdout]. rewrite Hroot in *.
  rewrite Hnone.
  rewrite (bind_log _ c) by reflexivity.
  unfold ret, add_out, set_stdout; cbn [stdout fs now stdin CONFIGURED_LEVEL DRYRUN].
  now rewrite <- !app_assoc.
Qed.

Lemma main_without_notebooks_witness :
  main (State (Dir [("Playbooks", Dir [(".git", Dir [("y.ipynb", File "no")])])])
          Sample.t0 [] ["1"] (Some 3%Z) false)
  = (Ret (Some RETURN_ERROR),
     State (Dir [("Playbooks", Dir [(".git", Dir [("y.ipynb", File "no")])])])
       Sample.t0
       ["[ERROR::main] No Jupyter notebooks found in the Playbooks directory. Exiting."
        ++ nl]
       ["1"] (Some 3%Z) false).
Proof.
  apply (main_without_notebooks (".git", Dir [("y.ipynb", File "no")]) []
           (Dir [("Playbooks", Dir [(".git", Dir [("y.ipynb", File "no")])])])
           Sample.t0 [] ["1"] 3%Z false eq_refl eq_refl).
Defined.

(* ================================================================== *)
(** * From the prompts to the copy                                      *)
(* ================================================================== *)

Section Flow.

Lemma add_out_State (ch : list string) (f : node) (t : datetime)
    (o i : list string) (l : option Z) (d : bool) :
  add_out ch (State f t o i l d) = State f t (o ++ ch)%list i l d.
Proof. reflexivity. Qed.

Lemma write_State (chunk : string) (f : node) (t : datetime)
    (o i : list string) (l : option Z) (d : bool) :
  write chunk (State f t o i l d) = State f t (o ++ [chunk])%list i l d.
Proof. reflexivity. Qed.

Lemma set_stdin_State (i' : list string) (f : node) (t : datetime)
    (o i : list string) (l : option Z) (d : bool) :
  set_stdin i' (State f t o i l d) = State f t o i' l d.
Proof. reflexivity. Qed.

Lemma print_enumerated_writes (playbooks : list Path) :
  forall (i : nat) (st : state),
    exists written,
      print_enumerated i playbooks st = (Ret tt, add_out written st)
      /\ length written = length playbooks.
Proof.
  induction playbooks as [|p rest IH]; intros i st.
  - exists []. simpl. unfold ret. now rewrite add_out_nil.
  - cbn [print_enumerated]. rewrite bind_print. cbv beta.
    match goal with
    | |- context [print_enumerated (S i) rest (add_out [?chunk] st)] =>
        destruct (IH (S i) (add_out [chunk] st)) as (w & E & L);
        exists (chunk :: w); rewrite E, add_out_add_out
    end.
    split; [reflexivity|]. simpl. now rewrite L.
Qed.

(** [main] up to the call of [create_directory]: with a notebook list
    [l] discovered, a first line that selects its element number [idx]
    (counted from 0) and a second line accepted as the case reference
    [case_id], [main] goes on as [create_and_copy] with the selected
    notebook, that case reference and the name of the notebook's parent
    folder, the two lines consumed and the file system untouched. *)
Lemma main_reaches_create (f : node) (t : datetime) (out rest : list string)
    (c : Z) (d : bool) (e : string * node) (es : list (string * node))
    (idx : nat) (selected : Path) (line1 line2 : string) (case_id : option string) :
  FS.lookup f PLAYBOOKS_DIR = Some (Dir (e :: es)) ->
  nth_error (collected f PLAYBOOKS_DIR) idx = Some selected ->
  (forall s, select_body (collected f PLAYBOOKS_DIR) line1 s
             = (Ret (Some (Z.of_nat idx)), s)) ->
  (forall s, case_id_body line2 s = (Ret (Some case_id), s)) ->
  Str.truthy (FS.name selected) = true ->
  Str.truthy (FS.name (FS.parent selected)) = true ->
  exists written,
    main (State f t out (line1 :: line2 :: rest) (Some c) d)
    = create_and_copy selected case_id (Some (FS.name (FS.parent selected)))
        (State f t (out ++ written)%list rest (Some c) d).
Proof.
  intros Hroot Hnth Hsel Hcase Hname Hfolder.
  assert (Hlen : idx < length (collected f PLAYBOOKS_DIR))
    by (apply nth_error_Some; now rewrite Hnth).
  unfold main. rewrite bind_get. cbn [fs]. rewrite Hroot.
  rewrite (bind_log _ c) by reflexivity.
  rewrite bind_unfold.
  rewrite (get_list_of_notebooks_configured PLAYBOOKS_DIR c) by reflexivity.
  cbn [fs add_out set_stdout]. 
  unfold collected in *. rewrite Hroot in *.
  destruct (recursive_search PLAYBOOKS_DIR (Dir (e :: es)) []) as [|p0 l] eqn:El;
    [simpl in Hlen; lia|].
  rewrite (bind_log _ c) by reflexivity.
  rewrite bind_print.
  rewrite bind_unfold.
  match goal with
  | |- context [print_enumerated 1 (p0 :: l) ?s] =>
      destruct (print_enumerated_writes (p0 :: l) 1 s) as (w & Ew & _); rewrite Ew
  end.
  rewrite bind_unfold. unfold while_True_input at 1.
  rewrite !add_out_State. cbn [stdin].
  rewrite while_reading_cons, Hsel.
  cbv zeta.
  assert (R : ((0 <=? Z.of_nat idx)%Z
               && (Z.of_nat idx <? Z.of_nat (length (p0 :: l)))%Z) = true).
  { apply andb_true_iff. split; [apply Z.leb_le | apply Z.ltb_lt]; lia. }
  rewrite R, Nat2Z.id, Hnth, Hname, Hfolder.
  rewrite (bind_log _ c) by reflexivity.
  rewrite !bind_print.
  rewrite bind_unfold. unfold case_id_loop, while_True_input.
  rewrite !set_stdin_State, !write_State, !add_out_State. cbn [stdin].
  rewrite while_reading_cons, Hcase.
  rewrite (bind_log _ c) by reflexivity.
  rewrite !set_stdin_State, !write_State, !add_out_State.
  match goal with
  | |- exists written, _ (State _ _ ?big _ _ _) = _ => remember big as B eqn:EB
  end.
  rewrite <- !app_assoc in EB. rewrite EB. eexists. reflexivity.
Qed.

End Flow.

(** X18: a whole successful run of [main].  Let discovery collect the
    list [l], let the first line read select its element number [idx]
    (counted from 0) and the second line be accepted as the case
    reference [case_id], the notebook and its parent folder having
    non-empty names.  Then [main] consumes these two lines and goes on as
    its directory-and-copy part with the selected notebook, that case
    reference and, as label, the name of the notebook's parent folder.
    If moreover [Investigations] is a directory, the composed name passes
    the check and is not taken, the notebook is a regular file whose name
    prefixed with "inv_" fits in a directory entry (at most 255 bytes) and
    dry-run mode is off, [main] ends without a return code, and afterwards
    "Investigations/<name>/inv_<file name>" holds the content of the
    notebook while the notebook and every other regular file keep
    theirs. *)
Theorem main_success :
  forall (f : node) (t : datetime) (out rest : list string) (c : Z)
         (e : string * node) (es : list (string * node))
         (idx : nat) (selected : Path) (content line1 line2 : string)
         (case_id : option string),
    let folder := FS.name (FS.parent selected) in
    let name := compose_dir_name (strftime t) case_id (Some folder) in
    let new_dir := (INVESTIGATIONS_DIR ++ [name])%list in
    let new_filename := "inv_" ++ FS.name selected in
    FS.lookup f PLAYBOOKS_DIR = Some (Dir (e :: es)) ->
    nth_error (collected f PLAYBOOKS_DIR) idx = Some selected ->
    (forall s, select_body (collected f PLAYBOOKS_DIR) line1 s
               = (Ret (Some (Z.of_nat idx)), s)) ->
    (forall s, case_id_body line2 s = (Ret (Some case_id), s)) ->
    Str.truthy (FS.name selected) = true ->
    Str.truthy folder = true ->
    FS.is_dir f INVESTIGATIONS_DIR = true ->
    Re.match_items Re.re_dir_name name = true ->
    FS.exists_ f new_dir = false ->
    FS.lookup f selected = Some (File content) ->
    String.utf8_length new_filename <= 255 ->
    (exists written,
       main (State f t out (line1 :: line2 :: rest) (Some c) false)
       = create_and_copy selected case_id (Some folder)
           (State f t (out ++ written)%list rest (Some c) false))
    /\ exists f' written,
         main (State f t out (line1 :: line2 :: rest) (Some c) false)
         = (Ret None, State f' t (out ++ written)%list rest (Some c) false)
         /\ FS.lookup f' (new_dir ++ [new_filename])%list = Some (File content)
         /\ FS.lookup f' selected = Some (File content)
         /\ (forall q x, FS.lookup f q = Some (File x) ->
                         FS.lookup f' q = Some (File x)).
Proof.
  intros f t out rest c e es idx selected content line1 line2 case_id
         folder name new_dir new_filename
         Hroot Hnth Hsel Hcase Hname Hfolder Hbase Hcheck Hfree Hfile Hfits.
  assert (L : FS.too_long new_filename = false)
    by (unfold FS.too_long, FS.NAME_MAX; apply Nat.ltb_ge; exact Hfits).
  destruct (main_reaches_create f t out rest c false e es idx selected line1 line2
              case_id Hroot Hnth Hsel Hcase Hname Hfolder) as (w1 & E1).
  split; [now exists w1|].
  destruct (create_and_copy_made selected content case_id (Some folder) f t
              (out ++ w1)%list rest c Hbase Hcheck Hfree Hfile L)
    as (f' & E2 & Hcopy & Hsame & Hkeep).
  assert (G : exists written,
             main (State f t out (line1 :: line2 :: rest) (Some c) false)
             = (Ret None, State f' t (out ++ written)%list rest (Some c) false)).
  { rewrite E1. fold folder. rewrite E2.
    match goal with
    | |- exists written, (_, State _ _ ?big _ _ _) = _ => remember big as B eqn:EB
    end.
    rewrite <- app_assoc in EB. rewrite EB. eexists. reflexivity. }
  destruct G as (w & G).
  exists f', w. split; [exact G|]. split; [exact Hcopy|]. split; [exact Hsame | exact Hkeep].
Qed.

Lemma main_success_witness :
  exists f' written,
    main (State Sample.fs0 Sample.t0 [] ["1"; "42"; "more"] (Some 4%Z) false)
    = (Ret None, State f' Sample.t0 ([] ++ written)%list ["more"] (Some 4%Z) false)
    /\ FS.lookup f' ["Investigations"; "2024-01-02T03.04 #42 - a"; "inv_x.ipynb"]
       = Some (File "nb")
    /\ FS.lookup f' ["Playbooks"; "a"; "x.ipynb"] = Some (File "nb")
    /\ (forall q x, FS.lookup Sample.fs0 q = Some (File x) ->
                    FS.lookup f' q = Some (File x)).
Proof.
  apply (main_success Sample.fs0 Sample.t0 [] ["more"] 4%Z
           ("a", Dir [("x.ipynb", File "nb")])
           [(".git", Dir [("y.ipynb", File "no")])]
           0 ["Playbooks"; "a"; "x.ipynb"] "nb" "1" "42" (Some "#42")).
  - reflexivity.
  - reflexivity.
  - intro s. reflexivity.
  - intro s. reflexivity.
  - reflexivity.
  - reflexivity.
  - reflexivity.
  - reflexivity.
  - reflexivity.
  - reflexivity.
  - apply Nat.leb_le. reflexivity.
Defined.

(** X19: the type tests of the logger come first.  Called with a level
    that is not an [int] (a [bool], a [str], [None]), [log] and
    [setLevel] print one line about the invalid level and return, and
    [getName] prints one and returns [None]; none of them raises, not even
    with no level configured or through the attribute [setLevel] misses,
    and the configured level stays as it is. *)
Theorem non_integer_level_is_reported :
  forall (v : value) (src msg : string) (st : state),
    (forall z, v <> VInt z) ->
    MSG.log v src msg st
      = (Ret tt,
         add_out [("[ERROR::MSG.log] Invalid verbosity level: '" ++ value_str v
                   ++ "'. The 'verbosity_level' parameter must be an integer.") ++ nl]
           st)
    /\ MSG.setLevel v st
       = (Ret tt,
          add_out [("[ERROR::MSG.setLevel] Invalid verbosity level: '" ++ value_str v
                    ++ "'. The 'level' parameter must be an integer.") ++ nl]
            st)
    /\ MSG.getName v st
       = (Ret None,
          add_out [("[ERROR::MSG.getName] Invalid verbosity level: '" ++ value_str v
                    ++ "'. The 'level' parameter must be an integer.") ++ nl]
            st).
Proof.
  intros v src msg st H.
  destruct v as [|b|z|s]; try (repeat split; reflexivity).
  now contradiction (H z).
Qed.

Lemma non_integer_level_is_reported_witness :
  MSG.log (VBool true) "main" "x" (Sample.st0 None false [])
  = (Ret tt,
     State Sample.fs0 Sample.t0
       ["[ERROR::MSG.log] Invalid verbosity level: 'True'. The 'verbosity_level' parameter must be an integer."
        ++ nl]
       [] None false).
Proof.
  apply (non_integer_level_is_reported (VBool true) "main" "x"
           (Sample.st0 None false [])).
  intros z. discriminate.
Defined.
